(** * moderatorDiscordBot: the punishment lifecycle of [cogs/moderation.py]

    A shallow embedding of [src/database.py] and of the warning and
    punishment paths of [src/cogs/moderation.py], and the properties of
    the specification that they decide.

    Conventions of the embedding.
    - Discord snowflakes, row ids and warning counts are [Z].
    - A naive [datetime] is the number of microseconds since the epoch
      and a [timedelta] a number of microseconds (the resolution of both
      types in Python), within the ranges the two types have.
    - The [ends_at] column is TEXT: a row holds what
      [datetime.fromisoformat] makes of its text, or that it makes nothing
      of it.
    - [total_seconds()] is an [int / int] true division: the binary64
      number nearest to the quotient, kept by its mantissa and exponent.
    - The tables of the MySQL store are lists of rows in insertion order.
    - Coroutines are computations in a state-and-exception monad over the
      [World]: the store, the pending tasks of the event loop, the Discord
      guild state, the messages sent so far, the clock and the failures of
      the Discord API. *)

From stdpp Require Import gmap strings list.
From Stdlib Require Import ZArith Lia.

Local Open Scope string_scope.
Local Open Scope list_scope.
Local Open Scope Z_scope.

(** ** Dates and numbers *)

(** The text of an [ends_at] column, by what [datetime.fromisoformat]
    makes of it. *)
Inductive IsoText :=
| naive_iso (t : Z)      (* "2024-05-01T12:00:00": the naive datetime t *)
| aware_iso (t : Z)      (* "2024-05-01T12:00:00+00:00": an aware one, the instant t *)
| not_iso (s : string).  (* any other text *)

Inductive Datetime :=
| naive (t : Z)
| aware (t : Z).

(** A number handed to [asyncio.sleep]: an [int], or a [float] by its
    value [mantissa * 2 ^ exponent]. *)
Inductive Number :=
| py_int (n : Z)
| py_float (mantissa exponent : Z).

Coercion py_int : Z >-> Number.

(** [x <= 0] *)
Definition le_0 (x : Number) : bool :=
  match x with
  | py_int n => bool_decide (n <= 0)
  | py_float mantissa _ => bool_decide (mantissa <= 0)
  end.

(** The integer nearest to [n / d], the even one of two equally near;
    [0 < d]. *)
Definition round_half_even (n d : Z) : Z :=
  let q := n / d in
  let r := n mod d in
  if bool_decide (2 * r < d) then q
  else if bool_decide (d < 2 * r) then q + 1
  else if Z.even q then q else q + 1.

(** [n / (d * 2 ^ e)] as a fraction of integers. *)
Definition scaled (n d e : Z) : Z * Z :=
  if bool_decide (0 <= e) then (n, d * 2 ^ e) else (n * 2 ^ (- e), d).

(** The binary64 number nearest to [n / d] for [0 < n] and [0 < d]: its
    53-bit mantissa and its exponent. The exponent range of binary64 is
    not modelled; no quotient of a [timedelta] by [10 ** 6] leaves it. *)
Definition nearest_double (n d : Z) : Z * Z :=
  let e0 := Z.log2 n - Z.log2 d - 53 in
  let e := if bool_decide ((scaled n d e0).1 < (scaled n d e0).2 * 2 ^ 53) then e0 else e0 + 1 in
  let m := round_half_even (scaled n d e).1 (scaled n d e).2 in
  if bool_decide (m = 2 ^ 53) then (2 ^ 52, e + 1) else (m, e).

(** [n / d] of two [int]s, [0 < d]: correctly rounded. *)
Definition true_divide (n d : Z) : Number :=
  if bool_decide (n = 0) then py_float 0 0 else
  let '(m, e) := nearest_double (Z.abs n) d in
  py_float (Z.sgn n * m) e.

(** [timedelta.total_seconds()] *)
Definition total_seconds (td : Z) : Number := true_divide td 1000000.

(** [datetime.min] and [datetime.max], and the days a [timedelta] may
    span. *)
Definition datetime_min : Z := -62135596800000000.
Definition datetime_max : Z := 253402300799999999.
Definition timedelta_max_days : Z := 999999999.

(** ** The store: [src/database.py] *)

Module Database.

(** [CREATE TABLE warnings]; [ended_at] is never written by the program. *)
Record WarningRow := {
  w_id : Z;
  w_user_id : Z;
  w_guild_id : Z;
  w_moderator_id : Z;
  w_reason : string;
  w_timestamp : Z;
  w_ended_at : option Z
}.

(** [CREATE TABLE punishments]; [ends_at] is a TEXT column and
    [ends_at = None] is SQL NULL. *)
Record PunishmentRow := {
  p_id : Z;
  p_user_id : Z;
  p_guild_id : Z;
  p_action : string;
  p_ends_at : option IsoText
}.

(** The two tables and the AUTO_INCREMENT counter of [warnings]. *)
Record Db := {
  warnings : list WarningRow;
  warnings_auto_increment : Z;
  punishments : list PunishmentRow
}.

Definition for_pair (user_id guild_id : Z) (r : WarningRow) : bool :=
  bool_decide (w_user_id r = user_id) && bool_decide (w_guild_id r = guild_id).

Definition for_key (user_id guild_id : Z) (action : string) (r : PunishmentRow) : bool :=
  bool_decide (p_user_id r = user_id) && bool_decide (p_guild_id r = guild_id)
  && bool_decide (p_action r = action).

(** [SELECT user_id, guild_id, action, ends_at FROM punishments
    WHERE ends_at IS NOT NULL] *)
Definition get_all_active_punishments (db : Db) : list (Z * Z * string * IsoText) :=
  omap (fun r => match p_ends_at r with
                 | Some e => Some (p_user_id r, p_guild_id r, p_action r, e)
                 | None => None
                 end) (punishments db).

(** [DELETE FROM punishments WHERE user_id = .. AND guild_id = .. AND action = ..] *)
Definition delete_punishment (user_id guild_id : Z) (action : string) (db : Db) : Db :=
  {| warnings := warnings db;
     warnings_auto_increment := warnings_auto_increment db;
     punishments :=
       List.filter (fun r => negb (for_key user_id guild_id action r)) (punishments db) |}.

(** [INSERT INTO warnings (user_id, guild_id, moderator_id, reason, timestamp)] *)
Definition add_warning (user_id guild_id moderator_id : Z) (reason : string)
    (timestamp : Z) (db : Db) : Db :=
  {| warnings := warnings db ++
       [ {| w_id := warnings_auto_increment db;
            w_user_id := user_id;
            w_guild_id := guild_id;
            w_moderator_id := moderator_id;
            w_reason := reason;
            w_timestamp := timestamp;
            w_ended_at := None |} ];
     warnings_auto_increment := warnings_auto_increment db + 1;
     punishments := punishments db |}.

(** [SELECT COUNT( * ) FROM warnings WHERE user_id = .. AND guild_id = ..] *)
Definition get_warnings_count (user_id guild_id : Z) (db : Db) : Z :=
  Z.of_nat (length (List.filter (for_pair user_id guild_id) (warnings db))).

(** [SELECT reason, timestamp, moderator_id FROM warnings WHERE ..] *)
Definition get_all_user_warnings (user_id guild_id : Z) (db : Db) : list (string * Z * Z) :=
  List.map (fun r => (w_reason r, w_timestamp r, w_moderator_id r))
           (List.filter (for_pair user_id guild_id) (warnings db)).

(** The greatest element of a list of ids: [ORDER BY id DESC LIMIT 1]. *)
Fixpoint max_id (ids : list Z) : option Z :=
  match ids with
  | [] => None
  | i :: rest =>
      match max_id rest with
      | None => Some i
      | Some j => Some (Z.max i j)
      end
  end.

(** [SELECT id FROM warnings WHERE user_id = .. AND guild_id = ..
    ORDER BY id DESC LIMIT 1]; [None] is the empty result of [fetchone]. *)
Definition get_one_user_warning (user_id guild_id : Z) (db : Db) : option Z :=
  max_id (List.map w_id (List.filter (for_pair user_id guild_id) (warnings db))).

(** [DELETE FROM warnings WHERE id = ..] *)
Definition delete_last_warning (warning_id : Z) (db : Db) : Db :=
  {| warnings := List.filter (fun r => negb (bool_decide (w_id r = warning_id))) (warnings db);
     warnings_auto_increment := warnings_auto_increment db;
     punishments := punishments db |}.

(** [DELETE FROM warnings WHERE user_id = .. AND guild_id = ..] *)
Definition delete_all_user_warnings (user_id guild_id : Z) (db : Db) : Db :=
  {| warnings := List.filter (fun r => negb (for_pair user_id guild_id r)) (warnings db);
     warnings_auto_increment := warnings_auto_increment db;
     punishments := punishments db |}.

(** What the schema guarantees of the [warnings] table: [id] is a
    primary key handed out by AUTO_INCREMENT. *)
Definition wf (db : Db) : Prop :=
  NoDup (List.map w_id (warnings db)) /\
  Forall (fun r => w_id r < warnings_auto_increment db) (warnings db).

End Database.

(** ** The policy table: [ModeratingCog.PUNISHMENTS] *)

Definition timedelta_hours (h : Z) : Z := h * 3600 * 1000000.

(** total warnings -> (action, duration); [None] is Python's [None]. *)
Definition PUNISHMENTS : gmap Z (string * option Z) :=
  <[3 := ("mute", Some (timedelta_hours 1))]>
  (<[4 := ("mute", Some (timedelta_hours 12))]>
  (<[5 := ("mute", Some (timedelta_hours 24))]>
  (<[6 := ("mute", Some (timedelta_hours 168))]>
  (<[7 := ("mute", Some (timedelta_hours 672))]>
  (<[8 := ("ban", None)]> ∅))))).

(** The truth value of [duration] in [if duration:]: [None] and the zero
    [timedelta] are false. *)
Definition truthy (duration : option Z) : option Z :=
  match duration with
  | Some d => if bool_decide (d = 0) then None else Some d
  | None => None
  end.


(** ** The world a coroutine runs in *)

(** The exceptions of discord.py that the cog handles and the rest of
    them, the built-in exceptions its own expressions raise, and the
    error of the store's driver. *)
Inductive Exn :=
| Forbidden
| NotFound
| HTTPException
| ValueError
| TypeError
| OverflowError
| OperationalError.

#[global] Instance Exn_eq_dec : EqDecision Exn := ltac:(solve_decision).

(** The calls of the Discord API the cog makes; each may fail. *)
Inductive Call :=
| c_send            (* ctx.send, channel.send *)
| c_dm              (* member.send *)
| c_timeout         (* member.timeout *)
| c_add_roles       (* member.add_roles *)
| c_remove_roles    (* member.remove_roles *)
| c_create_role     (* guild.create_role *)
| c_set_permissions (* channel.set_permissions *)
| c_bans            (* guild.bans *)
| c_ban             (* member.ban *)
| c_unban           (* guild.unban *)
| c_kick.           (* member.kick *)

Record Channel := {
  ch_id : Z;
  ch_guild : Z;
  ch_name : string;
  ch_text : bool
}.

(** The guild state behind the Discord API, as far as the cog looks at
    it. Members, role holders, timeouts and bans are (guild, user) pairs. *)
Record Guilds := {
  guilds : gset Z;            (* bot.get_guild resolves these *)
  members : gset (Z * Z);     (* guild.get_member resolves these *)
  muted_roles : gset Z;       (* guilds that have a role named "Muted" *)
  muted : gset (Z * Z);       (* holders of the "Muted" role *)
  timeouts : gset (Z * Z);
  bans : gset (Z * Z);
  channels : list Channel
}.

(** What a command receives: [ctx.guild], [ctx.channel], [ctx.author].
    The [member] argument of a command is a member of [ctx.guild] and is
    given by its user id. *)
Record Context := {
  ctx_guild : Z;
  ctx_channel : Z;
  ctx_author : Z
}.

(** A task of the event loop, suspended in its [asyncio.sleep]: the
    coroutine made by [cog_load] with its arguments, and the two closures
    of [apply_punishment] with what they capture, [delay] being their
    [duration]. *)
Inductive Task :=
| delayed_unpunish (user_id guild_id : Z) (action : string) (delay : Number)
| unmute_later (member : Z) (ctx : Context) (delay : Z)
| unban_later (member : Z) (ctx : Context) (delay : Z).

(** The messages of the cog, one constructor per format string. *)
Inductive Notice :=
| n_auto_unmuted (member : Z)
| n_auto_unbanned (user_id : Z)
| n_muted (member : Z) (duration : option Z)
| n_unmuted (member : Z)
| n_already_banned (member : Z)
| n_banned (member : Z) (duration : option Z)
| n_unbanned_after_temporary (member : Z)
| n_unmuted_below_threshold (member : Z)
| n_warned (member total : Z) (reason : string)
| n_you_were_warned (guild : Z) (reason : string) (total : Z)
| n_log_warned (member author : Z) (reason : string)
| n_no_warnings (member : Z)
| n_removed_latest (member : Z)
| n_log_removed (author member : Z)
| n_cleared (member : Z)
| n_log_cleared (author member : Z)
| n_cannot_unmute (member : Z)
| n_timeout_muted (member minutes : Z)
| n_log_timeout_muted (member author minutes : Z)
| n_cannot_mute
| n_timeout_unmuted (member : Z)
| n_log_timeout_unmuted (member author : Z)
| n_cannot_unmute_him
| n_kicked (member : Z) (reason : string)
| n_log_kicked (member author : Z) (reason : string)
| n_cannot_kick
| n_cmd_banned (member : Z) (reason : string)
| n_log_banned (member author : Z) (reason : string)
| n_cannot_ban.

Inductive Target := to_channel (channel_id : Z) | to_user (user_id : Z).

Record World := {
  db : Database.Db;
  tasks : list Task;                 (* pending tasks of bot.loop *)
  discord : Guilds;
  sent : list (Target * Notice);     (* messages delivered so far *)
  log_channel_id : option Z;         (* self.log_channel_id *)
  clock : nat -> Z;                  (* successive readings of utcnow() *)
  ticks : nat;                       (* readings taken so far *)
  faults : Call -> option Exn;       (* the API calls that fail, and how *)
  connect_fault : option Exn         (* what aiomysql.create_pool raises, if it does *)
}.

Definition set_db (f : Database.Db -> Database.Db) (w : World) : World :=
  {| db := f (db w); tasks := tasks w; discord := discord w; sent := sent w;
     log_channel_id := log_channel_id w; clock := clock w; ticks := ticks w;
     faults := faults w; connect_fault := connect_fault w |}.

Definition set_tasks (f : list Task -> list Task) (w : World) : World :=
  {| db := db w; tasks := f (tasks w); discord := discord w; sent := sent w;
     log_channel_id := log_channel_id w; clock := clock w; ticks := ticks w;
     faults := faults w; connect_fault := connect_fault w |}.

Definition set_discord (f : Guilds -> Guilds) (w : World) : World :=
  {| db := db w; tasks := tasks w; discord := f (discord w); sent := sent w;
     log_channel_id := log_channel_id w; clock := clock w; ticks := ticks w;
     faults := faults w; connect_fault := connect_fault w |}.

Definition set_sent (f : list (Target * Notice) -> list (Target * Notice)) (w : World) : World :=
  {| db := db w; tasks := tasks w; discord := discord w; sent := f (sent w);
     log_channel_id := log_channel_id w; clock := clock w; ticks := ticks w;
     faults := faults w; connect_fault := connect_fault w |}.

Definition set_ticks (f : nat -> nat) (w : World) : World :=
  {| db := db w; tasks := tasks w; discord := discord w; sent := sent w;
     log_channel_id := log_channel_id w; clock := clock w; ticks := f (ticks w);
     faults := faults w; connect_fault := connect_fault w |}.

Definition set_muted_roles (f : gset Z -> gset Z) (d : Guilds) : Guilds :=
  {| guilds := guilds d; members := members d; muted_roles := f (muted_roles d);
     muted := muted d; timeouts := timeouts d; bans := bans d; channels := channels d |}.

Definition set_muted (f : gset (Z * Z) -> gset (Z * Z)) (d : Guilds) : Guilds :=
  {| guilds := guilds d; members := members d; muted_roles := muted_roles d;
     muted := f (muted d); timeouts := timeouts d; bans := bans d; channels := channels d |}.

Definition set_timeouts (f : gset (Z * Z) -> gset (Z * Z)) (d : Guilds) : Guilds :=
  {| guilds := guilds d; members := members d; muted_roles := muted_roles d;
     muted := muted d; timeouts := f (timeouts d); bans := bans d; channels := channels d |}.

Definition set_bans (f : gset (Z * Z) -> gset (Z * Z)) (d : Guilds) : Guilds :=
  {| guilds := guilds d; members := members d; muted_roles := muted_roles d;
     muted := muted d; timeouts := timeouts d; bans := f (bans d); channels := channels d |}.

Definition set_members (f : gset (Z * Z) -> gset (Z * Z)) (d : Guilds) : Guilds :=
  {| guilds := guilds d; members := f (members d); muted_roles := muted_roles d;
     muted := muted d; timeouts := timeouts d; bans := bans d; channels := channels d |}.

(** ** Coroutines: state and exceptions *)

Inductive Res (A : Type) :=
| Ok (a : A)
| Raise (e : Exn).
Arguments Ok {A} a.
Arguments Raise {A} e.

(** A coroutine run to completion. What it did before raising stays
    done: every write of the store is committed at once and the Discord
    API has no transactions. *)
Definition Coro (A : Type) : Type := World -> Res A * World.

#[global] Instance coro_ret : MRet Coro := fun A a w => (Ok a, w).

#[global] Instance coro_bind : MBind Coro := fun A B k m w =>
  match m w with
  | (Ok a, w') => k a w'
  | (Raise e, w') => (Raise e, w')
  end.

Definition raise {A} (e : Exn) : Coro A := fun w => (Raise e, w).
Definition gets {A} (f : World -> A) : Coro A := fun w => (Ok (f w), w).
Definition modify (f : World -> World) : Coro unit := fun w => (Ok tt, f w).

(** [try: body except exn: handler] *)
Definition try_except (body : Coro unit) (exn : Exn) (handler : Coro unit) : Coro unit :=
  fun w =>
    match body w with
    | (Raise e, w') => if bool_decide (e = exn) then handler w' else (Raise e, w')
    | r => r
    end.

(** [for x in xs: body x] *)
Fixpoint for_each {A} (xs : list A) (body : A -> Coro unit) : Coro unit :=
  match xs with
  | [] => mret tt
  | x :: rest => body x ;; for_each rest body
  end.

(** The final world of a coroutine and whether it raised. *)
Definition exec {A} (m : Coro A) (w : World) : World := snd (m w).
Definition result {A} (m : Coro A) (w : World) : Res A := fst (m w).

(** ** The Discord API and the event loop *)

(** An API call goes through: it raises what [faults] says, if anything. *)
Definition api (c : Call) : Coro unit :=
  fun w => match faults w c with
           | Some e => (Raise e, w)
           | None => (Ok tt, w)
           end.

Definition deliver (t : Target) (n : Notice) : Coro unit :=
  modify (set_sent (fun l => l ++ [(t, n)])).

(** [ctx.send(..)], [channel.send(..)], [member.send(..)] *)
Definition ctx_send (ctx : Context) (n : Notice) : Coro unit :=
  api c_send ;; deliver (to_channel (ctx_channel ctx)) n.
Definition channel_send (ch : Channel) (n : Notice) : Coro unit :=
  api c_send ;; deliver (to_channel (ch_id ch)) n.
Definition member_send (member : Z) (n : Notice) : Coro unit :=
  api c_dm ;; deliver (to_user member) n.

(** [discord.utils.get(guild.roles, name="Muted")] is not [None] *)
Definition has_muted_role (guild : Z) : Coro bool :=
  gets (fun w => bool_decide (guild ∈ muted_roles (discord w))).

(** [mute_role in member.roles] *)
Definition in_member_roles (guild member : Z) : Coro bool :=
  gets (fun w => bool_decide ((guild, member) ∈ muted (discord w))).

(** [guild.create_role(name="Muted")]: the new role has no holder. *)
Definition create_role (guild : Z) : Coro unit :=
  api c_create_role ;;
  modify (set_discord (fun d =>
    set_muted (filter (fun p => p.1 ≠ guild))
      (set_muted_roles (fun s => s ∪ {[guild]}) d))).

(** [member.add_roles(mute_role)], [member.remove_roles(mute_role)] *)
Definition add_roles (guild member : Z) : Coro unit :=
  api c_add_roles ;;
  modify (set_discord (set_muted (fun s => s ∪ {[(guild, member)]}))).
Definition remove_roles (guild member : Z) : Coro unit :=
  api c_remove_roles ;;
  modify (set_discord (set_muted (fun s => s ∖ {[(guild, member)]}))).

(** [datetime.utcnow()] *)
Definition utcnow : Coro Z :=
  fun w => (Ok (clock w (ticks w)), set_ticks S w).

(** [member.timeout(None)] lifts a timeout. [member.timeout(timedelta)]
    asks for one until now plus the [timedelta], a [datetime] that has to
    exist; the member is timed out while that instant lies ahead. *)
Definition timeout (guild member : Z) (until : option Z) : Coro unit :=
  match until with
  | None =>
      api c_timeout ;;
      modify (set_discord (set_timeouts (fun s => s ∖ {[(guild, member)]})))
  | Some d =>
      now ← utcnow;
      if negb (bool_decide (datetime_min <= now + d <= datetime_max)) then raise OverflowError else
      api c_timeout ;;
      modify (set_discord (set_timeouts (fun s =>
        if bool_decide (0 < d) then s ∪ {[(guild, member)]} else s ∖ {[(guild, member)]})))
  end.

(** [[entry async for entry in guild.bans()]] followed by
    [discord.utils.get(bans, user=member)] *)
Definition is_banned (guild member : Z) : Coro bool :=
  api c_bans ;;
  gets (fun w => bool_decide ((guild, member) ∈ bans (discord w))).

(** [member.ban(..)]: the user is banned and leaves the guild. *)
Definition ban (guild member : Z) : Coro unit :=
  api c_ban ;;
  modify (set_discord (fun d =>
    set_members (fun s => s ∖ {[(guild, member)]})
      (set_bans (fun s => s ∪ {[(guild, member)]}) d))).

(** [guild.unban(discord.Object(id=..))]: [NotFound] when there is no such ban. *)
Definition unban (guild user_id : Z) : Coro unit :=
  api c_unban ;;
  banned ← gets (fun w => bool_decide ((guild, user_id) ∈ bans (discord w)));
  if banned : bool
  then modify (set_discord (set_bans (fun s => s ∖ {[(guild, user_id)]})))
  else raise NotFound.

(** [member.kick(..)] *)
Definition kick (guild member : Z) : Coro unit :=
  api c_kick ;;
  modify (set_discord (set_members (fun s => s ∖ {[(guild, member)]}))).

(** [guild.channels] *)
Definition guild_channels (guild : Z) : Coro (list Channel) :=
  gets (fun w => List.filter (fun ch => bool_decide (ch_guild ch = guild))
                             (channels (discord w))).

(** [discord.utils.get(guild.text_channels, name="general")] *)
Definition general_channel (guild : Z) : Coro (option Channel) :=
  gets (fun w => List.find (fun ch => bool_decide (ch_guild ch = guild) && ch_text ch
                                      && bool_decide (ch_name ch = "general"))
                           (channels (discord w))).

(** [guild.get_channel(channel_id)] *)
Definition get_channel (guild channel_id : Z) : Coro (option Channel) :=
  gets (fun w => List.find (fun ch => bool_decide (ch_guild ch = guild)
                                      && bool_decide (ch_id ch = channel_id))
                           (channels (discord w))).

(** [datetime.fromisoformat(text)] *)
Definition fromisoformat (text : IsoText) : Coro Datetime :=
  match text with
  | naive_iso t => mret (naive t)
  | aware_iso t => mret (aware t)
  | not_iso _ => raise ValueError
  end.

(** [ends_at - now] where [now] is naive: the two have to be of a kind. *)
Definition datetime_sub (ends_at : Datetime) (now : Z) : Coro Z :=
  match ends_at with
  | naive t => mret (t - now)
  | aware _ => raise TypeError
  end.

(** [timedelta(minutes=duration)] *)
Definition timedelta_minutes (duration : Z) : Coro Z :=
  if bool_decide (- timedelta_max_days <= duration / 1440 <= timedelta_max_days)
  then mret (duration * 60 * 1000000)
  else raise OverflowError.

(** [bot.loop.create_task(..)] *)
Definition create_task (t : Task) : Coro unit :=
  modify (set_tasks (fun l => l ++ [t])).

(** [Database.connect]: opens the pool and creates the tables that do
    not exist, which changes no row; a failure is printed and raised
    again. *)
Definition connect : Coro unit :=
  fun w => match connect_fault w with
           | Some e => (Raise e, w)
           | None => (Ok tt, w)
           end.

(** The store, reached through [self.db]. *)
Definition db_read {A} (q : Database.Db -> A) : Coro A := gets (fun w => q (db w)).
Definition db_write (q : Database.Db -> Database.Db) : Coro unit := modify (set_db q).

(** ** The cog: [src/cogs/moderation.py] *)

(** [ModeratingCog.send_log] *)
Definition send_log (guild : Z) (message : Notice) : Coro unit :=
  id ← gets log_channel_id;
  match id with
  | None => mret tt
  | Some channel_id =>
      if bool_decide (channel_id = 0) then mret tt else
      channel ← get_channel guild channel_id;
      match channel with
      | Some ch => channel_send ch message
      | None => mret tt
      end
  end.

(** [ModeratingCog._delayed_unpunish], resumed from its
    [await asyncio.sleep(delay)]. *)
Definition _delayed_unpunish (user_id guild_id : Z) (action : string) (delay : Number)
    : Coro unit :=
  guild ← gets (fun w => bool_decide (guild_id ∈ guilds (discord w)));
  if negb guild then mret tt else
  member ← gets (fun w => bool_decide ((guild_id, user_id) ∈ members (discord w)));
  if negb member then mret tt else
  (if bool_decide (action = "mute") then
     mute_role ← has_muted_role guild_id;
     holds ← in_member_roles guild_id user_id;
     if mute_role && holds then
       remove_roles guild_id user_id ;;
       channel ← general_channel guild_id;
       match channel with
       | Some ch => channel_send ch (n_auto_unmuted user_id)
       | None => mret tt
       end
     else mret tt
   else if bool_decide (action = "ban") then
     try_except
       (unban guild_id user_id ;;
        channel ← general_channel guild_id;
        match channel with
        | Some ch => channel_send ch (n_auto_unbanned user_id)
        | None => mret tt
        end)
       NotFound (mret tt)
   else mret tt) ;;
  db_write (Database.delete_punishment user_id guild_id action).

(** The body of the loop of [cog_load]. *)
Definition recover_row (row : Z * Z * string * IsoText) : Coro unit :=
  let '(user_id, guild_id, action, ends_at_str) := row in
  ends_at ← fromisoformat ends_at_str;
  now ← utcnow;
  delta ← datetime_sub ends_at now;
  let delay := total_seconds delta in
  let delay := if le_0 delay then py_int 0 else delay in
  create_task (delayed_unpunish user_id guild_id action delay).

(** [ModeratingCog.cog_load] *)
Definition cog_load : Coro unit :=
  connect ;;
  rows ← db_read Database.get_all_active_punishments;
  for_each rows recover_row.

(** [ModeratingCog.apply_punishment] *)
Definition apply_punishment (member : Z) (warnings_count : Z) (ctx : Context) : Coro unit :=
  match PUNISHMENTS !! warnings_count with
  | None => mret tt
  | Some (action, duration) =>
      if bool_decide (action = "mute") then
        mute_role ← has_muted_role (ctx_guild ctx);
        (if mute_role : bool then mret tt else
           create_role (ctx_guild ctx) ;;
           chans ← guild_channels (ctx_guild ctx);
           for_each chans (fun _ => api c_set_permissions)) ;;
        holds ← in_member_roles (ctx_guild ctx) member;
        (if holds : bool then timeout (ctx_guild ctx) member None else mret tt) ;;
        add_roles (ctx_guild ctx) member ;;
        ctx_send ctx (n_muted member duration) ;;
        match truthy duration with
        | Some d => create_task (unmute_later member ctx d)
        | None => mret tt
        end
      else if bool_decide (action = "ban") then
        banned ← is_banned (ctx_guild ctx) member;
        if banned : bool then ctx_send ctx (n_already_banned member) else
        ban (ctx_guild ctx) member ;;
        ctx_send ctx (n_banned member duration) ;;
        match truthy duration with
        | Some d => create_task (unban_later member ctx d)
        | None => mret tt
        end
      else mret tt
  end.

(** The closures [unmute_later] and [unban_later] of [apply_punishment],
    resumed from their [await asyncio.sleep(..)]. *)
Definition run_unmute_later (member : Z) (ctx : Context) : Coro unit :=
  remove_roles (ctx_guild ctx) member ;;
  ctx_send ctx (n_unmuted member).

Definition run_unban_later (member : Z) (ctx : Context) : Coro unit :=
  unban (ctx_guild ctx) member ;;
  ctx_send ctx (n_unbanned_after_temporary member).

(** [ModeratingCog.adjust_punishment_after_change] *)
Definition adjust_punishment_after_change (member : Z) (warn_count : Z) (ctx : Context) : Coro unit :=
  if bool_decide (warn_count < 3) then
    mute_role ← has_muted_role (ctx_guild ctx);
    holds ← in_member_roles (ctx_guild ctx) member;
    (if mute_role && holds then
       remove_roles (ctx_guild ctx) member ;;
       ctx_send ctx (n_unmuted_below_threshold member)
     else mret tt) ;;
    try_except (timeout (ctx_guild ctx) member None) Forbidden (mret tt)
  else mret tt.

(** [ModeratingCog.cmd_warn] *)
Definition cmd_warn (ctx : Context) (member : Z) (reason : string) : Coro unit :=
  now ← utcnow;
  db_write (Database.add_warning member (ctx_guild ctx) (ctx_author ctx) reason now) ;;
  total_warnings ← db_read (Database.get_warnings_count member (ctx_guild ctx));
  ctx_send ctx (n_warned member total_warnings reason) ;;
  try_except
    (member_send member (n_you_were_warned (ctx_guild ctx) reason total_warnings) ;;
     send_log (ctx_guild ctx) (n_log_warned member (ctx_author ctx) reason))
    Forbidden (mret tt) ;;
  match PUNISHMENTS !! total_warnings with
  | Some _ => apply_punishment member total_warnings ctx
  | None => mret tt
  end.

(** [ModeratingCog.cmd_delwarn] *)
Definition cmd_delwarn (ctx : Context) (member : Z) : Coro unit :=
  row ← db_read (Database.get_one_user_warning member (ctx_guild ctx));
  match row with
  | None => ctx_send ctx (n_no_warnings member)
  | Some warning_id =>
      db_write (Database.delete_last_warning warning_id) ;;
      ctx_send ctx (n_removed_latest member) ;;
      send_log (ctx_guild ctx) (n_log_removed (ctx_author ctx) member) ;;
      warn_count ← db_read (Database.get_warnings_count member (ctx_guild ctx));
      apply_punishment member warn_count ctx ;;
      adjust_punishment_after_change member warn_count ctx
  end.

(** [ModeratingCog.cmd_clearwarns] *)
Definition cmd_clearwarns (ctx : Context) (member : Z) : Coro unit :=
  db_write (Database.delete_all_user_warnings member (ctx_guild ctx)) ;;
  ctx_send ctx (n_cleared member) ;;
  send_log (ctx_guild ctx) (n_log_cleared (ctx_author ctx) member) ;;
  try_except (timeout (ctx_guild ctx) member None) Forbidden (mret tt) ;;
  mute_role ← has_muted_role (ctx_guild ctx);
  holds ← in_member_roles (ctx_guild ctx) member;
  (if mute_role && holds then
     try_except
       (remove_roles (ctx_guild ctx) member ;;
        ctx_send ctx (n_unmuted member))
       Forbidden (ctx_send ctx (n_cannot_unmute member))
   else mret tt) ;;
  try_except (unban (ctx_guild ctx) member) NotFound (mret tt).

(** [ModeratingCog.cmd_mute]: a timeout of [duration] minutes. *)
Definition cmd_mute (ctx : Context) (member : Z) (duration : Z) : Coro unit :=
  try_except
    (until ← timedelta_minutes duration;
     timeout (ctx_guild ctx) member (Some until) ;;
     ctx_send ctx (n_timeout_muted member duration) ;;
     send_log (ctx_guild ctx) (n_log_timeout_muted member (ctx_author ctx) duration))
    Forbidden (ctx_send ctx n_cannot_mute).

(** [ModeratingCog.cmd_unmute] *)
Definition cmd_unmute (ctx : Context) (member : Z) : Coro unit :=
  try_except
    (timeout (ctx_guild ctx) member None ;;
     ctx_send ctx (n_timeout_unmuted member) ;;
     send_log (ctx_guild ctx) (n_log_timeout_unmuted member (ctx_author ctx)))
    Forbidden (ctx_send ctx n_cannot_unmute_him).

(** [ModeratingCog.cmd_kick] *)
Definition cmd_kick (ctx : Context) (member : Z) (reason : string) : Coro unit :=
  try_except
    (kick (ctx_guild ctx) member ;;
     ctx_send ctx (n_kicked member reason) ;;
     send_log (ctx_guild ctx) (n_log_kicked member (ctx_author ctx) reason))
    Forbidden (ctx_send ctx n_cannot_kick).

(** [ModeratingCog.cmd_ban] *)
Definition cmd_ban (ctx : Context) (member : Z) (reason : string) : Coro unit :=
  try_except
    (ban (ctx_guild ctx) member ;;
     ctx_send ctx (n_cmd_banned member reason) ;;
     send_log (ctx_guild ctx) (n_log_banned member (ctx_author ctx) reason))
    Forbidden (ctx_send ctx n_cannot_ban).

(** ** The running program *)

(** What the event loop runs when a task's sleep is over. *)
Definition run_task (t : Task) : Coro unit :=
  match t with
  | delayed_unpunish user_id guild_id action delay =>
      _delayed_unpunish user_id guild_id action delay
  | unmute_later member ctx _ => run_unmute_later member ctx
  | unban_later member ctx _ => run_unban_later member ctx
  end.

(** The loop resumes the [i]-th pending task, which then runs to its end. *)
Definition resume (i : nat) : Coro unit :=
  fun w => match tasks w !! i with
           | Some t => run_task t (set_tasks (delete i) w)
           | None => (Ok tt, w)
           end.

(** Whatever happens outside the modelled coroutines: members come and
    go, roles and channels change, API calls start or stop failing. The
    commands [purge], [warns], [unban] and [banlist], which write neither
    table and create no task, are steps of this kind. *)
Definition outside (d : Guilds) (s : list (Target * Notice)) (f : Call -> option Exn)
    (w : World) : World :=
  {| db := db w; tasks := tasks w; discord := d; sent := s;
     log_channel_id := log_channel_id w; clock := clock w; ticks := ticks w;
     faults := f; connect_fault := connect_fault w |}.

Inductive Op :=
| op_cog_load
| op_resume (i : nat)
| op_warn (ctx : Context) (member : Z) (reason : string)
| op_delwarn (ctx : Context) (member : Z)
| op_clearwarns (ctx : Context) (member : Z)
| op_mute (ctx : Context) (member : Z) (duration : Z)
| op_unmute (ctx : Context) (member : Z)
| op_kick (ctx : Context) (member : Z) (reason : string)
| op_ban (ctx : Context) (member : Z) (reason : string)
| op_outside (d : Guilds) (s : list (Target * Notice)) (f : Call -> option Exn).

(** One step of the program. An exception that leaves a command or a
    task is reported by the framework; the world stays as the coroutine
    left it. *)
Definition step (o : Op) (w : World) : World :=
  match o with
  | op_cog_load => exec cog_load w
  | op_resume i => exec (resume i) w
  | op_warn ctx member reason => exec (cmd_warn ctx member reason) w
  | op_delwarn ctx member => exec (cmd_delwarn ctx member) w
  | op_clearwarns ctx member => exec (cmd_clearwarns ctx member) w
  | op_mute ctx member duration => exec (cmd_mute ctx member duration) w
  | op_unmute ctx member => exec (cmd_unmute ctx member) w
  | op_kick ctx member reason => exec (cmd_kick ctx member reason) w
  | op_ban ctx member reason => exec (cmd_ban ctx member reason) w
  | op_outside d s f => outside d s f w
  end.

Definition steps (ops : list Op) (w : World) : World :=
  fold_left (fun w o => step o w) ops w.

(** ** A small world to run the program in *)

Definition no_faults : Call -> option Exn := fun _ => None.

Definition empty_db : Database.Db :=
  {| Database.warnings := []; Database.warnings_auto_increment := 1;
     Database.punishments := [] |}.

(** Guild 1 with a text channel "general" (id 100) and members 10 and 20. *)
Definition guild1 : Guilds :=
  {| guilds := {[1]}; members := {[(1, 10); (1, 20)]}; muted_roles := ∅;
     muted := ∅; timeouts := ∅; bans := ∅;
     channels := [ {| ch_id := 100; ch_guild := 1; ch_name := "general"; ch_text := true |} ] |}.

Definition world0 : World :=
  {| db := empty_db; tasks := []; discord := guild1; sent := [];
     log_channel_id := None; clock := fun n => 1000 + Z.of_nat n; ticks := 0%nat;
     faults := no_faults; connect_fault := None |}.

Definition ctx1 : Context := {| ctx_guild := 1; ctx_channel := 100; ctx_author := 20 |}.


(** ** Notions the properties are stated with *)

(** [keeps R m]: running [m], to its end or to the exception it raises,
    takes every world to an [R]-related one. *)
Definition keeps {A} (R : relation World) (m : Coro A) : Prop :=
  forall w, R w (exec m w).

(** The part [f] of the world is the same before and after. *)
Definition same {X} (f : World -> X) : relation World :=
  fun w w' => f w' = f w.

Definition warnings_of (w : World) : list Database.WarningRow := Database.warnings (db w).
Definition punishments_of (w : World) : list Database.PunishmentRow :=
  Database.punishments (db w).


(** The delay the specification asks of recovery, [max(0, expiresAt -
    now)], in the seconds of [asyncio.sleep]. *)
Definition clamped_delay (ends_at now : Z) : Number :=
  if bool_decide (ends_at <= now) then py_int 0 else total_seconds (ends_at - now).

(** The expiry texts that recovery can work with. *)
Definition is_naive (text : IsoText) : bool :=
  match text with
  | naive_iso _ => true
  | _ => false
  end.

(** The rows that recovery gets to: those before the first one whose
    expiry is not the text of a naive datetime. *)
Fixpoint readable (rows : list (Z * Z * string * IsoText)) : list (Z * Z * string * IsoText) :=
  match rows with
  | [] => []
  | row :: rest => if is_naive row.2 then row :: readable rest else []
  end.

(** The timers the specification asks of recovery: for each row read,
    a reversal delayed by [max(0, expiresAt - now)], [now] being the
    clock reading taken for that row. *)
Fixpoint recovery_tasks (clock : nat -> Z) (tick : nat) (rows : list (Z * Z * string * IsoText))
    : list Task :=
  match rows with
  | [] => []
  | (user_id, guild_id, action, naive_iso ends_at) :: rest =>
      delayed_unpunish user_id guild_id action (clamped_delay ends_at (clock tick))
      :: recovery_tasks clock (S tick) rest
  | _ :: _ => []
  end.

(** How the loop of recovery ends, normally or with the exception of the
    first row it cannot work with, and the clock readings it takes. *)
Fixpoint recovery_result (rows : list (Z * Z * string * IsoText)) : Res unit :=
  match rows with
  | [] => Ok tt
  | (_, _, _, naive_iso _) :: rest => recovery_result rest
  | (_, _, _, aware_iso _) :: _ => Raise TypeError
  | (_, _, _, not_iso _) :: _ => Raise ValueError
  end.

Fixpoint recovery_ticks (rows : list (Z * Z * string * IsoText)) : nat :=
  match rows with
  | [] => 0
  | (_, _, _, naive_iso _) :: rest => S (recovery_ticks rest)
  | (_, _, _, aware_iso _) :: _ => 1
  | (_, _, _, not_iso _) :: _ => 0
  end.


(** The table can only have lost rows. *)
Definition shrinks : relation World :=
  fun w w' => sublist (punishments_of w') (punishments_of w).

(** [world0] after a restart that finds one mute of user 10 in guild 1
    whose expiry, 500, is already past at the first clock reading, 1000. *)
Definition expired_mute : Database.PunishmentRow :=
  {| Database.p_id := 1; Database.p_user_id := 10; Database.p_guild_id := 1;
     Database.p_action := "mute"; Database.p_ends_at := Some (naive_iso 500) |}.

Definition world_expired : World :=
  set_db (fun d => {| Database.warnings := Database.warnings d;
                      Database.warnings_auto_increment := Database.warnings_auto_increment d;
                      Database.punishments := [expired_mute] |}) world0.

(** A ban of user 20 whose expiry was written with its UTC offset, in
    the table before the mute of [expired_mute]. *)
Definition offset_ban : Database.PunishmentRow :=
  {| Database.p_id := 3; Database.p_user_id := 20; Database.p_guild_id := 1;
     Database.p_action := "ban"; Database.p_ends_at := Some (aware_iso 500) |}.

Definition world_offset : World :=
  set_db (fun d => {| Database.warnings := Database.warnings d;
                      Database.warnings_auto_increment := Database.warnings_auto_increment d;
                      Database.punishments := [offset_ban; expired_mute] |}) world0.



(** [wp m Q w]: run in [w], the coroutine [m] ends, with a value or an
    exception, in a result and a world that satisfy [Q]. *)
Definition wp {A} (m : Coro A) (Q : Res A -> World -> Prop) (w : World) : Prop :=
  Q (result m w) (exec m w).

(** No call of the Discord API fails. *)
Definition api_ok (w : World) : Prop := forall c, faults w c = None.

(** A ban of user 10 in guild 1 recorded with the expiry 500. *)
Definition expired_ban : Database.PunishmentRow :=
  {| Database.p_id := 2; Database.p_user_id := 10; Database.p_guild_id := 1;
     Database.p_action := "ban"; Database.p_ends_at := Some (naive_iso 500) |}.

Definition with_punishments (rows : list Database.PunishmentRow) (w : World) : World :=
  set_db (fun d => {| Database.warnings := Database.warnings d;
                      Database.warnings_auto_increment := Database.warnings_auto_increment d;
                      Database.punishments := rows |}) w.

(** User 10 is banned from guild 1, the table records the ban, and the
    bot has just restarted: recovery has made the reversal task. *)
Definition world_banned : World :=
  steps [op_ban ctx1 10 "spam"; op_cog_load] (with_punishments [expired_ban] world0).

(** The table records a mute of user 10, the bot has restarted, and the
    user has been kicked from the guild before the reversal runs. *)
Definition world_left : World :=
  steps [op_cog_load; op_kick ctx1 10 "left"] (with_punishments [expired_mute] world0).

(** The member holds the Muted role of the guild: what the cog tests
    with [mute_role and mute_role in member.roles]. *)
Definition is_muted (w : World) (guild member : Z) : Prop :=
  guild ∈ muted_roles (discord w) /\ (guild, member) ∈ muted (discord w).

(** [world0] after three warnings to user 10: the third one muted them
    for an hour. *)
Definition world_warned3 : World :=
  steps [op_warn ctx1 10 "a"; op_warn ctx1 10 "b"; op_warn ctx1 10 "c"] world0.

(** The mute of [world_warned3] as a row of the punishments table,
    expiring an hour after the third warning. *)
Definition recorded_mute : Database.PunishmentRow :=
  {| Database.p_id := 1; Database.p_user_id := 10; Database.p_guild_id := 1;
     Database.p_action := "mute"; Database.p_ends_at := Some (naive_iso (1002 + timedelta_hours 1)) |}.

Definition world_recorded : World := with_punishments [recorded_mute] world_warned3.

(** [world0] under a clock that is set back between two readings, and
    the two warnings to user 10 given there. *)
Definition world_set_back : World :=
  {| db := empty_db; tasks := []; discord := guild1; sent := [];
     log_channel_id := None; clock := fun n => 1000 - Z.of_nat n; ticks := 0%nat;
     faults := no_faults; connect_fault := None |}.

Definition world_warned_back : World :=
  steps [op_warn ctx1 10 "a"; op_warn ctx1 10 "b"] world_set_back.

(** [world_warned3] once the bot may no longer write to the channels. *)
Definition send_fails : Call -> option Exn :=
  fun c => match c with c_send => Some Forbidden | _ => None end.

Definition world_send_fails : World :=
  outside (discord world_warned3) (sent world_warned3) send_fails world_warned3.

(** ** Timers and rows *)

(** The tasks made by startup recovery, as against the closures of
    [apply_punishment]. *)
Definition is_recovery (t : Task) : bool :=
  match t with
  | delayed_unpunish _ _ _ _ => true
  | _ => false
  end.

Definition recovery_tasks_of (w : World) : list Task := List.filter is_recovery (tasks w).

(** A recovery timer of the key (user, guild, action). *)
Definition is_recovery_for (user_id guild_id : Z) (action : string) (t : Task) : bool :=
  match t with
  | delayed_unpunish u g a _ =>
      bool_decide (u = user_id) && bool_decide (g = guild_id) && bool_decide (a = action)
  | _ => false
  end.

(** Any pending task that will reverse the punishment of the key: a
    recovery timer of the key, or a closure made for that member in that
    guild that removes the mute role, or lifts the ban. *)
Definition is_timer_for (user_id guild_id : Z) (action : string) (t : Task) : bool :=
  match t with
  | delayed_unpunish u g a _ =>
      bool_decide (u = user_id) && bool_decide (g = guild_id) && bool_decide (a = action)
  | unmute_later member ctx _ =>
      bool_decide (member = user_id) && bool_decide (ctx_guild ctx = guild_id)
      && bool_decide (action = "mute")
  | unban_later member ctx _ =>
      bool_decide (member = user_id) && bool_decide (ctx_guild ctx = guild_id)
      && bool_decide (action = "ban")
  end.

Definition recovery_timers_for (user_id guild_id : Z) (action : string) (w : World) : nat :=
  length (List.filter (is_recovery_for user_id guild_id action) (tasks w)).

Definition timers_for (user_id guild_id : Z) (action : string) (w : World) : nat :=
  length (List.filter (is_timer_for user_id guild_id action) (tasks w)).

(** A row of the key with an expiry. *)
Definition expiring_for (user_id guild_id : Z) (action : string)
    (r : Database.PunishmentRow) : bool :=
  Database.for_key user_id guild_id action r
  && match Database.p_ends_at r with Some _ => true | None => false end.

Definition rows_for (user_id guild_id : Z) (action : string) (w : World) : nat :=
  length (List.filter (expiring_for user_id guild_id action) (punishments_of w)).

(** As many recovery timers as rows with an expiry, key by key. *)
Definition balanced (w : World) : Prop :=
  forall user_id guild_id action,
    recovery_timers_for user_id guild_id action w = rows_for user_id guild_id action w.

(** At most one row with an expiry per key. *)
Definition unique_keys (w : World) : Prop :=
  forall user_id guild_id action, (rows_for user_id guild_id action w <= 1)%nat.

(** The invariant as the specification words it, for any kind of timer. *)
Definition one_timer_per_row (w : World) : Prop :=
  forall r, r ∈ punishments_of w -> Database.p_ends_at r <> None ->
    timers_for (Database.p_user_id r) (Database.p_guild_id r) (Database.p_action r) w = 1%nat.

(** User 10 has two warnings, the table records a mute of that user,
    and the bot has just restarted. *)
Definition world_restarted : World :=
  step op_cog_load
    (with_punishments [recorded_mute]
       (steps [op_warn ctx1 10 "a"; op_warn ctx1 10 "b"] world0)).

(** * Notions for the further properties *)

(** The key is kept and the counter does not go back. *)
Definition keeps_key : relation World :=
  fun w w' =>
    (Database.wf (db w) -> Database.wf (db w')) /\
    Database.warnings_auto_increment (db w) <= Database.warnings_auto_increment (db w').

(** [world0] with its "general" channel, 100, configured as log channel. *)
Definition world_logged : World :=
  {| db := db world0; tasks := tasks world0; discord := discord world0;
     sent := sent world0; log_channel_id := Some 100; clock := clock world0;
     ticks := ticks world0; faults := faults world0;
     connect_fault := connect_fault world0 |}.

(** The world [cmd_warn] has made when it turns to the member and the
    log: the row is stored and the warning announced in the channel. *)
Definition warned (ctx : Context) (member : Z) (reason : string) (w : World) : World :=
  set_sent (fun l => l ++ [(to_channel (ctx_channel ctx),
                            n_warned member
                              (Database.get_warnings_count member (ctx_guild ctx) (db w) + 1)
                              reason)])
    (set_db (Database.add_warning member (ctx_guild ctx) (ctx_author ctx) reason
               (clock w (ticks w)))
       (set_ticks S w)).

(** User 10 has two warnings in guild 1. *)
Definition world_warned2 : World :=
  steps [op_warn ctx1 10 "a"; op_warn ctx1 10 "b"] world0.

(** Only the direct message fails, with [e]. *)
Definition dm_fails (e : Exn) : Call -> option Exn :=
  fun c => match c with c_dm => Some e | _ => None end.

Definition world_dm_fails (e : Exn) : World :=
  outside (discord world_warned2) (sent world_warned2) (dm_fails e) world_warned2.

(** User 10 after a fourth warning: muted, with the one-hour reversal of
    the third warning and the twelve-hour reversal of the fourth pending. *)
Definition world_warned4 : World := step (op_warn ctx1 10 "d") world_warned3.

(** The bot may neither time members out nor manage their roles. *)
Definition no_role_permission : Call -> option Exn :=
  fun c => match c with
           | c_timeout | c_remove_roles | c_add_roles => Some Forbidden
           | _ => None
           end.

(** [world_warned3], user 10 muted, with those permissions withdrawn. *)
Definition world_no_permission : World :=
  outside (discord world_warned3) (sent world_warned3) no_role_permission world_warned3.

(** The bot may neither kick nor ban. *)
Definition no_kick_permission : Call -> option Exn :=
  fun c => match c with
           | c_kick | c_ban => Some Forbidden
           | _ => None
           end.

Definition world_no_kick : World :=
  outside (discord world_warned3) (sent world_warned3) no_kick_permission world_warned3.

(** The reversal of a temporary ban. *)
Definition is_unban_later (t : Task) : bool :=
  match t with
  | unban_later _ _ _ => true
  | _ => false
  end.

Definition unban_tasks_of (w : World) : list Task := List.filter is_unban_later (tasks w).

(** No reversal of a temporary ban comes up. *)
Definition no_new_unban : relation World :=
  fun w w' => unban_tasks_of w = [] -> unban_tasks_of w' = [].

(** ** The ban list: [cmd_banlist] and [build_banlist_embed]

    What the command shows, as a function of the bans it read and of
    the reactions it received before the timeout. Sending the message,
    adding and removing reactions are left out: they go to the Discord
    API and decide nothing here. *)

(** An entry of [guild.bans()]: the user and the reason, [None] when the
    ban has none. *)
Record BanEntry := {
  be_user_id : Z;
  be_user_name : string;
  be_reason : option string
}.

(** A field of the embed, from [f"{i}. {user} ({user.id})"] and
    [f"Reason: {reason}"]. *)
Record Field := {
  f_number : Z;
  f_user_name : string;
  f_user_id : Z;
  f_reason : string
}.

(** The embed, from [f"Page {index + 1}/{len(pages)}"] and its fields;
    the title and the colour are constants. *)
Record Embed := {
  e_page : Z;
  e_of : Z;
  e_fields : list Field
}.

(** [range(0, n, 5)]: the multiples of 5 below [n]. *)
Definition range_by_5 (n : nat) : list nat :=
  List.map (fun k => (5 * k)%nat) (seq 0 ((n + 4) / 5)).

(** [[bans[i:i + 5] for i in range(0, len(bans), 5)]] *)
Definition pages_of (bans : list BanEntry) : list (list BanEntry) :=
  List.map (fun i => take 5 (drop i bans)) (range_by_5 (length bans)).

(** [l[i]] of Python: a negative index counts from the end and an index
    out of range raises IndexError, here [None]. *)
Definition getitem {A} (l : list A) (i : Z) : option A :=
  if bool_decide (0 <= i) then l !! Z.to_nat i
  else if bool_decide (- Z.of_nat (length l) <= i) then l !! Z.to_nat (Z.of_nat (length l) + i)
  else None.

(** [enumerate(xs, start=start)] *)
Fixpoint enumerate {A} (xs : list A) (start : Z) : list (Z * A) :=
  match xs with
  | [] => []
  | x :: rest => (start, x) :: enumerate rest (start + 1)
  end.

(** [entry.reason or "No reason provided"]: [None] and the empty string
    are false. *)
Definition reason_or_default (reason : option string) : string :=
  match reason with
  | None => "No reason provided"
  | Some s => if bool_decide (s = "") then "No reason provided" else s
  end.

(** [ModeratingCog.build_banlist_embed] *)
Definition build_banlist_embed (pages : list (list BanEntry)) (index : Z) : option Embed :=
  match getitem pages index with
  | None => None
  | Some page =>
      Some {| e_page := index + 1;
              e_of := Z.of_nat (length pages);
              e_fields :=
                List.map (fun '(i, entry) =>
                            {| f_number := i;
                               f_user_name := be_user_name entry;
                               f_user_id := be_user_id entry;
                               f_reason := reason_or_default (be_reason entry) |})
                         (enumerate page (1 + index * 5)) |}
  end.

(** The reactions [check] lets through: [str(reaction.emoji)] is one of
    the two arrows. *)
Inductive Emoji := arrow_left | arrow_right.

(** The [while True] loop of [cmd_banlist], run on the reactions that
    [wait_for] delivered before it timed out: the embeds the message was
    edited to, in order, and the last index. [None] is an IndexError out
    of [build_banlist_embed]. *)
Fixpoint banlist_loop (pages : list (list BanEntry)) (index : Z) (reactions : list Emoji)
    : option (list Embed * Z) :=
  match reactions with
  | [] => Some ([], index)
  | reaction :: rest =>
      let turned :=
        match reaction with
        | arrow_right =>
            if bool_decide (index < Z.of_nat (length pages) - 1) then Some (index + 1) else None
        | arrow_left =>
            if bool_decide (index > 0) then Some (index - 1) else None
        end in
      match turned with
      | None => banlist_loop pages index rest
      | Some index' =>
          match build_banlist_embed pages index' with
          | None => None
          | Some embed =>
              match banlist_loop pages index' rest with
              | None => None
              | Some (edits, last) => Some (embed :: edits, last)
              end
          end
      end
  end.

(** What [cmd_banlist] shows: nothing but a notice when nobody is
    banned, otherwise the first page and then the edits of the loop. *)
Inductive BanList :=
| no_bans
| ban_pages (first : Embed) (edits : list Embed) (last : Z).

(** [ModeratingCog.cmd_banlist] *)
Definition cmd_banlist (bans : list BanEntry) (reactions : list Emoji) : option BanList :=
  match bans with
  | [] => Some no_bans
  | _ =>
      let pages := pages_of bans in
      let index := 0 in
      match build_banlist_embed pages index with
      | None => None
      | Some embed =>
          match banlist_loop pages index reactions with
          | None => None
          | Some (edits, last) => Some (ban_pages embed edits last)
          end
      end
  end.

(** Seven bans, the third without a reason and the fourth with an empty one. *)
Definition seven_bans : list BanEntry :=
  [ {| be_user_id := 1; be_user_name := "a"; be_reason := Some "spam" |};
    {| be_user_id := 2; be_user_name := "b"; be_reason := Some "spam" |};
    {| be_user_id := 3; be_user_name := "c"; be_reason := None |};
    {| be_user_id := 4; be_user_name := "d"; be_reason := Some "" |};
    {| be_user_id := 5; be_user_name := "e"; be_reason := Some "raid" |};
    {| be_user_id := 6; be_user_name := "f"; be_reason := Some "raid" |};
    {| be_user_id := 7; be_user_name := "g"; be_reason := Some "raid" |} ].

(** ** Purging a channel: [cmd_purge]

    The command on the messages of the channel, newest first, the
    message that invoked it being the newest. The answers it sends are
    left out. *)

(** [channel.purge(limit=limit)] without a check: the [limit] newest
    messages are deleted and returned. *)
Definition channel_purge (limit : Z) (history : list Z) : list Z * list Z :=
  (take (Z.to_nat limit) history, drop (Z.to_nat limit) history).

(** What [cmd_purge] does: it refuses the amount, or it deletes
    [deleted], leaves [remaining] and reports [reported] removed messages. *)
Inductive Purge :=
| purge_refused
| purge_done (deleted remaining : list Z) (reported : Z).

(** [ModeratingCog.cmd_purge] *)
Definition cmd_purge (amount : Z) (history : list Z) : Purge :=
  if bool_decide (amount <= 0) || bool_decide (amount > 100) then purge_refused
  else
    let '(deleted, remaining) := channel_purge (amount + 1) history in
    purge_done deleted remaining (Z.of_nat (length deleted) - 1).

(** ** Recovery run again *)

(** The rows of a key among those recovery gets to. *)
Definition readable_for (user_id guild_id : Z) (action : string) (w : World) : nat :=
  length (List.filter
    (fun '(u, g, a, _) =>
       bool_decide (u = user_id) && bool_decide (g = guild_id) && bool_decide (a = action))
    (readable (Database.get_all_active_punishments (db w)))).
(** ** Frame reasoning for coroutines *)

#[global] Instance same_preorder {X} (f : World -> X) : PreOrder (same f).
Proof.
  split.
  - intros w. reflexivity.
  - intros w1 w2 w3 H12 H23. unfold same in *. congruence.
Qed.

Section Keeps.
Context (R : relation World) `{!PreOrder R}.

Lemma keeps_ret {A} (a : A) : keeps R (mret a).
Proof. intros w. reflexivity. Qed.

Lemma keeps_raise {A} (e : Exn) : keeps R (@raise A e).
Proof. intros w. reflexivity. Qed.

Lemma keeps_gets {A} (f : World -> A) : keeps R (gets f).
Proof. intros w. reflexivity. Qed.

Lemma keeps_api (c : Call) : keeps R (api c).
Proof. intros w. unfold exec, api. destruct (faults w c); reflexivity. Qed.

Lemma keeps_connect : keeps R connect.
Proof. intros w. unfold exec, connect. destruct (connect_fault w); reflexivity. Qed.

Lemma keeps_utcnow : (forall w, R w (set_ticks S w)) -> keeps R utcnow.
Proof. intros H w. apply H. Qed.

Lemma keeps_modify (f : World -> World) :
  (forall w, R w (f w)) -> keeps R (modify f).
Proof. intros H w. apply H. Qed.

Lemma keeps_bind {A B} (m : Coro A) (k : A -> Coro B) :
  keeps R m -> (forall a, keeps R (k a)) -> keeps R (m ≫= k).
Proof.
  intros Hm Hk w. specialize (Hm w). unfold exec, mbind, coro_bind in *.
  destruct (m w) as [[a|e] w1]; simpl in *.
  - etransitivity; [exact Hm | apply Hk].
  - exact Hm.
Qed.

Lemma keeps_try_except (body handler : Coro unit) (exn : Exn) :
  keeps R body -> keeps R handler -> keeps R (try_except body exn handler).
Proof.
  intros Hb Hh w. specialize (Hb w). unfold exec, try_except in *.
  destruct (body w) as [[a|e] w1]; simpl in *; [exact Hb|].
  destruct (bool_decide (e = exn)); simpl; [|exact Hb].
  etransitivity; [exact Hb | apply Hh].
Qed.

Lemma keeps_for_each {A} (xs : list A) (body : A -> Coro unit) :
  (forall x, keeps R (body x)) -> keeps R (for_each xs body).
Proof.
  intros Hb. induction xs as [|x xs IH]; simpl.
  - apply keeps_ret.
  - apply keeps_bind; [apply Hb | intros _; exact IH].
Qed.

End Keeps.

Create HintDb coro discriminated.

#[global] Hint Unfold deliver ctx_send channel_send member_send has_muted_role
  in_member_roles create_role add_roles remove_roles timeout is_banned ban unban
  kick guild_channels general_channel get_channel create_task db_read db_write
  fromisoformat datetime_sub timedelta_minutes recover_row
  send_log _delayed_unpunish cog_load apply_punishment run_unmute_later
  run_unban_later adjust_punishment_after_change cmd_warn cmd_delwarn
  cmd_clearwarns cmd_mute cmd_unmute cmd_kick cmd_ban run_task : coro.

(** Decompose a coroutine along its structure; what is left are the
    writes, [R w (f w)] for each [modify f]. *)
Ltac keeps_step :=
  lazymatch goal with
  | |- keeps _ (mret _) => apply keeps_ret; typeclasses eauto
  | |- keeps _ (raise _) => apply keeps_raise; typeclasses eauto
  | |- keeps _ (gets _) => apply keeps_gets; typeclasses eauto
  | |- keeps _ (api _) => apply keeps_api; typeclasses eauto
  | |- keeps _ connect => apply keeps_connect; typeclasses eauto
  | |- keeps _ (modify _) => apply keeps_modify; intros ?
  | |- keeps _ utcnow => apply keeps_utcnow; intros ?
  | |- keeps _ (_ ≫= _) => apply keeps_bind; [typeclasses eauto | | intros ?]
  | |- keeps _ (try_except _ _ _) => apply keeps_try_except; [typeclasses eauto | | ]
  | |- keeps _ (for_each _ _) => apply keeps_for_each; [typeclasses eauto | intros ?]
  | |- keeps _ (let _ := _ in _) => cbv zeta
  | |- keeps _ (if ?b then _ else _) => destruct b
  | |- keeps _ (match ?x with _ => _ end) => destruct x
  | |- keeps _ _ => progress autounfold with coro
  end.

Ltac keeps_struct := repeat keeps_step.

(** Executions of sequences. *)
Lemma exec_bind {A B} (m : Coro A) (k : A -> Coro B) (w : World) :
  exec (m ≫= k) w =
  match m w with
  | (Ok a, w1) => exec (k a) w1
  | (Raise _, w1) => w1
  end.
Proof. unfold exec, mbind, coro_bind. destruct (m w) as [[a|e] w1]; reflexivity. Qed.

(** ** The policy *)

(** C7. The policy is the lookup in a fixed table, so it is a total and
    deterministic function of the count: it gives (mute, 1h) at 3,
    (mute, 12h) at 4, (mute, 24h) at 5, (mute, 168h) at 6, (mute, 672h)
    at 7, (ban, permanent) at 8 and no action at every other count, 9
    and 10 among them; at a count without action [apply_punishment]
    returns without touching the world. *)
Theorem policy_exact_match :
  PUNISHMENTS !! 3 = Some ("mute", Some (timedelta_hours 1)) /\
  PUNISHMENTS !! 4 = Some ("mute", Some (timedelta_hours 12)) /\
  PUNISHMENTS !! 5 = Some ("mute", Some (timedelta_hours 24)) /\
  PUNISHMENTS !! 6 = Some ("mute", Some (timedelta_hours 168)) /\
  PUNISHMENTS !! 7 = Some ("mute", Some (timedelta_hours 672)) /\
  PUNISHMENTS !! 8 = Some ("ban", None) /\
  PUNISHMENTS !! 9 = None /\
  PUNISHMENTS !! 10 = None /\
  forall c : Z, c < 3 \/ 8 < c ->
    PUNISHMENTS !! c = None /\
    forall member ctx w, apply_punishment member c ctx w = (Ok tt, w).
Proof.
  repeat (split; [reflexivity|]).
  intros c Hc.
  assert (Hnone : PUNISHMENTS !! c = None).
  { unfold PUNISHMENTS. rewrite !lookup_insert_ne by lia. apply lookup_empty. }
  split; [exact Hnone|].
  intros member ctx w. unfold apply_punishment. rewrite Hnone. reflexivity.
Qed.

Lemma policy_exact_match_witness :
  PUNISHMENTS !! 11 = None /\ PUNISHMENTS !! 0 = None.
Proof.
  split.
  - apply (proj2 (proj2 (proj2 (proj2 (proj2 (proj2 (proj2 (proj2
      policy_exact_match))))))) 11). right. lia.
  - apply (proj2 (proj2 (proj2 (proj2 (proj2 (proj2 (proj2 (proj2
      policy_exact_match))))))) 0). left. lia.
Defined.

(** ** The warning ledger *)

Lemma count_app user_id guild_id (db1 : Database.Db) now moderator_id reason :
  Database.get_warnings_count user_id guild_id
    (Database.add_warning user_id guild_id moderator_id reason now db1)
  = Database.get_warnings_count user_id guild_id db1 + 1.
Proof.
  unfold Database.get_warnings_count, Database.add_warning. simpl.
  rewrite List.filter_app, length_app. simpl.
  unfold Database.for_pair at 2. simpl.
  rewrite !bool_decide_eq_true_2 by reflexivity. simpl. lia.
Qed.

(** C8. Whatever the ledger held and whichever Discord calls fail, [warn]
    leaves the ledger with exactly one more row, the new one, at its end;
    the count of the pair read right after is the previous count plus
    one. The row is committed before any notification is attempted. *)
Theorem warn_appends_exactly_one (ctx : Context) (member : Z) (reason : string) (w : World) :
  let w' := exec (cmd_warn ctx member reason) w in
  warnings_of w' = warnings_of w ++
    [ {| Database.w_id := Database.warnings_auto_increment (db w);
         Database.w_user_id := member;
         Database.w_guild_id := ctx_guild ctx;
         Database.w_moderator_id := ctx_author ctx;
         Database.w_reason := reason;
         Database.w_timestamp := clock w (ticks w);
         Database.w_ended_at := None |} ] /\
  Database.get_warnings_count member (ctx_guild ctx) (db w')
  = Database.get_warnings_count member (ctx_guild ctx) (db w) + 1.
Proof.
  set (w1 := set_db (Database.add_warning member (ctx_guild ctx) (ctx_author ctx) reason
                       (clock w (ticks w))) (set_ticks S w)).
  assert (Hrest : exists rest : Coro unit,
             exec (cmd_warn ctx member reason) w = exec rest w1 /\
             keeps (same warnings_of) rest) .
  { eexists. split.
    - unfold cmd_warn. rewrite exec_bind. simpl. rewrite exec_bind. simpl.
      fold w1. reflexivity.
    - keeps_struct; reflexivity. }
  destruct Hrest as (rest & Hexec & Hkeeps).
  intros w'. subst w'. rewrite Hexec.
  assert (Hw : warnings_of (exec rest w1) = warnings_of w1) by apply Hkeeps.
  split.
  - rewrite Hw. reflexivity.
  - unfold Database.get_warnings_count. fold (warnings_of (exec rest w1)).
    rewrite Hw. apply count_app.
Qed.

(** ** Startup recovery *)

(** ** Python's float of a quotient *)

Lemma round_half_even_near (n d : Z) :
  0 < d -> 2 * Z.abs (round_half_even n d * d - n) <= d.
Proof.
  intros Hd. unfold round_half_even.
  pose proof (Z.div_mod n d ltac:(lia)) as Hdm.
  pose proof (Z.mod_pos_bound n d Hd) as Hr.
  repeat case_bool_decide; try destruct (Z.even (n / d)); nia.
Qed.

Lemma round_half_even_between (n d lo hi : Z) :
  0 < d -> lo * d <= n -> n < hi * d -> lo <= round_half_even n d <= hi.
Proof.
  intros Hd Hlo Hhi. unfold round_half_even.
  pose proof (Z.div_mod n d ltac:(lia)) as Hdm.
  pose proof (Z.mod_pos_bound n d Hd) as Hr.
  assert (lo <= n / d) by (apply Z.div_le_lower_bound; lia).
  assert (n / d < hi) by (apply Z.div_lt_upper_bound; lia).
  repeat case_bool_decide; try destruct (Z.even (n / d)); lia.
Qed.

Lemma scaled_pos (n d e : Z) :
  0 < n -> 0 < d -> 0 < (scaled n d e).1 /\ 0 < (scaled n d e).2.
Proof.
  intros Hn Hd. unfold scaled. case_bool_decide; simpl.
  - split; [lia|]. apply Z.mul_pos_pos; [lia|]. apply Z.pow_pos_nonneg; lia.
  - split; [|lia]. apply Z.mul_pos_pos; [lia|]. apply Z.pow_pos_nonneg; lia.
Qed.

(** One more in the exponent halves the fraction. *)
Lemma scaled_succ (n d e : Z) :
  (scaled n d e).1 * (scaled n d (e + 1)).2 = 2 * (scaled n d (e + 1)).1 * (scaled n d e).2.
Proof.
  unfold scaled. repeat case_bool_decide; simpl; try lia.
  - rewrite Z.pow_add_r by lia. change (2 ^ 1) with 2. lia.
  - assert (e = -1) as -> by lia. simpl. lia.
  - replace (- e) with (- (e + 1) + 1) by lia.
    rewrite Z.pow_add_r by lia. change (2 ^ 1) with 2. lia.
Qed.

(** The first guess of the exponent leaves a quotient between 2^52 and
    2^54. *)
Lemma scaled_first_guess (n d : Z) :
  0 < n -> 0 < d ->
  let e0 := Z.log2 n - Z.log2 d - 53 in
  (scaled n d e0).2 * 2 ^ 52 < (scaled n d e0).1 /\
  (scaled n d e0).1 < (scaled n d e0).2 * 2 ^ 54.
Proof.
  intros Hn Hd e0.
  destruct (Z.log2_spec n Hn) as [Hn1 Hn2].
  destruct (Z.log2_spec d Hd) as [Hd1 Hd2].
  pose proof (Z.log2_nonneg n) as Ha. pose proof (Z.log2_nonneg d) as Hb.
  rewrite Z.pow_succ_r in Hn2, Hd2 by lia.
  set (a := Z.log2 n) in *. set (b := Z.log2 d) in *.
  assert (HB : 0 < 2 ^ b) by (apply Z.pow_pos_nonneg; lia).
  unfold scaled. case_bool_decide as He; simpl.
  - assert (Ha' : 2 ^ a = 2 ^ b * 2 ^ e0 * 2 ^ 53).
    { rewrite <- !Z.pow_add_r by lia. f_equal. lia. }
    assert (HE : 0 < 2 ^ e0) by (apply Z.pow_pos_nonneg; lia).
    change (2 ^ 54) with (2 * 2 ^ 53). change (2 ^ 53) with (2 * 2 ^ 52) in *.
    generalize dependent (2 ^ a). generalize dependent (2 ^ b).
    generalize dependent (2 ^ e0). intros. nia.
  - assert (Ha' : 2 ^ a * 2 ^ (- e0) = 2 ^ b * 2 ^ 53).
    { rewrite <- !Z.pow_add_r by lia. f_equal. lia. }
    assert (HE : 0 < 2 ^ (- e0)) by (apply Z.pow_pos_nonneg; lia).
    change (2 ^ 54) with (2 * 2 ^ 53). change (2 ^ 53) with (2 * 2 ^ 52) in *.
    generalize dependent (2 ^ a). generalize dependent (2 ^ b).
    generalize dependent (2 ^ (- e0)). intros. nia.
Qed.

(** [nearest_double n d] is a binary64 number, its mantissa of 53 bits,
    and no further from [n / d] than half a unit in the last place. *)
Lemma nearest_double_spec (n d : Z) :
  0 < n -> 0 < d ->
  let m := (nearest_double n d).1 in
  let e := (nearest_double n d).2 in
  2 ^ 52 <= m < 2 ^ 53 /\
  2 * Z.abs (m * (scaled n d e).2 - (scaled n d e).1) <= (scaled n d e).2.
Proof.
  intros Hn Hd. unfold nearest_double.
  destruct (scaled_first_guess n d Hn Hd) as [Hlo Hhi].
  set (e0 := Z.log2 n - Z.log2 d - 53) in *.
  set (e := if bool_decide ((scaled n d e0).1 < (scaled n d e0).2 * 2 ^ 53)
            then e0 else e0 + 1).
  assert (Hnorm : 2 ^ 52 * (scaled n d e).2 <= (scaled n d e).1 /\
                  (scaled n d e).1 < 2 ^ 53 * (scaled n d e).2).
  { subst e. case_bool_decide as Hc; [lia|].
    pose proof (scaled_succ n d e0) as Hs.
    destruct (scaled_pos n d e0 Hn Hd) as [? ?].
    destruct (scaled_pos n d (e0 + 1) Hn Hd) as [? ?].
    change (2 ^ 54) with (2 * 2 ^ 53) in Hhi. change (2 ^ 53) with (2 * 2 ^ 52) in *.
    generalize dependent (scaled n d e0). generalize dependent (scaled n d (e0 + 1)).
    intros [N1 D1] ? ? [N0 D0] **. simpl in *. nia. }
  clearbody e. clear Hlo Hhi e0.
  destruct (scaled_pos n d e Hn Hd) as [HN HD].
  pose proof (round_half_even_between _ _ (2 ^ 52) (2 ^ 53) HD (proj1 Hnorm) (proj2 Hnorm)) as Hm.
  pose proof (round_half_even_near (scaled n d e).1 _ HD) as Hnear.
  set (m := round_half_even (scaled n d e).1 (scaled n d e).2) in *.
  case_bool_decide as Htop; simpl.
  - split; [change (2 ^ 53) with (2 * 2 ^ 52); lia|].
    pose proof (scaled_succ n d e) as Hs.
    destruct (scaled_pos n d (e + 1) Hn Hd) as [? ?].
    rewrite Htop in Hnear. change (2 ^ 53) with (2 * 2 ^ 52) in *.
    generalize dependent (scaled n d e). generalize dependent (scaled n d (e + 1)).
    intros [N1 D1] ? ? [N0 D0] **. simpl in *. nia.
  - split; [lia | exact Hnear].
Qed.

(** The sign of a quotient of [int]s is that of its numerator. *)
Lemma le_0_true_divide (n d : Z) : 0 < d -> le_0 (true_divide n d) = bool_decide (n <= 0).
Proof.
  intros Hd. unfold true_divide. case_bool_decide as H0.
  - subst n. reflexivity.
  - pose proof (nearest_double_spec (Z.abs n) d ltac:(lia) Hd) as [Hm _].
    destruct (nearest_double (Z.abs n) d) as [m e]. simpl in *.
    assert (0 < m) by (change (2 ^ 52) with 4503599627370496 in Hm; lia).
    apply bool_decide_ext. nia.
Qed.

(** The delay [cog_load] computes is the clamped one. *)
Lemma clamp_total_seconds (ends_at now : Z) :
  (if le_0 (total_seconds (ends_at - now)) then py_int 0 else total_seconds (ends_at - now))
  = clamped_delay ends_at now.
Proof.
  unfold total_seconds, clamped_delay. rewrite le_0_true_divide by lia.
  repeat case_bool_decide; (reflexivity || lia).
Qed.

Lemma readable_naive rows : Forall (fun row => is_naive row.2 = true) rows -> readable rows = rows.
Proof.
  induction 1 as [|row rows Hrow _ IH]; simpl; [reflexivity|].
  now rewrite Hrow, IH.
Qed.

Lemma readable_is_naive rows : Forall (fun row => is_naive row.2 = true) (readable rows).
Proof.
  induction rows as [|row rows IH]; simpl; [constructor|].
  destruct (is_naive row.2) eqn:E; [now constructor | constructor].
Qed.

Lemma recovery_result_ok rows :
  recovery_result rows = Ok tt <-> Forall (fun row => is_naive row.2 = true) rows.
Proof.
  induction rows as [|[[[u g] a] [t|t|s]] rows IH]; simpl.
  - split; [constructor | reflexivity].
  - rewrite IH. split; [now constructor | now inversion 1].
  - split; [discriminate | inversion 1; discriminate].
  - split; [discriminate | inversion 1; discriminate].
Qed.




Lemma cog_load_loop (rows : list (Z * Z * string * IsoText)) (w : World) :
  for_each rows recover_row w
  = (recovery_result rows,
     set_ticks (fun n => (n + recovery_ticks rows)%nat)
       (set_tasks (fun l => l ++ recovery_tasks (clock w) (ticks w) rows) w)).
Proof.
  revert w. induction rows as [|[[[u g] a] [t|t|s]] rows IH]; intros w.
  - destruct w. unfold set_ticks, set_tasks. simpl.
    now rewrite app_nil_r, Nat.add_0_r.
  - simpl. unfold mbind, coro_bind at 1. simpl.
    rewrite IH. destruct w. unfold set_ticks, set_tasks. simpl.
    rewrite clamp_total_seconds, <- app_assoc. simpl.
    now rewrite Nat.add_succ_r.
  - destruct w. unfold set_ticks, set_tasks. simpl.
    now rewrite app_nil_r, Nat.add_1_r.
  - destruct w. unfold set_ticks, set_tasks. simpl.
    now rewrite app_nil_r, Nat.add_0_r.
Qed.

Lemma active_punishments_spec (d : Database.Db) user_id guild_id action ends_at :
  (user_id, guild_id, action, ends_at) ∈ Database.get_all_active_punishments d <->
  exists r, r ∈ Database.punishments d /\
            Database.p_user_id r = user_id /\ Database.p_guild_id r = guild_id /\
            Database.p_action r = action /\ Database.p_ends_at r = Some ends_at.
Proof.
  unfold Database.get_all_active_punishments. rewrite list_elem_of_omap. split.
  - intros (r & Hin & Hr). exists r. split; [exact Hin|].
    destruct (Database.p_ends_at r); [|discriminate].
    injection Hr as <- <- <- <-. auto.
  - intros (r & Hin & <- & <- & <- & He). exists r. split; [exact Hin|].
    now rewrite He.
Qed.

Lemma cog_load_unreachable (w : World) (e : Exn) :
  connect_fault w = Some e -> cog_load w = (Raise e, w).
Proof.
  intros H. unfold cog_load, connect. unfold mbind, coro_bind at 1. now rewrite H.
Qed.

Lemma cog_load_run (w : World) :
  connect_fault w = None ->
  cog_load w = (recovery_result (Database.get_all_active_punishments (db w)),
     set_ticks (fun n => (n + recovery_ticks (Database.get_all_active_punishments (db w)))%nat)
       (set_tasks (fun l => l ++ recovery_tasks (clock w) (ticks w)
                                   (Database.get_all_active_punishments (db w))) w)).
Proof.
  intros H. unfold cog_load, connect, db_read, gets.
  unfold mbind, coro_bind at 1. rewrite H.
  unfold mbind, coro_bind at 1.
  apply cog_load_loop.
Qed.

(** Whether it ends well or not, recovery adds the tasks of the rows it
    got to, and no other. *)
Lemma cog_load_tasks (w : World) :
  tasks (exec cog_load w) = tasks w \/
  tasks (exec cog_load w)
  = tasks w ++ recovery_tasks (clock w) (ticks w) (Database.get_all_active_punishments (db w)).
Proof.
  destruct (connect_fault w) as [e|] eqn:E.
  - left. unfold exec. now rewrite (cog_load_unreachable w e E).
  - right. unfold exec. now rewrite (cog_load_run w E).
Qed.

Lemma cog_load_ok (w : World) :
  result cog_load w = Ok tt <->
  connect_fault w = None /\
  Forall (fun row => is_naive row.2 = true) (Database.get_all_active_punishments (db w)).
Proof.
  unfold result. destruct (connect_fault w) as [e|] eqn:E.
  - rewrite (cog_load_unreachable w e E). simpl. split; [discriminate | intros [? _]; discriminate].
  - rewrite (cog_load_run w E). simpl. rewrite recovery_result_ok. tauto.
Qed.




(** ** The punishments table *)

#[global] Instance shrinks_preorder : PreOrder shrinks.
Proof.
  split.
  - intros w. unfold shrinks. reflexivity.
  - intros w1 w2 w3 H12 H23. unfold shrinks in *. etransitivity; eassumption.
Qed.

Lemma sublist_List_filter {A} (f : A -> bool) (l : list A) : sublist (List.filter f l) l.
Proof.
  induction l as [|x l IH]; simpl; [constructor|].
  destruct (f x); now constructor.
Qed.

Ltac shrinks_write :=
  unfold shrinks, punishments_of; simpl;
  first [reflexivity | apply sublist_List_filter].

Lemma step_shrinks (o : Op) (w : World) : shrinks w (step o w).
Proof.
  destruct o; simpl.
  - revert w. change (keeps shrinks cog_load). keeps_struct; shrinks_write.
  - unfold exec, resume. destruct (tasks w !! i) as [t|]; simpl; [|reflexivity].
    transitivity (set_tasks (delete i) w); [unfold shrinks; reflexivity|].
    generalize (set_tasks (delete i) w). change (keeps shrinks (run_task t)).
    destruct t; keeps_struct; shrinks_write.
  - revert w. change (keeps shrinks (cmd_warn ctx member reason)).
    keeps_struct; shrinks_write.
  - revert w. change (keeps shrinks (cmd_delwarn ctx member)).
    keeps_struct; shrinks_write.
  - revert w. change (keeps shrinks (cmd_clearwarns ctx member)).
    keeps_struct; shrinks_write.
  - revert w. change (keeps shrinks (cmd_mute ctx member duration)).
    keeps_struct; shrinks_write.
  - revert w. change (keeps shrinks (cmd_unmute ctx member)).
    keeps_struct; shrinks_write.
  - revert w. change (keeps shrinks (cmd_kick ctx member reason)).
    keeps_struct; shrinks_write.
  - revert w. change (keeps shrinks (cmd_ban ctx member reason)).
    keeps_struct; shrinks_write.
  - unfold shrinks. reflexivity.
Qed.

Lemma steps_shrinks (ops : list Op) (w : World) : shrinks w (steps ops w).
Proof.
  revert w. induction ops as [|o ops IH]; intros w; simpl.
  - reflexivity.
  - etransitivity; [apply step_shrinks | apply IH].
Qed.

Lemma apply_punishment_keeps_db member c ctx : keeps (same db) (apply_punishment member c ctx).
Proof. keeps_struct; reflexivity. Qed.

(** C10. Nothing inserts into the punishments table. Of the four
    operations of the store that write, three leave that table as it is
    and [delete_punishment] removes rows from it; every step of
    the program, a command, a task of the loop, startup recovery or a
    change outside, leaves a sublist of the rows it found, and
    [apply_punishment] leaves the whole store as it was, its reversal
    being a task of the loop alone. So from an empty table every
    sequence of steps ends with an empty table, where startup recovery
    creates no task. *)
Theorem punishments_table_never_grows :
  (forall (d : Database.Db) u g m reason now i a,
     Database.punishments (Database.add_warning u g m reason now d) = Database.punishments d /\
     Database.punishments (Database.delete_last_warning i d) = Database.punishments d /\
     Database.punishments (Database.delete_all_user_warnings u g d) = Database.punishments d /\
     sublist (Database.punishments (Database.delete_punishment u g a d))
             (Database.punishments d)) /\
  (forall (o : Op) (w : World), sublist (punishments_of (step o w)) (punishments_of w)) /\
  (forall member c ctx (w : World), db (exec (apply_punishment member c ctx) w) = db w) /\
  (forall (ops : list Op) (w : World),
     punishments_of w = [] ->
     punishments_of (steps ops w) = [] /\
     Database.get_all_active_punishments (db (steps ops w)) = [] /\
     tasks (exec cog_load (steps ops w)) = tasks (steps ops w)).
Proof.
  split.
  { intros d u g m reason now i a. repeat split; try reflexivity.
    apply sublist_List_filter. }
  split; [exact step_shrinks|].
  split; [intros member c ctx w; apply apply_punishment_keeps_db|].
  intros ops w Hempty.
  assert (Hnil : punishments_of (steps ops w) = []).
  { pose proof (steps_shrinks ops w) as H. unfold shrinks in H.
    rewrite Hempty in H. now apply sublist_nil_r in H. }
  assert (Hrows : Database.get_all_active_punishments (db (steps ops w)) = []).
  { unfold Database.get_all_active_punishments.
    unfold punishments_of in Hnil. now rewrite Hnil. }
  split; [exact Hnil|]. split; [exact Hrows|].
  destruct (cog_load_tasks (steps ops w)) as [-> | ->]; [reflexivity|].
  rewrite Hrows. simpl. apply app_nil_r.
Qed.

Lemma punishments_table_never_grows_witness :
  let ops := [op_warn ctx1 10 "a"; op_warn ctx1 10 "b"; op_warn ctx1 10 "c";
              op_resume 0; op_cog_load] in
  punishments_of (steps ops world0) = [] /\
  Database.get_all_active_punishments (db (steps ops world0)) = [] /\
  tasks (exec cog_load (steps ops world0)) = tasks (steps ops world0).
Proof.
  intros ops.
  apply (proj2 (proj2 (proj2 punishments_table_never_grows)) ops world0).
  reflexivity.
Defined.

(** ** Running coroutines symbolically *)

Lemma wp_ret {A} (a : A) Q w : Q (Ok a) w -> wp (mret a) Q w.
Proof. exact id. Qed.

Lemma wp_raise {A} (e : Exn) (Q : Res A -> World -> Prop) w :
  Q (Raise e) w -> wp (raise e) Q w.
Proof. exact id. Qed.

Lemma wp_gets {A} (f : World -> A) Q w : Q (Ok (f w)) w -> wp (gets f) Q w.
Proof. exact id. Qed.

Lemma wp_modify (f : World -> World) Q w : Q (Ok tt) (f w) -> wp (modify f) Q w.
Proof. exact id. Qed.

Lemma wp_utcnow Q w : Q (Ok (clock w (ticks w))) (set_ticks S w) -> wp utcnow Q w.
Proof. exact id. Qed.

Lemma wp_api (c : Call) Q w :
  match faults w c with
  | Some e => Q (Raise e) w
  | None => Q (Ok tt) w
  end -> wp (api c) Q w.
Proof. unfold wp, result, exec, api. destruct (faults w c); exact id. Qed.

Lemma wp_api_ok (c : Call) Q w : faults w c = None -> Q (Ok tt) w -> wp (api c) Q w.
Proof. intros Hf HQ. apply wp_api. now rewrite Hf. Qed.

Lemma wp_bind {A B} (m : Coro A) (k : A -> Coro B) Q w :
  wp m (fun r w1 => match r with
                    | Ok a => wp (k a) Q w1
                    | Raise e => Q (Raise e) w1
                    end) w ->
  wp (m ≫= k) Q w.
Proof.
  unfold wp, result, exec, mbind, coro_bind.
  destruct (m w) as [[a|e] w1]; exact id.
Qed.

Lemma wp_try_except (body handler : Coro unit) (exn : Exn) Q w :
  wp body (fun r w1 => match r with
                       | Ok a => Q (Ok a) w1
                       | Raise e => if bool_decide (e = exn) then wp handler Q w1
                                    else Q (Raise e) w1
                       end) w ->
  wp (try_except body exn handler) Q w.
Proof.
  unfold wp, result, exec, try_except.
  destruct (body w) as [[a|e] w1]; simpl; [exact id|].
  destruct (bool_decide (e = exn)); exact id.
Qed.

Lemma wp_for_each_api_ok {A} (xs : list A) (c : Call) Q w :
  faults w c = None -> Q (Ok tt) w -> wp (for_each xs (fun _ => api c)) Q w.
Proof.
  intros Hf HQ. induction xs as [|x xs IH]; simpl.
  - exact HQ.
  - apply wp_bind, wp_api_ok; assumption.
Qed.

Lemma wp_mono {A} (m : Coro A) (Q Q' : Res A -> World -> Prop) w :
  (forall r w1, Q r w1 -> Q' r w1) -> wp m Q w -> wp m Q' w.
Proof. intros H. apply H. Qed.

(** One step of symbolic execution. API calls are taken to succeed when
    the context says so and are split into their two outcomes otherwise;
    tests on the world are split with their meaning kept. *)
Ltac wp_api_step :=
  first
    [ apply wp_api_ok; [solve [simpl; auto] | ]
    | apply wp_api; simpl;
      lazymatch goal with
      | |- match ?f ?c with _ => _ end =>
          let e := fresh "e" in let He := fresh "Hfault" in
          destruct (f c) as [e|] eqn:He
      end ].

Ltac wp_step :=
  lazymatch goal with
  | |- wp (mret _) _ _ => apply wp_ret
  | |- wp (raise _) _ _ => apply wp_raise
  | |- wp (gets _) _ _ => apply wp_gets
  | |- wp (modify _) _ _ => apply wp_modify
  | |- wp utcnow _ _ => apply wp_utcnow
  | |- wp (api _) _ _ => wp_api_step
  | |- wp (_ ≫= _) _ _ => apply wp_bind
  | |- wp (try_except _ _ _) _ _ => apply wp_try_except
  | |- wp (for_each _ (fun _ => api _)) _ _ =>
      apply wp_for_each_api_ok; [solve [simpl; auto] | ]
  | |- wp (if bool_decide _ then _ else _) _ _ => case_bool_decide
  | |- wp (if negb (bool_decide _) then _ else _) _ _ => case_bool_decide
  | |- wp (if ?b then _ else _) _ _ => destruct b eqn:?
  | |- wp (match ?x with _ => _ end) _ _ => destruct x eqn:?
  | |- wp _ _ _ => progress autounfold with coro
  | |- if bool_decide _ then _ else _ => case_bool_decide
  end.

Ltac wp_run := repeat (wp_step; simpl).

Lemma policy_domain (c : Z) (x : string * option Z) :
  PUNISHMENTS !! c = Some x -> 3 <= c <= 8.
Proof.
  intros H. destruct (decide (3 <= c <= 8)) as [|Hn]; [assumption|].
  unfold PUNISHMENTS in H. rewrite !lookup_insert_ne in H by lia.
  rewrite lookup_empty in H. discriminate.
Qed.

Lemma policy_cases (c : Z) (action : string) (duration : option Z) :
  PUNISHMENTS !! c = Some (action, duration) ->
  (3 <= c <= 7 /\ action = "mute" /\ exists d, duration = Some d /\ d <> 0 /\
     (c = 3 -> d = timedelta_hours 1)) \/
  (c = 8 /\ action = "ban" /\ duration = None).
Proof.
  intros H. pose proof (policy_domain _ _ H) as Hc.
  assert (Hcases : c = 3 \/ c = 4 \/ c = 5 \/ c = 6 \/ c = 7 \/ c = 8) by lia.
  destruct Hcases as [-> | [-> | [-> | [-> | [-> | ->]]]]];
    vm_compute in H; injection H as <- <-;
    first [ right; repeat split; reflexivity
          | left; repeat split; try lia; eexists; repeat split;
            first [discriminate | intros _; reflexivity | intros; lia] ].
Qed.

Lemma truthy_some (z d : Z) :
  (if bool_decide (d = 0) then None else Some d) = Some z -> z = d.
Proof. case_bool_decide; congruence. Qed.

Lemma truthy_none (d : Z) :
  d <> 0 -> (if bool_decide (d = 0) then None else Some d) = None -> False.
Proof. case_bool_decide; congruence. Qed.

(** The mute branch when every call succeeds. *)
Lemma mute_branch member c ctx w d :
  PUNISHMENTS !! c = Some ("mute", Some d) -> d <> 0 ->
  api_ok w ->
  wp (apply_punishment member c ctx) (fun r w' =>
    r = Ok tt /\ db w' = db w /\
    is_muted w' (ctx_guild ctx) member /\
    (ctx_guild ctx ∈ muted_roles (discord w) ->
       muted (discord w') = muted (discord w) ∪ {[(ctx_guild ctx, member)]}) /\
    bans (discord w') = bans (discord w) /\
    tasks w' = tasks w ++ [unmute_later member ctx d]) w.
Proof.
  intros Hp Hd Hf. unfold apply_punishment. rewrite Hp. simpl.
  wp_run;
    first [ exfalso; eapply truthy_none; eassumption
          | match goal with H : _ = Some _ |- _ => apply truthy_some in H; subst end;
            unfold is_muted; simpl; repeat split;
            first [ reflexivity | assumption | tauto
                  | apply elem_of_union; right; now apply elem_of_singleton ] ].
Qed.

(** The ban branch when every call succeeds. *)
Lemma ban_branch member c ctx w :
  PUNISHMENTS !! c = Some ("ban", None) ->
  api_ok w ->
  wp (apply_punishment member c ctx) (fun r w' =>
    r = Ok tt /\ db w' = db w /\
    (ctx_guild ctx, member) ∈ bans (discord w') /\
    muted (discord w') = muted (discord w) /\
    tasks w' = tasks w) w.
Proof.
  intros Hp Hf. unfold apply_punishment. rewrite Hp. simpl.
  wp_run; repeat split; try reflexivity; try assumption; set_solver.
Qed.

(** C1, as the code has it. A call of [apply_punishment] with a listed
    count writes nothing to the store, so no Punishment row. When the
    Discord calls succeed it returns normally and: at counts 3 to 7 the
    member holds the Muted role and one reversal, the closure
    [unmute_later] sleeping for the duration of the table (one hour at
    count 3), is added to the tasks of the loop; at count 8 the user is
    banned and no task is added. *)
Theorem apply_punishment_enforces_without_row
    (member c : Z) (ctx : Context) (w : World) (action : string) (duration : option Z) :
  PUNISHMENTS !! c = Some (action, duration) ->
  api_ok w ->
  let w' := exec (apply_punishment member c ctx) w in
  result (apply_punishment member c ctx) w = Ok tt /\
  db w' = db w /\
  (3 <= c <= 7 ->
     action = "mute" /\
     is_muted w' (ctx_guild ctx) member /\
     (exists d, duration = Some d /\ tasks w' = tasks w ++ [unmute_later member ctx d]) /\
     (c = 3 -> duration = Some (timedelta_hours 1))) /\
  (c = 8 ->
     action = "ban" /\ duration = None /\
     (ctx_guild ctx, member) ∈ bans (discord w') /\
     tasks w' = tasks w).
Proof.
  intros Hp Hf w'.
  destruct (policy_cases _ _ _ Hp) as
    [(Hc & Ha & d & Hdur & Hd & H3) | (Hc & Ha & Hdur)]; subst action duration.
  - destruct (mute_branch member c ctx w d Hp Hd Hf) as (Hr & Hdb & Hm & _ & _ & Ht).
    fold w' in Hdb, Hm, Ht.
    split; [exact Hr|]. split; [exact Hdb|]. split.
    + intros _. split; [reflexivity|]. split; [exact Hm|].
      split; [exists d; auto|]. intros E. now rewrite (H3 E).
    + intros E. lia.
  - subst c. destruct (ban_branch member 8 ctx w Hp Hf) as (Hr & Hdb & Hb & _ & Ht).
    fold w' in Hdb, Hb, Ht.
    split; [exact Hr|]. split; [exact Hdb|]. split.
    + intros Hc. lia.
    + intros _. auto.
Qed.

Lemma apply_punishment_enforces_without_row_witness :
  let w' := exec (apply_punishment 10 3 ctx1) world0 in
  db w' = db world0 /\
  is_muted w' 1 10 /\
  tasks w' = [unmute_later 10 ctx1 (timedelta_hours 1)].
Proof.
  intros w'.
  destruct (apply_punishment_enforces_without_row 10 3 ctx1 world0
              "mute" (Some (timedelta_hours 1)) eq_refl (fun c => eq_refl))
    as (_ & Hdb & Hmute & _).
  destruct (Hmute ltac:(lia)) as (_ & Hm & _ & _).
  split; [exact Hdb|]. split; [exact Hm|]. reflexivity.
Defined.

(** C1 as stated fails: in [world0] the call at count 3 returns
    normally, and so does the call at count 8, yet afterwards the
    punishments table holds no row for (user 10, guild 1, "mute") and
    none for (user 10, guild 1, "ban"). *)
Lemma apply_punishment_persists_counterexample :
  result (apply_punishment 10 3 ctx1) world0 = Ok tt /\
  result (apply_punishment 10 8 ctx1) world0 = Ok tt /\
  ~ (exists r, r ∈ punishments_of (exec (apply_punishment 10 3 ctx1) world0) /\
               Database.for_key 10 1 "mute" r = true) /\
  ~ (exists r, r ∈ punishments_of (exec (apply_punishment 10 8 ctx1) world0) /\
               Database.for_key 10 1 "ban" r = true).
Proof.
  split; [reflexivity|]. split; [reflexivity|].
  split; intros (r & Hin & _);
    [ assert (E : punishments_of (exec (apply_punishment 10 3 ctx1) world0) = [])
        by reflexivity
    | assert (E : punishments_of (exec (apply_punishment 10 8 ctx1) world0) = [])
        by reflexivity ];
    rewrite E in Hin; inversion Hin.
Qed.

(** ** The scheduled reversal *)

(** A reversal whose guild or member does not resolve returns at once
    and leaves the world, the row included, exactly as it was. *)
Lemma delayed_unpunish_unresolved user_id guild_id action delay w :
  guild_id ∉ guilds (discord w) \/ (guild_id, user_id) ∉ members (discord w) ->
  _delayed_unpunish user_id guild_id action delay w = (Ok tt, w).
Proof.
  intros H. unfold _delayed_unpunish, gets. unfold mbind, coro_bind at 1.
  case_bool_decide; simpl; [|reflexivity].
  unfold mbind, coro_bind at 1.
  case_bool_decide; simpl; [|reflexivity].
  tauto.
Qed.

Lemma delayed_unpunish_resolved user_id guild_id action delay w :
  guild_id ∈ guilds (discord w) -> (guild_id, user_id) ∈ members (discord w) ->
  api_ok w ->
  wp (_delayed_unpunish user_id guild_id action delay) (fun r w' =>
    r = Ok tt /\ tasks w' = tasks w /\
    db w' = Database.delete_punishment user_id guild_id action (db w)) w.
Proof.
  intros Hg Hm Hf. wp_run; try tauto; repeat split; reflexivity.
Qed.

(** C2 at its failing inputs. In [world_banned] the one pending task is
    the reversal of the recorded ban of user 10; a banned user is no
    member of the guild, so when the task runs it returns at
    [if not member: return]: the row is still in the table and still
    listed by [get_all_active_punishments], the user is still banned, and
    no task is left to try again. In [world_left] the same happens to
    the recorded mute of a user who left the guild. *)
Theorem delayed_unpunish_unresolvable_leaves_row :
  (tasks world_banned = [delayed_unpunish 10 1 "ban" 0] /\
   punishments_of world_banned = [expired_ban] /\
   ((1, 10) ∉ members (discord world_banned)) /\
   (let w' := step (op_resume 0) world_banned in
    punishments_of w' = [expired_ban] /\
    Database.get_all_active_punishments (db w') = [(10, 1, "ban", naive_iso 500)] /\
    (1, 10) ∈ bans (discord w') /\
    tasks w' = [])) /\
  (tasks world_left = [delayed_unpunish 10 1 "mute" 0] /\
   punishments_of world_left = [expired_mute] /\
   (let w' := step (op_resume 0) world_left in
    punishments_of w' = [expired_mute] /\
    Database.get_all_active_punishments (db w') = [(10, 1, "mute", naive_iso 500)] /\
    tasks w' = [])).
Proof.
  split.
  - split; [reflexivity|]. split; [reflexivity|].
    split; [vm_compute; intros H; discriminate H|].
    simpl. repeat split; try reflexivity.
  - repeat split; reflexivity.
Qed.

(** ** Re-applying a punishment *)

Lemma apply_punishment_keeps_faults member c ctx :
  keeps (same faults) (apply_punishment member c ctx).
Proof. keeps_struct; reflexivity. Qed.

(** The first application at count 8, whatever fails: either nothing
    happened at all, or the user is banned afterwards and the ban list
    could be read. *)
Lemma ban_first member ctx w :
  wp (apply_punishment member 8 ctx) (fun _ w1 =>
    w1 = w \/
    ((ctx_guild ctx, member) ∈ bans (discord w1) /\ faults w1 c_bans = None)) w.
Proof.
  unfold apply_punishment.
  replace (PUNISHMENTS !! 8) with (Some ("ban", @None Z)) by reflexivity. simpl.
  wp_run; first [left; reflexivity | right; split; [set_solver | assumption]].
Qed.

(** The application at count 8 to a user who is banned already: the
    guard sends its notice, if it can, and returns. *)
Lemma ban_again member ctx w :
  (ctx_guild ctx, member) ∈ bans (discord w) -> faults w c_bans = None ->
  wp (apply_punishment member 8 ctx) (fun _ w2 =>
    w2 = w \/
    w2 = set_sent (fun l => l ++ [(to_channel (ctx_channel ctx), n_already_banned member)]) w) w.
Proof.
  intros Hb Hf. unfold apply_punishment.
  replace (PUNISHMENTS !! 8) with (Some ("ban", @None Z)) by reflexivity. simpl.
  autounfold with coro. apply wp_bind, wp_bind, wp_api_ok; [exact Hf|].
  wp_run; tauto.
Qed.

Lemma policy_mute (c : Z) :
  3 <= c <= 7 -> exists d, d <> 0 /\ PUNISHMENTS !! c = Some ("mute", Some d).
Proof.
  intros Hc.
  assert (Hcases : c = 3 \/ c = 4 \/ c = 5 \/ c = 6 \/ c = 7) by lia.
  destruct Hcases as [-> | [-> | [-> | [-> | ->]]]];
    eexists; (split; [|reflexivity]); unfold timedelta_hours; lia.
Qed.

(** C6, as the code has it. Only the ban path guards against
    re-application: after a first application at count 8, whatever
    failed in it, a second one changes nothing but for the notice that
    the user is already banned. The mute path has no guard: when the
    calls succeed, a second application at a count from 3 to 7 leaves
    the store and the holders of the Muted role as the first one left
    them, and adds a second reversal task to the loop. *)
Theorem reapply_is_guarded_on_ban_only (member : Z) (ctx : Context) (w : World) :
  (let w1 := exec (apply_punishment member 8 ctx) w in
   let w2 := exec (apply_punishment member 8 ctx) w1 in
   w2 = w1 \/
   w2 = set_sent (fun l => l ++ [(to_channel (ctx_channel ctx), n_already_banned member)]) w1) /\
  (forall c, 3 <= c <= 7 -> api_ok w ->
     let w1 := exec (apply_punishment member c ctx) w in
     let w2 := exec (apply_punishment member c ctx) w1 in
     exists d, PUNISHMENTS !! c = Some ("mute", Some d) /\
       result (apply_punishment member c ctx) w1 = Ok tt /\
       db w2 = db w1 /\
       muted (discord w2) = muted (discord w1) /\
       tasks w1 = tasks w ++ [unmute_later member ctx d] /\
       tasks w2 = tasks w ++ [unmute_later member ctx d; unmute_later member ctx d]).
Proof.
  split.
  - intros w1 w2.
    destruct (ban_first member ctx w) as [Hsame | [Hb Hf]]; fold w1 in Hsame || fold w1 in Hb, Hf.
    + left. unfold w2. rewrite Hsame. exact Hsame.
    + exact (ban_again member ctx w1 Hb Hf).
  - intros c Hc Hok w1 w2.
    destruct (policy_mute c Hc) as (d & Hd & Hp).
    destruct (mute_branch member c ctx w d Hp Hd Hok) as (_ & _ & Hm1 & _ & _ & Ht1).
    fold w1 in Hm1, Ht1.
    assert (Hok1 : api_ok w1).
    { intros call. pose proof (apply_punishment_keeps_faults member c ctx w) as Hk.
      unfold same in Hk. fold w1 in Hk. rewrite Hk. apply Hok. }
    destruct (mute_branch member c ctx w1 d Hp Hd Hok1) as (Hr2 & Hdb2 & _ & Hm2 & _ & Ht2).
    fold w2 in Hdb2, Hm2, Ht2.
    exists d. split; [exact Hp|]. split; [exact Hr2|]. split; [exact Hdb2|].
    split.
    { destruct Hm1 as [Hrole Hheld]. rewrite (Hm2 Hrole). apply set_eq. intros x.
      rewrite elem_of_union, elem_of_singleton. split; [|tauto].
      intros [Hx | ->]; assumption. }
    split; [exact Ht1|].
    rewrite Ht2, Ht1, <- app_assoc. reflexivity.
Qed.

Lemma reapply_is_guarded_on_ban_only_witness :
  let w1 := exec (apply_punishment 10 3 ctx1) world0 in
  let w2 := exec (apply_punishment 10 3 ctx1) w1 in
  exists d, PUNISHMENTS !! 3 = Some ("mute", Some d) /\
    result (apply_punishment 10 3 ctx1) w1 = Ok tt /\
    db w2 = db w1 /\
    muted (discord w2) = muted (discord w1) /\
    tasks w1 = tasks world0 ++ [unmute_later 10 ctx1 d] /\
    tasks w2 = tasks world0 ++ [unmute_later 10 ctx1 d; unmute_later 10 ctx1 d].
Proof.
  apply (proj2 (reapply_is_guarded_on_ban_only 10 ctx1 world0) 3).
  - lia.
  - intros c. reflexivity.
Defined.

(** C6 as stated fails: in [world0], applying count 3 twice leaves two
    scheduled reversals where applying it once leaves one. *)
Lemma apply_punishment_twice_counterexample :
  let once := exec (apply_punishment 10 3 ctx1) world0 in
  let twice := exec (apply_punishment 10 3 ctx1) once in
  tasks once = [unmute_later 10 ctx1 3600000000] /\
  tasks twice = [unmute_later 10 ctx1 3600000000; unmute_later 10 ctx1 3600000000] /\
  twice <> once.
Proof.
  intros once twice. split; [reflexivity|]. split; [reflexivity|].
  intros H. apply (f_equal (fun w => length (tasks w))) in H.
  vm_compute in H. discriminate H.
Qed.

(** ** Removing the latest warning *)

Lemma max_id_spec (ids : list Z) (i : Z) :
  Database.max_id ids = Some i -> i ∈ ids /\ forall j, j ∈ ids -> j <= i.
Proof.
  revert i. induction ids as [|k ids IH]; intros i H; simpl in H; [discriminate|].
  destruct (Database.max_id ids) as [j|] eqn:Hmax.
  - injection H as <-. destruct (IH j eq_refl) as [Hin Hle].
    split.
    + destruct (Z.max_spec k j) as [[_ ->] | [_ ->]]; [now right | now left].
    + intros j' Hj'. apply elem_of_cons in Hj' as [-> | Hj']; [lia|].
      specialize (Hle j' Hj'). lia.
  - injection H as <-. destruct ids as [|k' ids'].
    + split; [now left|]. intros j Hj. apply elem_of_cons in Hj as [-> | Hj]; [lia|].
      inversion Hj.
    + simpl in Hmax. destruct (Database.max_id ids'); discriminate.
Qed.

Lemma max_id_none (ids : list Z) : Database.max_id ids = None -> ids = [].
Proof.
  destruct ids as [|k ids]; [reflexivity|]. simpl.
  destruct (Database.max_id ids); discriminate.
Qed.

Lemma filter_id_fresh (i : Z) (l : list Database.WarningRow) :
  i ∉ List.map Database.w_id l ->
  List.filter (fun r => negb (bool_decide (Database.w_id r = i))) l = l.
Proof.
  induction l as [|r l IH]; intros Hni; simpl; [reflexivity|].
  simpl in Hni. apply not_elem_of_cons in Hni as [Hne Hni].
  rewrite bool_decide_eq_false_2 by congruence. simpl. now rewrite IH.
Qed.

(** Deleting by a primary key removes one row and leaves the others in place. *)
Lemma delete_by_id_split (ws : list Database.WarningRow) (r : Database.WarningRow) :
  NoDup (List.map Database.w_id ws) -> r ∈ ws ->
  exists l1 l2, ws = l1 ++ r :: l2 /\
    List.filter (fun r' => negb (bool_decide (Database.w_id r' = Database.w_id r))) ws
    = l1 ++ l2.
Proof.
  intros Hnd Hin. apply list_elem_of_split in Hin as (l1 & l2 & ->).
  exists l1, l2. split; [reflexivity|].
  rewrite List.map_app in Hnd. simpl in Hnd.
  apply NoDup_app in Hnd as (_ & Hdisj & Hnd2).
  apply NoDup_cons in Hnd2 as [Hn2 _].
  rewrite List.filter_app. simpl.
  rewrite bool_decide_eq_true_2 by reflexivity. simpl.
  rewrite !filter_id_fresh; [reflexivity | exact Hn2 |].
  intros Hin1. apply (Hdisj _ Hin1). now left.
Qed.

Lemma latest_row (ws : list Database.WarningRow) (user_id guild_id i : Z) :
  Database.max_id (List.map Database.w_id (List.filter (Database.for_pair user_id guild_id) ws))
  = Some i ->
  (exists r, r ∈ ws /\ Database.w_id r = i /\ Database.for_pair user_id guild_id r = true) /\
  (forall r', r' ∈ ws -> Database.for_pair user_id guild_id r' = true -> Database.w_id r' <= i).
Proof.
  intros H. apply max_id_spec in H as [Hin Hle]. split.
  - apply list_elem_of_In, List.in_map_iff in Hin as (r & Hid & Hr).
    apply List.filter_In in Hr as [Hr Hp]. exists r.
    split; [now apply list_elem_of_In|]. now split.
  - intros r' Hr' Hp. apply Hle. apply list_elem_of_In, List.in_map.
    apply List.filter_In. split; [now apply list_elem_of_In | exact Hp].
Qed.

Lemma for_pair_true (user_id guild_id : Z) (r : Database.WarningRow) :
  Database.for_pair user_id guild_id r = true <->
  Database.w_user_id r = user_id /\ Database.w_guild_id r = guild_id.
Proof.
  unfold Database.for_pair. rewrite andb_true_iff, !bool_decide_eq_true. reflexivity.
Qed.

Lemma send_log_ok guild n w :
  api_ok w ->
  wp (send_log guild n) (fun r w1 =>
    r = Ok tt /\ db w1 = db w /\ discord w1 = discord w /\ tasks w1 = tasks w /\
    faults w1 = faults w) w.
Proof. intros Hf. wp_run; repeat split; reflexivity. Qed.

Lemma apply_punishment_ok member c ctx w :
  api_ok w -> result (apply_punishment member c ctx) w = Ok tt.
Proof.
  intros Hf. destruct (PUNISHMENTS !! c) as [[action duration]|] eqn:Hp.
  - destruct (policy_cases _ _ _ Hp) as
      [(_ & Ha & d & Hdur & Hd & _) | (_ & Ha & Hdur)]; subst action duration.
    + apply (mute_branch member c ctx w d Hp Hd Hf).
    + apply (ban_branch member c ctx w Hp Hf).
  - unfold result, apply_punishment. now rewrite Hp.
Qed.

Lemma adjust_at_or_above_3 member n ctx w :
  3 <= n -> adjust_punishment_after_change member n ctx w = (Ok tt, w).
Proof.
  intros Hn. unfold adjust_punishment_after_change.
  rewrite bool_decide_eq_false_2 by lia. reflexivity.
Qed.

Lemma adjust_below_3 member n ctx w :
  n < 3 -> api_ok w ->
  wp (adjust_punishment_after_change member n ctx) (fun r w1 =>
    r = Ok tt /\ db w1 = db w /\ tasks w1 = tasks w /\
    ~ is_muted w1 (ctx_guild ctx) member /\
    bans (discord w1) = bans (discord w) /\
    (is_muted w (ctx_guild ctx) member ->
       muted (discord w1) = muted (discord w) ∖ {[(ctx_guild ctx, member)]}) /\
    (~ is_muted w (ctx_guild ctx) member -> muted (discord w1) = muted (discord w))) w.
Proof.
  intros Hn Hf. unfold adjust_punishment_after_change.
  rewrite bool_decide_eq_true_2 by lia.
  apply wp_bind, wp_gets. apply wp_bind, wp_gets. simpl.
  destruct (bool_decide (ctx_guild ctx ∈ muted_roles (discord w))) eqn:Hrole;
  destruct (bool_decide ((ctx_guild ctx, member) ∈ muted (discord w))) eqn:Hheld; simpl;
    try apply bool_decide_eq_true_1 in Hrole; try apply bool_decide_eq_false_1 in Hrole;
    try apply bool_decide_eq_true_1 in Hheld; try apply bool_decide_eq_false_1 in Hheld;
    wp_run; unfold is_muted; simpl; repeat split; try reflexivity; try tauto.
  all: intros [_ Hin]; apply elem_of_difference in Hin as [_ Hin];
       apply Hin; now apply elem_of_singleton.
Qed.

Lemma bind_after_ok {A B} (m : Coro A) (k : A -> Coro B) (w : World) (a : A) :
  result m w = Ok a -> (m ≫= k) w = k a (exec m w).
Proof.
  unfold result, exec, mbind, coro_bind. destruct (m w) as [[a'|e] w1]; simpl.
  - now intros [= ->].
  - discriminate.
Qed.

Lemma delwarn_none ctx member w :
  Database.get_one_user_warning member (ctx_guild ctx) (db w) = None ->
  wp (cmd_delwarn ctx member) (fun _ w' =>
    w' = w \/
    w' = set_sent (fun l => l ++ [(to_channel (ctx_channel ctx), n_no_warnings member)]) w) w.
Proof.
  intros Hrow. unfold cmd_delwarn, db_read. apply wp_bind, wp_gets. rewrite Hrow.
  wp_run; tauto.
Qed.

Lemma delwarn_ledger ctx member w i :
  Database.get_one_user_warning member (ctx_guild ctx) (db w) = Some i ->
  warnings_of (exec (cmd_delwarn ctx member) w)
  = List.filter (fun r => negb (bool_decide (Database.w_id r = i))) (warnings_of w).
Proof.
  intros Hrow. unfold cmd_delwarn, db_read.
  rewrite exec_bind. unfold gets at 1. rewrite Hrow.
  rewrite exec_bind. unfold db_write at 1, modify at 1.
  match goal with |- warnings_of (exec ?rest ?w1) = _ =>
    assert (Hk : keeps (same warnings_of) rest) by (keeps_struct; reflexivity);
    rewrite (Hk w1) end.
  reflexivity.
Qed.

Lemma delwarn_some ctx member w i :
  Database.get_one_user_warning member (ctx_guild ctx) (db w) = Some i ->
  api_ok w ->
  wp (cmd_delwarn ctx member) (fun r w' =>
    exists w_mid,
      db w_mid = Database.delete_last_warning i (db w) /\
      discord w_mid = discord w /\ tasks w_mid = tasks w /\ api_ok w_mid /\
      let n := Database.get_warnings_count member (ctx_guild ctx) (db w_mid) in
      result (apply_punishment member n ctx) w_mid = Ok tt /\
      r = result (adjust_punishment_after_change member n ctx)
                 (exec (apply_punishment member n ctx) w_mid) /\
      w' = exec (adjust_punishment_after_change member n ctx)
                (exec (apply_punishment member n ctx) w_mid)) w.
Proof.
  intros Hrow Hf. unfold cmd_delwarn, db_read, db_write.
  apply wp_bind, wp_gets. rewrite Hrow.
  apply wp_bind, wp_modify.
  apply wp_bind. unfold ctx_send, deliver.
  apply wp_bind, wp_api_ok; [apply Hf|]. apply wp_modify.
  apply wp_bind.
  eapply wp_mono; [|apply send_log_ok; exact Hf].
  intros r w1 (-> & Hdb & Hd & Ht & Hfl). simpl in Hdb, Hd, Ht, Hfl.
  apply wp_bind, wp_gets.
  assert (Hok1 : api_ok w1) by (intros c; rewrite Hfl; apply Hf).
  unfold wp. exists w1.
  pose proof (apply_punishment_ok member
    (Database.get_warnings_count member (ctx_guild ctx) (db w1)) ctx w1 Hok1) as Hres.
  repeat split; try assumption.
  - unfold result at 1. now rewrite (bind_after_ok _ _ _ _ Hres).
  - unfold exec at 1. now rewrite (bind_after_ok _ _ _ _ Hres).
Qed.

Lemma no_warning_iff (user_id guild_id : Z) (d : Database.Db) :
  Database.get_one_user_warning user_id guild_id d = None <->
  Database.get_warnings_count user_id guild_id d = 0.
Proof.
  unfold Database.get_one_user_warning, Database.get_warnings_count. split.
  - intros H. apply max_id_none in H. apply List.map_eq_nil in H. now rewrite H.
  - intros H.
    destruct (List.filter (Database.for_pair user_id guild_id) (Database.warnings d));
      [reflexivity | simpl in H; lia].
Qed.

Lemma count_split (user_id guild_id : Z) (l1 l2 : list Database.WarningRow)
    (r : Database.WarningRow) :
  Database.for_pair user_id guild_id r = true ->
  Z.of_nat (length (List.filter (Database.for_pair user_id guild_id) (l1 ++ l2)))
  = Z.of_nat (length (List.filter (Database.for_pair user_id guild_id) (l1 ++ r :: l2))) - 1.
Proof.
  intros Hr. rewrite !List.filter_app, !length_app. simpl. rewrite Hr. simpl. lia.
Qed.

(** C9, as the code has it. [cmd_delwarn] on a ledger whose ids are a
    key. When the pair has no warning it only reports so with a notice:
    the world is as before but for that notice. Otherwise exactly one
    row leaves the ledger, the pair's row with the greatest id, which is
    the most recent one if the timestamps of the ledger follow its ids;
    the pair's count drops by one; and, if the calls succeed, the
    command goes on with [apply_punishment] at the new count and then
    [adjust_punishment_after_change] at the new count. The adjustment
    does nothing at a count of 3 or more, and below 3, its calls
    succeeding, it leaves the member without the Muted role, touching
    neither the store nor the tasks. *)
Theorem delwarn_removes_latest_then_adjusts (ctx : Context) (member : Z) (w : World) :
  NoDup (List.map Database.w_id (warnings_of w)) ->
  let guild := ctx_guild ctx in
  let w' := exec (cmd_delwarn ctx member) w in
  (Database.get_warnings_count member guild (db w) = 0 ->
     w' = w \/
     w' = set_sent (fun l => l ++ [(to_channel (ctx_channel ctx), n_no_warnings member)]) w) /\
  (0 < Database.get_warnings_count member guild (db w) ->
     (exists l1 r l2,
        warnings_of w = l1 ++ r :: l2 /\ warnings_of w' = l1 ++ l2 /\
        Database.w_user_id r = member /\ Database.w_guild_id r = guild /\
        Database.get_one_user_warning member guild (db w) = Some (Database.w_id r) /\
        (forall r', r' ∈ l1 ++ l2 ->
           Database.w_user_id r' = member -> Database.w_guild_id r' = guild ->
           Database.w_id r' < Database.w_id r) /\
        ((forall r1 r2, r1 ∈ warnings_of w -> r2 ∈ warnings_of w ->
            Database.w_id r1 < Database.w_id r2 ->
            Database.w_timestamp r1 <= Database.w_timestamp r2) ->
         forall r', r' ∈ l1 ++ l2 ->
           Database.w_user_id r' = member -> Database.w_guild_id r' = guild ->
           Database.w_timestamp r' <= Database.w_timestamp r)) /\
     Database.get_warnings_count member guild (db w')
     = Database.get_warnings_count member guild (db w) - 1 /\
     (api_ok w ->
        exists w_mid,
          warnings_of w_mid = warnings_of w' /\
          punishments_of w_mid = punishments_of w /\
          discord w_mid = discord w /\ tasks w_mid = tasks w /\
          let n := Database.get_warnings_count member guild (db w') in
          result (apply_punishment member n ctx) w_mid = Ok tt /\
          w' = exec (adjust_punishment_after_change member n ctx)
                    (exec (apply_punishment member n ctx) w_mid))) /\
  (forall n w0, 3 <= n -> adjust_punishment_after_change member n ctx w0 = (Ok tt, w0)) /\
  (forall n w0, n < 3 -> api_ok w0 ->
     let w1 := exec (adjust_punishment_after_change member n ctx) w0 in
     result (adjust_punishment_after_change member n ctx) w0 = Ok tt /\
     ~ is_muted w1 guild member /\
     (~ is_muted w0 guild member -> muted (discord w1) = muted (discord w0)) /\
     db w1 = db w0 /\ tasks w1 = tasks w0).
Proof.
  intros Hnd guild w'. split; [|split; [|split]].
  - intros H0. apply no_warning_iff in H0. exact (delwarn_none ctx member w H0).
  - intros Hpos.
    destruct (Database.get_one_user_warning member guild (db w)) as [i|] eqn:Hrow;
      [|apply no_warning_iff in Hrow; lia].
    pose proof (delwarn_ledger ctx member w i Hrow) as Hled. fold w' in Hled.
    destruct (latest_row _ _ _ _ Hrow) as [(r & Hin & Hid & Hpair) Hle].
    destruct (delete_by_id_split _ r Hnd Hin) as (l1 & l2 & Hsplit & Hfilter).
    rewrite Hid in Hfilter. rewrite Hfilter in Hled.
    assert (Hlt : forall r', r' ∈ l1 ++ l2 ->
              Database.w_user_id r' = member -> Database.w_guild_id r' = guild ->
              Database.w_id r' < Database.w_id r).
    { intros r' Hr' Hu Hg.
      assert (Hne : Database.w_id r' <> i).
      { rewrite <- Hfilter in Hr'. apply list_elem_of_In, List.filter_In in Hr' as [_ Hb].
        apply negb_true_iff, bool_decide_eq_false_1 in Hb. exact Hb. }
      assert (Hin' : r' ∈ warnings_of w).
      { rewrite Hsplit. apply elem_of_app in Hr' as [Hr' | Hr'];
          apply elem_of_app; [now left | right; now right]. }
      specialize (Hle r' Hin' (proj2 (for_pair_true _ _ _) (conj Hu Hg))). lia. }
    assert (Hcount : Database.get_warnings_count member guild (db w')
                     = Database.get_warnings_count member guild (db w) - 1).
    { unfold Database.get_warnings_count.
      fold (warnings_of w'). fold (warnings_of w). rewrite Hled, Hsplit.
      now apply count_split. }
    apply for_pair_true in Hpair as Hpair'. destruct Hpair' as [Hru Hrg].
    split; [|split; [exact Hcount|]].
    + exists l1, r, l2. repeat split; try assumption.
      * now rewrite Hid.
      * intros Hmono r' Hr' Hu Hg. apply Hmono.
        -- rewrite Hsplit. apply elem_of_app in Hr' as [Hr' | Hr'];
             apply elem_of_app; [now left | right; now right].
        -- exact Hin.
        -- now apply Hlt.
    + intros Hok.
      destruct (delwarn_some ctx member w i Hrow Hok)
        as (w_mid & Hdb & Hd & Ht & _ & Hres & _ & Hw').
      fold w' in Hw'.
      assert (Hmid : warnings_of w_mid = warnings_of w').
      { unfold warnings_of at 1. rewrite Hdb. simpl. fold (warnings_of w).
        now rewrite Hsplit, Hled, <- Hfilter, Hsplit. }
      assert (Hn : Database.get_warnings_count member guild (db w_mid)
                   = Database.get_warnings_count member guild (db w')).
      { unfold Database.get_warnings_count. fold (warnings_of w_mid). fold (warnings_of w').
        now rewrite Hmid. }
      exists w_mid. split; [exact Hmid|].
      split; [unfold punishments_of; now rewrite Hdb|].
      split; [exact Hd|]. split; [exact Ht|].
      simpl. fold guild in Hn, Hres, Hw'. rewrite <- Hn. split; assumption.
  - intros n w0 Hn. now apply adjust_at_or_above_3.
  - intros n w0 Hn Hok w1.
    destruct (adjust_below_3 member n ctx w0 Hn Hok) as (Hr & Hdb & Ht & Hnm & _ & _ & Hkeep).
    fold w1 in Hdb, Ht, Hnm, Hkeep. auto.
Qed.

Lemma delwarn_removes_latest_then_adjusts_witness :
  let w' := exec (cmd_delwarn ctx1 10) world_warned3 in
  (exec (cmd_delwarn ctx1 10) world0 = world0 \/
   exec (cmd_delwarn ctx1 10) world0
   = set_sent (fun l => l ++ [(to_channel 100, n_no_warnings 10)]) world0) /\
  (exists l1 r l2,
     warnings_of world_warned3 = l1 ++ r :: l2 /\ warnings_of w' = l1 ++ l2 /\
     Database.w_id r = 3 /\
     forall r', r' ∈ l1 ++ l2 ->
       Database.w_user_id r' = 10 -> Database.w_guild_id r' = 1 ->
       Database.w_timestamp r' <= Database.w_timestamp r) /\
  Database.get_warnings_count 10 1 (db w')
  = Database.get_warnings_count 10 1 (db world_warned3) - 1 /\
  (exists w_mid,
     tasks w_mid = tasks world_warned3 /\
     w' = exec (adjust_punishment_after_change 10 2 ctx1)
            (exec (apply_punishment 10 2 ctx1) w_mid)) /\
  ~ is_muted (exec (adjust_punishment_after_change 10 2 ctx1) world_warned3) 1 10 /\
  adjust_punishment_after_change 10 3 ctx1 world_warned3 = (Ok tt, world_warned3).
Proof.
  intros w'.
  assert (Hnd0 : NoDup (List.map Database.w_id (warnings_of world0))) by constructor.
  assert (Hnd3 : NoDup (List.map Database.w_id (warnings_of world_warned3))).
  { apply (bool_decide_unpack _). vm_compute. exact I. }
  assert (Hmono : forall r1 r2,
            r1 ∈ warnings_of world_warned3 -> r2 ∈ warnings_of world_warned3 ->
            Database.w_id r1 < Database.w_id r2 ->
            Database.w_timestamp r1 <= Database.w_timestamp r2).
  { intros r1 r2 H1 H2.
    change (warnings_of world_warned3) with
      [ {| Database.w_id := 1; Database.w_user_id := 10; Database.w_guild_id := 1;
           Database.w_moderator_id := 20; Database.w_reason := "a";
           Database.w_timestamp := 1000; Database.w_ended_at := None |};
        {| Database.w_id := 2; Database.w_user_id := 10; Database.w_guild_id := 1;
           Database.w_moderator_id := 20; Database.w_reason := "b";
           Database.w_timestamp := 1001; Database.w_ended_at := None |};
        {| Database.w_id := 3; Database.w_user_id := 10; Database.w_guild_id := 1;
           Database.w_moderator_id := 20; Database.w_reason := "c";
           Database.w_timestamp := 1002; Database.w_ended_at := None |} ] in H1, H2.
    repeat (apply elem_of_cons in H1 as [-> | H1]); [| | |inversion H1];
      (repeat (apply elem_of_cons in H2 as [-> | H2]); [| | |inversion H2]);
      simpl; lia. }
  destruct (delwarn_removes_latest_then_adjusts ctx1 10 world0 Hnd0) as (Hnone & _).
  destruct (delwarn_removes_latest_then_adjusts ctx1 10 world_warned3 Hnd3)
    as (_ & Hsome & Hge & Hlt).
  destruct (Hsome ltac:(reflexivity)) as ((l1 & r & l2 & Hw & Hw' & _ & _ & Hid & _ & Hts)
                                          & Hcount & Hnext).
  destruct (Hnext (fun c => eq_refl)) as (w_mid & _ & _ & _ & Ht & _ & Hrun).
  split; [apply Hnone; reflexivity|].
  split; [|split; [exact Hcount|split; [|split]]].
  - exists l1, r, l2. split; [exact Hw|]. split; [exact Hw'|].
    split; [injection Hid as <-; reflexivity|]. exact (Hts Hmono).
  - exists w_mid. split; [exact Ht | exact Hrun].
  - apply (Hlt 2 world_warned3); [lia | intros c; reflexivity].
  - apply (Hge 3 world_warned3). lia.
Defined.

(** C9 as stated fails on three sides. In [world_warned_back] the clock
    was set back between the two warnings to user 10, ids being a key
    all the same: the command removes the warning of id 2, written at
    999, and keeps the more recent one, of id 1, written at 1000. The
    command returns nothing, and so the same, whether there was a
    warning to remove, as in [world_warned3], or none, as in [world0].
    And in [world_send_fails], where the bot cannot write to the channel,
    the third warning of the muted user 10 is removed and the command
    ends there with [Forbidden]: at the count 2 the user is still
    muted. *)
Lemma delwarn_removes_most_recent_counterexample :
  let stamps := List.map (fun r => (Database.w_id r, Database.w_timestamp r)) in
  (Database.wf (db world_warned_back) /\
   stamps (warnings_of world_warned_back) = [(1, 1000); (2, 999)] /\
   stamps (warnings_of (exec (cmd_delwarn ctx1 10) world_warned_back)) = [(1, 1000)]) /\
  (result (cmd_delwarn ctx1 10) world0 = Ok tt /\
   result (cmd_delwarn ctx1 10) world_warned3 = Ok tt) /\
  (let w' := exec (cmd_delwarn ctx1 10) world_send_fails in
   is_muted world_send_fails 1 10 /\
   result (cmd_delwarn ctx1 10) world_send_fails = Raise Forbidden /\
   Database.get_warnings_count 10 1 (db w') = 2 /\
   is_muted w' 1 10).
Proof.
  intros stamps. split; [|split].
  - split; [|split; reflexivity].
    split.
    + apply (bool_decide_unpack _). vm_compute. exact I.
    + repeat constructor.
  - split; reflexivity.
  - split; [split; vm_compute; reflexivity|].
    split; [reflexivity|]. split; [reflexivity|].
    split; vm_compute; reflexivity.
Qed.

(** ** Clearing the warnings *)

Lemma count_after_delete_all (user_id guild_id : Z) (d : Database.Db) :
  Database.get_warnings_count user_id guild_id
    (Database.delete_all_user_warnings user_id guild_id d) = 0.
Proof.
  unfold Database.get_warnings_count, Database.delete_all_user_warnings. simpl.
  induction (Database.warnings d) as [|r l IH]; simpl; [reflexivity|].
  destruct (Database.for_pair user_id guild_id r) eqn:Hr; simpl; [exact IH|].
  rewrite Hr. exact IH.
Qed.

Lemma clearwarns_ledger ctx member w :
  warnings_of (exec (cmd_clearwarns ctx member) w)
  = warnings_of (set_db (Database.delete_all_user_warnings member (ctx_guild ctx)) w).
Proof.
  unfold cmd_clearwarns. rewrite exec_bind. unfold db_write at 1, modify at 1.
  match goal with |- warnings_of (exec ?rest ?w1) = _ =>
    assert (Hk : keeps (same warnings_of) rest) by (keeps_struct; reflexivity);
    apply (Hk w1) end.
Qed.

Lemma clearwarns_keeps_punishments ctx member :
  keeps (same punishments_of) (cmd_clearwarns ctx member).
Proof. keeps_struct; reflexivity. Qed.

Lemma clearwarns_keeps_tasks ctx member : keeps (same tasks) (cmd_clearwarns ctx member).
Proof. keeps_struct; reflexivity. Qed.

Lemma clearwarns_reverses ctx member w :
  api_ok w ->
  wp (cmd_clearwarns ctx member) (fun r w' =>
    r = Ok tt /\
    ~ is_muted w' (ctx_guild ctx) member /\
    ((ctx_guild ctx, member) ∉ bans (discord w')) /\
    ((ctx_guild ctx, member) ∉ timeouts (discord w'))) w.
Proof.
  intros Hf. unfold cmd_clearwarns.
  apply wp_bind. unfold db_write. apply wp_modify.
  apply wp_bind. unfold ctx_send, deliver.
  apply wp_bind, wp_api_ok; [apply Hf|]. apply wp_modify.
  apply wp_bind.
  eapply wp_mono; [|apply send_log_ok; exact Hf].
  intros r w1 (-> & _ & Hd & _ & Hfl). simpl in Hd, Hfl.
  assert (Hok1 : api_ok w1) by (intros c; rewrite Hfl; apply Hf).
  clear Hd Hfl Hf. revert Hok1. generalize w1. clear w1 w. intros w Hf.
  wp_run; try discriminate; unfold is_muted; simpl; repeat split; try reflexivity;
    rewrite ?elem_of_difference, ?elem_of_singleton; tauto.
Qed.

(** C4, as the code has it. [cmd_clearwarns] deletes every warning of
    the pair, so that the count read afterwards is 0, whatever fails
    later; it writes nothing to the punishments table and leaves the
    pending tasks of the loop as they were. When the Discord calls
    succeed it returns normally and the member is then without timeout,
    without the Muted role and not banned, a missing ban entry being
    tolerated. *)
Theorem clearwarns_clears_and_reverses (ctx : Context) (member : Z) (w : World) :
  let guild := ctx_guild ctx in
  let w' := exec (cmd_clearwarns ctx member) w in
  Database.get_warnings_count member guild (db w') = 0 /\
  warnings_of w'
  = List.filter (fun r => negb (Database.for_pair member guild r)) (warnings_of w) /\
  punishments_of w' = punishments_of w /\
  tasks w' = tasks w /\
  (api_ok w ->
     result (cmd_clearwarns ctx member) w = Ok tt /\
     ~ is_muted w' guild member /\
     ((guild, member) ∉ bans (discord w')) /\
     ((guild, member) ∉ timeouts (discord w'))).
Proof.
  intros guild w'.
  pose proof (clearwarns_ledger ctx member w) as Hled. fold w' in Hled.
  split; [|split; [exact Hled|split; [|split]]].
  - unfold Database.get_warnings_count. fold (warnings_of w'). rewrite Hled.
    apply (count_after_delete_all member guild (db w)).
  - apply clearwarns_keeps_punishments.
  - apply clearwarns_keeps_tasks.
  - intros Hok. exact (clearwarns_reverses ctx member w Hok).
Qed.

Lemma clearwarns_clears_and_reverses_witness :
  let w' := exec (cmd_clearwarns ctx1 10) world_recorded in
  result (cmd_clearwarns ctx1 10) world_recorded = Ok tt /\
  ~ is_muted w' 1 10 /\
  ((1, 10) ∉ bans (discord w')) /\
  ((1, 10) ∉ timeouts (discord w')).
Proof.
  apply (proj2 (proj2 (proj2 (proj2
    (clearwarns_clears_and_reverses ctx1 10 world_recorded))))).
  intros c. reflexivity.
Defined.

(** C4 as stated fails: in [world_recorded] user 10 is muted, the table
    records the mute and its reversal is pending in the loop; after
    [cmd_clearwarns] the user has no warning and is unmuted, but the row
    is still in the table and the reversal is still pending. *)
Lemma clearwarns_leaves_row_and_task_counterexample :
  let w := world_recorded in
  let w' := exec (cmd_clearwarns ctx1 10) w in
  is_muted w 1 10 /\
  punishments_of w = [recorded_mute] /\
  tasks w = [unmute_later 10 ctx1 (timedelta_hours 1)] /\
  result (cmd_clearwarns ctx1 10) w = Ok tt /\
  Database.get_warnings_count 10 1 (db w') = 0 /\
  ~ is_muted w' 1 10 /\
  punishments_of w' = [recorded_mute] /\
  tasks w' = [unmute_later 10 ctx1 (timedelta_hours 1)].
Proof.
  intros w w'.
  split; [split; vm_compute; reflexivity|].
  repeat (split; [reflexivity|]).
  split; [|split; reflexivity].
  intros [_ H]. vm_compute in H. discriminate H.
Qed.

(** ** One timer per row *)

Lemma recovery_count_rows user_id guild_id action clock tick rows :
  length (List.filter (is_recovery_for user_id guild_id action) (recovery_tasks clock tick rows))
  = length (List.filter
      (fun '(u, g, a, _) =>
         bool_decide (u = user_id) && bool_decide (g = guild_id) && bool_decide (a = action))
      (readable rows)).
Proof.
  revert tick. induction rows as [|[[[u g] a] [t|t|s]] rows IH]; intros tick; simpl;
    try reflexivity.
  destruct (bool_decide (u = user_id) && bool_decide (g = guild_id) && bool_decide (a = action));
    simpl; now rewrite IH.
Qed.

Lemma active_count_rows user_id guild_id action (d : Database.Db) :
  length (List.filter
      (fun '(u, g, a, _) =>
         bool_decide (u = user_id) && bool_decide (g = guild_id) && bool_decide (a = action))
      (Database.get_all_active_punishments d))
  = length (List.filter (expiring_for user_id guild_id action) (Database.punishments d)).
Proof.
  unfold Database.get_all_active_punishments.
  induction (Database.punishments d) as [|r l IH]; simpl; [reflexivity|].
  unfold expiring_for at 1, Database.for_key.
  destruct (Database.p_ends_at r) as [e|]; simpl.
  - rewrite andb_true_r.
    destruct (bool_decide (Database.p_user_id r = user_id)
              && bool_decide (Database.p_guild_id r = guild_id)
              && bool_decide (Database.p_action r = action)); simpl;
      [f_equal|]; exact IH.
  - rewrite andb_false_r. exact IH.
Qed.

Lemma no_recovery_no_key user_id guild_id action (l : list Task) :
  List.filter is_recovery l = [] ->
  List.filter (is_recovery_for user_id guild_id action) l = [].
Proof.
  induction l as [|t l IH]; simpl; [reflexivity|].
  destruct t; simpl; [discriminate | exact IH | exact IH].
Qed.

Lemma cog_load_balances (w : World) :
  recovery_tasks_of w = [] -> result cog_load w = Ok tt -> balanced (exec cog_load w).
Proof.
  intros Hnone Hok u g a. apply cog_load_ok in Hok as [Hconn Hall].
  unfold recovery_timers_for, rows_for, punishments_of, exec.
  rewrite (cog_load_run w Hconn). simpl.
  rewrite List.filter_app, length_app.
  rewrite (no_recovery_no_key u g a _ Hnone). simpl.
  rewrite recovery_count_rows, (readable_naive _ Hall). apply active_count_rows.
Qed.

(** The commands on warnings add closures at most: the punishments
    table and the recovery timers stay as they are. *)
Ltac keeps_timers :=
  keeps_struct;
  first [ reflexivity
        | unfold same, recovery_tasks_of; simpl;
          rewrite List.filter_app; simpl; apply app_nil_r ].

Lemma warn_keeps_recovery ctx member reason :
  keeps (same recovery_tasks_of) (cmd_warn ctx member reason).
Proof. keeps_timers. Qed.

Lemma delwarn_keeps_recovery ctx member :
  keeps (same recovery_tasks_of) (cmd_delwarn ctx member).
Proof. keeps_timers. Qed.

Lemma clearwarns_keeps_recovery ctx member :
  keeps (same recovery_tasks_of) (cmd_clearwarns ctx member).
Proof. keeps_timers. Qed.

Lemma warn_keeps_punishments ctx member reason :
  keeps (same punishments_of) (cmd_warn ctx member reason).
Proof. keeps_struct; reflexivity. Qed.

Lemma delwarn_keeps_punishments ctx member :
  keeps (same punishments_of) (cmd_delwarn ctx member).
Proof. keeps_struct; reflexivity. Qed.

Lemma closure_keeps_recovery (t : Task) :
  is_recovery t = false -> keeps (same recovery_tasks_of) (run_task t).
Proof. destruct t; [discriminate | |]; intros _; keeps_timers. Qed.

Lemma closure_keeps_punishments (t : Task) :
  is_recovery t = false -> keeps (same punishments_of) (run_task t).
Proof. destruct t; [discriminate | |]; intros _; keeps_struct; reflexivity. Qed.

Lemma recovery_for_of_recovery_tasks user_id guild_id action (l : list Task) :
  List.filter (is_recovery_for user_id guild_id action) (List.filter is_recovery l)
  = List.filter (is_recovery_for user_id guild_id action) l.
Proof.
  induction l as [|t l IH]; simpl; [reflexivity|].
  destruct t; simpl; [now rewrite IH | exact IH | exact IH].
Qed.

(** [balanced] looks at the punishments table and the recovery timers only. *)
Lemma balanced_same (w w' : World) :
  recovery_tasks_of w' = recovery_tasks_of w -> punishments_of w' = punishments_of w ->
  balanced w -> balanced w'.
Proof.
  intros Ht Hp Hb u g a. specialize (Hb u g a).
  unfold recovery_timers_for, rows_for in *. rewrite Hp.
  rewrite <- (recovery_for_of_recovery_tasks u g a (tasks w')).
  fold (recovery_tasks_of w'). rewrite Ht. unfold recovery_tasks_of.
  now rewrite recovery_for_of_recovery_tasks.
Qed.

Lemma filter_delete {A} (f : A -> bool) (l : list A) (i : nat) (x : A) :
  l !! i = Some x ->
  (length (List.filter f (delete i l)) + (if f x then 1 else 0))%nat
  = length (List.filter f l).
Proof.
  revert i. induction l as [|y l IH]; intros i Hi; [destruct i; discriminate|].
  destruct i as [|i]; simpl in *.
  - injection Hi as ->. destruct (f x); simpl; lia.
  - specialize (IH i Hi). destruct (f y); simpl; lia.
Qed.

Lemma filter_delete_neutral {A} (f : A -> bool) (l : list A) (i : nat) (x : A) :
  l !! i = Some x -> f x = false -> List.filter f (delete i l) = List.filter f l.
Proof.
  revert i. induction l as [|y l IH]; intros i Hi Hx; [destruct i; discriminate|].
  destruct i as [|i]; simpl in *.
  - injection Hi as ->. now rewrite Hx.
  - rewrite (IH i Hi Hx). reflexivity.
Qed.

Lemma rows_after_delete_same user_id guild_id action (ps : list Database.PunishmentRow) :
  List.filter (expiring_for user_id guild_id action)
    (List.filter (fun r => negb (Database.for_key user_id guild_id action r)) ps) = [].
Proof.
  induction ps as [|r ps IH]; simpl; [reflexivity|].
  destruct (Database.for_key user_id guild_id action r) eqn:Hk; simpl; [exact IH|].
  unfold expiring_for at 1. rewrite Hk. simpl. exact IH.
Qed.

Lemma for_key_true user_id guild_id action r :
  Database.for_key user_id guild_id action r = true <->
  Database.p_user_id r = user_id /\ Database.p_guild_id r = guild_id /\
  Database.p_action r = action.
Proof.
  unfold Database.for_key. rewrite !andb_true_iff, !bool_decide_eq_true. tauto.
Qed.

Lemma rows_after_delete_other u g a u' g' a' (ps : list Database.PunishmentRow) :
  (u', g', a') <> (u, g, a) ->
  List.filter (expiring_for u' g' a')
    (List.filter (fun r => negb (Database.for_key u g a r)) ps)
  = List.filter (expiring_for u' g' a') ps.
Proof.
  intros Hne. induction ps as [|r ps IH]; simpl; [reflexivity|].
  destruct (Database.for_key u g a r) eqn:Hk; simpl.
  - rewrite IH.
    assert (Hf : expiring_for u' g' a' r = false).
    { unfold expiring_for.
      destruct (Database.for_key u' g' a' r) eqn:Hk'; [|reflexivity].
      apply for_key_true in Hk as (<- & <- & <-).
      apply for_key_true in Hk' as (<- & <- & <-). congruence. }
    now rewrite Hf.
  - now rewrite IH.
Qed.

Lemma is_recovery_for_true u g a t :
  is_recovery_for u g a t = true <-> exists d, t = delayed_unpunish u g a d.
Proof.
  split.
  - destruct t as [u0 g0 a0 d| |]; simpl; try discriminate.
    rewrite !andb_true_iff, !bool_decide_eq_true. intros [[-> ->] ->]. now exists d.
  - intros (d & ->). simpl. now rewrite !bool_decide_eq_true_2 by reflexivity.
Qed.

Lemma resume_recovery_balanced (w : World) (i : nat) u g a d :
  tasks w !! i = Some (delayed_unpunish u g a d) ->
  g ∈ guilds (discord w) -> (g, u) ∈ members (discord w) -> api_ok w ->
  unique_keys w -> balanced w ->
  balanced (exec (resume i) w).
Proof.
  intros Hi Hg Hm Hok Huniq Hbal.
  assert (Hrun : exec (resume i) w
                 = exec (_delayed_unpunish u g a d) (set_tasks (delete i) w)).
  { unfold exec, resume. now rewrite Hi. }
  destruct (delayed_unpunish_resolved u g a d (set_tasks (delete i) w) Hg Hm Hok)
    as (_ & Ht & Hdb).
  rewrite <- Hrun in Ht, Hdb. simpl in Ht, Hdb.
  intros u' g' a'. unfold recovery_timers_for, rows_for, punishments_of.
  rewrite Ht, Hdb. simpl.
  destruct (decide ((u', g', a') = (u, g, a))) as [[= -> -> ->] | Hne].
  - rewrite rows_after_delete_same. simpl.
    pose proof (filter_delete (is_recovery_for u g a) _ _ _ Hi) as Hcount.
    rewrite (proj2 (is_recovery_for_true u g a _)) in Hcount by now exists d.
    specialize (Hbal u g a). specialize (Huniq u g a).
    unfold recovery_timers_for in Hbal. lia.
  - rewrite rows_after_delete_other by exact Hne.
    rewrite (filter_delete_neutral _ _ _ _ Hi).
    + apply Hbal.
    + destruct (is_recovery_for u' g' a' (delayed_unpunish u g a d)) eqn:E; [|reflexivity].
      apply is_recovery_for_true in E as (d' & [= -> -> ->]). congruence.
Qed.

Lemma resume_closure_balanced (w : World) (i : nat) (t : Task) :
  tasks w !! i = Some t -> is_recovery t = false ->
  balanced w -> balanced (exec (resume i) w).
Proof.
  intros Hi Hc Hbal.
  assert (Hrun : exec (resume i) w = exec (run_task t) (set_tasks (delete i) w)).
  { unfold exec, resume. now rewrite Hi. }
  rewrite Hrun.
  apply (balanced_same (set_tasks (delete i) w)).
  - apply (closure_keeps_recovery t Hc).
  - apply (closure_keeps_punishments t Hc).
  - apply (balanced_same w); [|reflexivity|exact Hbal].
    unfold recovery_tasks_of. simpl. now apply (filter_delete_neutral _ _ _ t).
Qed.

Lemma sublist_filter_length {A} (f : A -> bool) (l1 l2 : list A) :
  sublist l1 l2 -> (length (List.filter f l1) <= length (List.filter f l2))%nat.
Proof.
  induction 1 as [|x l1 l2 _ IH|x l1 l2 _ IH]; simpl.
  - lia.
  - destruct (f x); simpl; lia.
  - destruct (f x); simpl; lia.
Qed.

Lemma exactly_one_of_balanced (w : World) :
  balanced w -> unique_keys w ->
  forall r, r ∈ punishments_of w -> Database.p_ends_at r <> None ->
    recovery_timers_for (Database.p_user_id r) (Database.p_guild_id r)
                        (Database.p_action r) w = 1%nat.
Proof.
  intros Hbal Huniq r Hin He.
  rewrite Hbal.
  specialize (Huniq (Database.p_user_id r) (Database.p_guild_id r) (Database.p_action r)).
  assert (Hpos : (1 <= rows_for (Database.p_user_id r) (Database.p_guild_id r)
                                (Database.p_action r) w)%nat); [|lia].
  unfold rows_for.
  assert (Hr : r ∈ List.filter (expiring_for (Database.p_user_id r) (Database.p_guild_id r)
                                  (Database.p_action r)) (punishments_of w)).
  { apply list_elem_of_In, List.filter_In. split; [now apply list_elem_of_In|].
    unfold expiring_for.
    rewrite (proj2 (for_key_true _ _ _ r)) by auto.
    destruct (Database.p_ends_at r); [reflexivity | congruence]. }
  destruct (List.filter _ (punishments_of w)); [inversion Hr | simpl; lia].
Qed.

(** C3, as the code has it. The timers that belong to rows are those of
    startup recovery. Recovery that is run when no such timer is live
    and that returns, not stopped by the connection or by an expiry it
    cannot read, makes as many of them as there are rows with an expiry,
    key by key. That balance is kept by warn, deleteLatestWarning and
    clearAllWarnings, which touch neither the table nor these timers,
    and by the firing of a closure of [apply_punishment]. Where no key
    has more than one row with an expiry, it is also kept by the firing
    of a recovery timer whose guild and member resolve and whose calls
    succeed, which takes away the timer and the row of its key. No step
    adds a row, so keys that are unique stay unique; and where they are,
    every row with an expiry has exactly one live recovery timer of its
    key. The closures that [apply_punishment] schedules are not counted:
    they belong to no row. *)
Theorem recovery_timers_match_rows :
  (forall w, recovery_tasks_of w = [] -> result cog_load w = Ok tt ->
     balanced (exec cog_load w)) /\
  (forall w ctx member reason,
     balanced w -> balanced (step (op_warn ctx member reason) w)) /\
  (forall w ctx member, balanced w -> balanced (step (op_delwarn ctx member) w)) /\
  (forall w ctx member, balanced w -> balanced (step (op_clearwarns ctx member) w)) /\
  (forall w (i : nat) t,
     tasks w !! i = Some t -> is_recovery t = false ->
     balanced w -> balanced (step (op_resume i) w)) /\
  (forall w (i : nat) u g a d,
     tasks w !! i = Some (delayed_unpunish u g a d) ->
     g ∈ guilds (discord w) -> (g, u) ∈ members (discord w) -> api_ok w ->
     unique_keys w -> balanced w -> balanced (step (op_resume i) w)) /\
  (forall o w, unique_keys w -> unique_keys (step o w)) /\
  (forall w, balanced w -> unique_keys w ->
     forall r, r ∈ punishments_of w -> Database.p_ends_at r <> None ->
       recovery_timers_for (Database.p_user_id r) (Database.p_guild_id r)
                           (Database.p_action r) w = 1%nat).
Proof.
  split; [exact cog_load_balances|].
  split.
  { intros w ctx member reason. apply balanced_same.
    - apply warn_keeps_recovery.
    - apply warn_keeps_punishments. }
  split.
  { intros w ctx member. apply balanced_same.
    - apply delwarn_keeps_recovery.
    - apply delwarn_keeps_punishments. }
  split.
  { intros w ctx member. apply balanced_same.
    - apply clearwarns_keeps_recovery.
    - apply clearwarns_keeps_punishments. }
  split; [intros w i t; apply resume_closure_balanced|].
  split; [intros w i u g a d; apply resume_recovery_balanced|].
  split; [|exact exactly_one_of_balanced].
  intros o w Huniq u g a. specialize (Huniq u g a).
  pose proof (sublist_filter_length (expiring_for u g a) _ _ (step_shrinks o w)) as Hle.
  unfold rows_for in *. lia.
Qed.

Lemma recovery_timers_match_rows_witness :
  recovery_timers_for 10 1 "mute" world_restarted = 1%nat /\
  balanced (step (op_warn ctx1 10 "c") world_restarted) /\
  balanced (step (op_resume 0) world_restarted).
Proof.
  destruct recovery_timers_match_rows
    as (Hload & Hwarn & _ & _ & _ & Hfire & _ & Hone).
  assert (Hbal : balanced world_restarted).
  { apply (Hload (with_punishments [recorded_mute]
                    (steps [op_warn ctx1 10 "a"; op_warn ctx1 10 "b"] world0)));
      reflexivity. }
  assert (Huniq : unique_keys world_restarted).
  { intros u g a. unfold rows_for.
    change (punishments_of world_restarted) with [recorded_mute]. simpl.
    destruct (expiring_for u g a recorded_mute); simpl; lia. }
  split; [|split].
  - apply (Hone world_restarted Hbal Huniq recorded_mute).
    + change (punishments_of world_restarted) with [recorded_mute]. now left.
    + discriminate.
  - apply Hwarn, Hbal.
  - apply (Hfire world_restarted 0%nat 10 1 "mute" (py_float (3600 * 2 ^ 41) (-41))).
    + reflexivity.
    + vm_compute. reflexivity.
    + vm_compute. reflexivity.
    + intros c. reflexivity.
    + exact Huniq.
    + exact Hbal.
Defined.

(** C3 as stated fails on two sides. In [world_restarted] the one row
    has its one timer; the third warning to user 10 then mutes them and
    schedules a closure that will unmute them, a second live timer for
    (10, 1, "mute"). In [world_left] the one row has its one timer; the
    timer fires for a user who left the guild and ends, the row stays,
    with no timer. *)
Lemma one_timer_per_row_counterexample :
  (one_timer_per_row world_restarted /\
   timers_for 10 1 "mute" (step (op_warn ctx1 10 "c") world_restarted) = 2%nat /\
   ~ one_timer_per_row (step (op_warn ctx1 10 "c") world_restarted)) /\
  (one_timer_per_row world_left /\
   timers_for 10 1 "mute" (step (op_resume 0) world_left) = 0%nat /\
   ~ one_timer_per_row (step (op_resume 0) world_left)).
Proof.
  split; (split; [|split]).
  - intros r Hr _.
    change (punishments_of world_restarted) with [recorded_mute] in Hr.
    apply list_elem_of_singleton in Hr as ->. reflexivity.
  - reflexivity.
  - intros H. specialize (H recorded_mute).
    assert (Hin : recorded_mute ∈ punishments_of (step (op_warn ctx1 10 "c") world_restarted)).
    { change (punishments_of (step (op_warn ctx1 10 "c") world_restarted))
        with [recorded_mute]. now left. }
    specialize (H Hin ltac:(discriminate)). vm_compute in H. discriminate H.
  - intros r Hr _.
    change (punishments_of world_left) with [expired_mute] in Hr.
    apply list_elem_of_singleton in Hr as ->. reflexivity.
  - reflexivity.
  - intros H. specialize (H expired_mute).
    assert (Hin : expired_mute ∈ punishments_of (step (op_resume 0) world_left)).
    { change (punishments_of (step (op_resume 0) world_left)) with [expired_mute].
      now left. }
    specialize (H Hin ltac:(discriminate)). vm_compute in H. discriminate H.
Qed.

(** * Further properties of the code *)

(** ** The store keeps its primary key *)

Lemma NoDup_map_filter {A B} (f : A -> B) (p : A -> bool) (l : list A) :
  NoDup (List.map f l) -> NoDup (List.map f (List.filter p l)).
Proof.
  induction l as [|x l IH]; simpl; intros Hnd; [exact Hnd|].
  apply NoDup_cons in Hnd as [Hx Hnd]. destruct (p x); simpl; [|auto].
  apply NoDup_cons. split; [|auto].
  intros Hin. apply Hx.
  apply list_elem_of_In, List.in_map_iff in Hin as (y & Hy & Hin).
  apply List.filter_In in Hin as [Hin _].
  apply list_elem_of_In, List.in_map_iff. eauto.
Qed.

Lemma Forall_List_filter {A} (P : A -> Prop) (p : A -> bool) (l : list A) :
  Forall P l -> Forall P (List.filter p l).
Proof.
  induction 1 as [|x l Hx _ IH]; simpl; [constructor|].
  destruct (p x); [constructor|]; assumption.
Qed.

Lemma wf_add_warning u g m reason now (d : Database.Db) :
  Database.wf d -> Database.wf (Database.add_warning u g m reason now d).
Proof.
  intros [Hnd Hlt]. split; simpl.
  - rewrite List.map_app. simpl. apply NoDup_app. split; [exact Hnd|]. split.
    + intros i Hi Hin. apply list_elem_of_singleton in Hin as ->.
      apply list_elem_of_In, List.in_map_iff in Hi as (r & Hr & Hin).
      rewrite Forall_forall in Hlt.
      specialize (Hlt r (proj2 (list_elem_of_In _ _) Hin)). lia.
    + apply NoDup_singleton.
  - apply Forall_app. split.
    + eapply Forall_impl; [exact Hlt|]. simpl. intros r Hr. lia.
    + constructor; [simpl; lia | constructor].
Qed.

Lemma wf_filter_warnings (p : Database.WarningRow -> bool) (d : Database.Db) :
  Database.wf d ->
  Database.wf {| Database.warnings := List.filter p (Database.warnings d);
                 Database.warnings_auto_increment := Database.warnings_auto_increment d;
                 Database.punishments := Database.punishments d |}.
Proof.
  intros [Hnd Hlt]. split; simpl.
  - now apply NoDup_map_filter.
  - now apply Forall_List_filter.
Qed.

#[global] Instance keeps_key_preorder : PreOrder keeps_key.
Proof.
  split.
  - intros w. split; [auto | lia].
  - intros w1 w2 w3 [Hwf12 Hc12] [Hwf23 Hc23]. split; [auto | lia].
Qed.

Ltac keeps_key_write :=
  split; simpl;
  [ first [ exact id | apply wf_add_warning | apply wf_filter_warnings
          | intros [Hnd Hlt]; split; assumption ]
  | lia ].

Lemma step_keeps_key (o : Op) (w : World) : keeps_key w (step o w).
Proof.
  destruct o; simpl.
  - revert w. change (keeps keeps_key cog_load). keeps_struct; keeps_key_write.
  - unfold exec, resume. destruct (tasks w !! i) as [t|]; simpl; [|reflexivity].
    transitivity (set_tasks (delete i) w); [split; simpl; [exact id | lia]|].
    generalize (set_tasks (delete i) w). change (keeps keeps_key (run_task t)).
    destruct t; keeps_struct; keeps_key_write.
  - revert w. change (keeps keeps_key (cmd_warn ctx member reason)).
    keeps_struct; keeps_key_write.
  - revert w. change (keeps keeps_key (cmd_delwarn ctx member)).
    keeps_struct; keeps_key_write.
  - revert w. change (keeps keeps_key (cmd_clearwarns ctx member)).
    keeps_struct; keeps_key_write.
  - revert w. change (keeps keeps_key (cmd_mute ctx member duration)).
    keeps_struct; keeps_key_write.
  - revert w. change (keeps keeps_key (cmd_unmute ctx member)).
    keeps_struct; keeps_key_write.
  - revert w. change (keeps keeps_key (cmd_kick ctx member reason)).
    keeps_struct; keeps_key_write.
  - revert w. change (keeps keeps_key (cmd_ban ctx member reason)).
    keeps_struct; keeps_key_write.
  - split; simpl; [exact id | lia].
Qed.

(** X1. The primary key of the warnings table survives every step of
    the program: if the ids are pairwise distinct and below the
    AUTO_INCREMENT counter before a command, a task of the loop, startup
    recovery or a change outside, they are so afterwards, and the counter
    has not gone back; so after any sequence of steps no id that was
    ever handed out is handed out again. *)
Theorem warning_ids_stay_a_key (ops : list Op) (w : World) :
  Database.wf (db w) ->
  Database.wf (db (steps ops w)) /\
  Database.warnings_auto_increment (db w)
  <= Database.warnings_auto_increment (db (steps ops w)) /\
  forall r, r ∈ warnings_of (steps ops w) ->
    Database.w_id r < Database.warnings_auto_increment (db (steps ops w)).
Proof.
  intros Hwf.
  assert (Hk : keeps_key w (steps ops w)).
  { revert w Hwf. induction ops as [|o ops IH]; intros w Hwf; simpl; [reflexivity|].
    pose proof (step_keeps_key o w) as Hs.
    etransitivity; [exact Hs | apply IH, Hs, Hwf]. }
  destruct Hk as [Hwf' Hc]. specialize (Hwf' Hwf).
  split; [exact Hwf'|]. split; [exact Hc|].
  intros r Hr. destruct Hwf' as [_ Hlt]. rewrite Forall_forall in Hlt. now apply Hlt.
Qed.

Lemma warning_ids_stay_a_key_witness :
  Database.wf (db (steps [op_warn ctx1 10 "a"; op_delwarn ctx1 10; op_warn ctx1 10 "b"] world0)) /\
  1 <= Database.warnings_auto_increment
         (db (steps [op_warn ctx1 10 "a"; op_delwarn ctx1 10; op_warn ctx1 10 "b"] world0)).
Proof.
  destruct (warning_ids_stay_a_key
              [op_warn ctx1 10 "a"; op_delwarn ctx1 10; op_warn ctx1 10 "b"] world0)
    as (Hwf & Hc & _).
  - split; simpl; constructor.
  - split; [exact Hwf | exact Hc].
Defined.

(** ** Adding and taking back a warning *)

Lemma max_id_fresh (ids : list Z) (n : Z) :
  Forall (fun i => i < n) ids -> Database.max_id (ids ++ [n]) = Some n.
Proof.
  induction 1 as [|i ids Hi _ IH]; simpl; [reflexivity|].
  rewrite IH. f_equal. lia.
Qed.

Lemma latest_after_add u g m reason now (d : Database.Db) :
  Database.wf d ->
  Database.get_one_user_warning u g (Database.add_warning u g m reason now d)
  = Some (Database.warnings_auto_increment d).
Proof.
  intros [_ Hlt]. unfold Database.get_one_user_warning, Database.add_warning. simpl.
  rewrite List.filter_app, List.map_app. simpl.
  unfold Database.for_pair at 2. simpl.
  rewrite !bool_decide_eq_true_2 by reflexivity. simpl.
  apply max_id_fresh.
  apply Forall_forall. intros i Hi.
  apply list_elem_of_In, List.in_map_iff in Hi as (r & <- & Hr).
  apply List.filter_In in Hr as [Hr _].
  rewrite Forall_forall in Hlt. apply Hlt. now apply list_elem_of_In.
Qed.

Lemma delete_after_add u g m reason now (d : Database.Db) :
  Database.wf d ->
  Database.warnings
    (Database.delete_last_warning (Database.warnings_auto_increment d)
       (Database.add_warning u g m reason now d))
  = Database.warnings d.
Proof.
  intros [_ Hlt]. simpl. rewrite List.filter_app. simpl.
  rewrite bool_decide_eq_true_2 by reflexivity. simpl. rewrite app_nil_r.
  apply filter_id_fresh. intros Hin.
  apply list_elem_of_In, List.in_map_iff in Hin as (r & Hid & Hr).
  rewrite Forall_forall in Hlt.
  specialize (Hlt r (proj2 (list_elem_of_In _ _) Hr)). lia.
Qed.

Lemma warn_store ctx member reason w :
  db (exec (cmd_warn ctx member reason) w)
  = Database.add_warning member (ctx_guild ctx) (ctx_author ctx) reason
      (clock w (ticks w)) (db w).
Proof.
  unfold cmd_warn. rewrite exec_bind. simpl. rewrite exec_bind. simpl.
  match goal with |- db (exec ?rest ?w1) = _ =>
    assert (Hk : keeps (same db) rest) by (keeps_struct; reflexivity);
    apply (Hk w1) end.
Qed.

Lemma delwarn_store ctx member w :
  db (exec (cmd_delwarn ctx member) w)
  = match Database.get_one_user_warning member (ctx_guild ctx) (db w) with
    | Some i => Database.delete_last_warning i (db w)
    | None => db w
    end.
Proof.
  unfold cmd_delwarn, db_read. rewrite exec_bind. unfold gets at 1.
  destruct (Database.get_one_user_warning member (ctx_guild ctx) (db w)) as [i|].
  - rewrite exec_bind. unfold db_write at 1, modify at 1.
    match goal with |- db (exec ?rest ?w1) = _ =>
      assert (Hk : keeps (same db) rest) by (keeps_struct; reflexivity);
      apply (Hk w1) end.
  - assert (Hk : keeps (same db) (ctx_send ctx (n_no_warnings member)))
      by (keeps_struct; reflexivity).
    apply (Hk w).
Qed.

(** X2. A warning that is taken back at once leaves no trace in the
    ledger but a spent id. On a store whose ids are a key, whichever
    Discord calls fail: right after [cmd_warn] the latest warning of the
    pair is the new row, with the id the counter stood at; [cmd_delwarn]
    then removes that row and no other, so the warnings table is what it
    was before the warning, while the counter stays one higher. *)
Theorem warn_then_delwarn_restores_ledger
    (ctx : Context) (member : Z) (reason : string) (w : World) :
  Database.wf (db w) ->
  let w1 := exec (cmd_warn ctx member reason) w in
  let w2 := exec (cmd_delwarn ctx member) w1 in
  Database.get_one_user_warning member (ctx_guild ctx) (db w1)
  = Some (Database.warnings_auto_increment (db w)) /\
  warnings_of w2 = warnings_of w /\
  Database.get_warnings_count member (ctx_guild ctx) (db w2)
  = Database.get_warnings_count member (ctx_guild ctx) (db w) /\
  Database.warnings_auto_increment (db w2) = Database.warnings_auto_increment (db w) + 1.
Proof.
  intros Hwf w1 w2.
  assert (H1 : db w1 = Database.add_warning member (ctx_guild ctx) (ctx_author ctx) reason
                         (clock w (ticks w)) (db w)) by apply warn_store.
  assert (Hlatest : Database.get_one_user_warning member (ctx_guild ctx) (db w1)
                    = Some (Database.warnings_auto_increment (db w))).
  { rewrite H1. now apply latest_after_add. }
  assert (H2 : db w2 = Database.delete_last_warning (Database.warnings_auto_increment (db w))
                         (db w1)).
  { unfold w2. rewrite delwarn_store, Hlatest. reflexivity. }
  assert (Hws : warnings_of w2 = warnings_of w).
  { unfold warnings_of. rewrite H2, H1. now apply delete_after_add. }
  split; [exact Hlatest|]. split; [exact Hws|]. split.
  - unfold Database.get_warnings_count. fold (warnings_of w2) (warnings_of w).
    now rewrite Hws.
  - rewrite H2, H1. reflexivity.
Qed.

Lemma warn_then_delwarn_restores_ledger_witness :
  warnings_of (exec (cmd_delwarn ctx1 10) (exec (cmd_warn ctx1 10 "d") world_warned3))
  = warnings_of world_warned3.
Proof.
  apply (warn_then_delwarn_restores_ledger ctx1 10 "d" world_warned3).
  split.
  - apply (bool_decide_unpack _). vm_compute. exact I.
  - vm_compute. repeat constructor.
Defined.

(** ** Listing, counting and the other pairs *)

Lemma for_pair_other u g u' g' (r : Database.WarningRow) :
  (u', g') <> (u, g) -> Database.for_pair u g r = true -> Database.for_pair u' g' r = false.
Proof.
  intros Hne Hr. apply for_pair_true in Hr as [<- <-].
  destruct (Database.for_pair u' g' r) eqn:E; [|reflexivity].
  apply for_pair_true in E as [<- <-]. congruence.
Qed.

(** X3. The list [get_all_user_warnings] shows and the number
    [get_warnings_count] gives agree: the list has exactly that many
    entries. A warning added for the pair appears at the end of its list
    as (reason, timestamp, moderator); a warning added for another pair
    does not change the list; after [delete_all_user_warnings] for the
    pair the list is empty. *)
Theorem listed_warnings_agree_with_count (u g : Z) (d : Database.Db) :
  Z.of_nat (length (Database.get_all_user_warnings u g d))
  = Database.get_warnings_count u g d /\
  (forall m reason now,
     Database.get_all_user_warnings u g (Database.add_warning u g m reason now d)
     = Database.get_all_user_warnings u g d ++ [(reason, now, m)]) /\
  (forall u' g' m reason now, (u', g') <> (u, g) ->
     Database.get_all_user_warnings u g (Database.add_warning u' g' m reason now d)
     = Database.get_all_user_warnings u g d) /\
  Database.get_all_user_warnings u g (Database.delete_all_user_warnings u g d) = [].
Proof.
  split; [|split; [|split]].
  - unfold Database.get_all_user_warnings, Database.get_warnings_count.
    now rewrite length_map.
  - intros m reason now. unfold Database.get_all_user_warnings, Database.add_warning. simpl.
    rewrite List.filter_app, List.map_app. simpl.
    unfold Database.for_pair at 2. simpl.
    now rewrite !bool_decide_eq_true_2 by reflexivity.
  - intros u' g' m reason now Hne.
    unfold Database.get_all_user_warnings, Database.add_warning. simpl.
    rewrite List.filter_app, List.map_app. simpl.
    assert (E : Database.for_pair u g
                  {| Database.w_id := Database.warnings_auto_increment d;
                     Database.w_user_id := u'; Database.w_guild_id := g';
                     Database.w_moderator_id := m; Database.w_reason := reason;
                     Database.w_timestamp := now; Database.w_ended_at := None |} = false).
    { apply (for_pair_other u' g'); [congruence|].
      apply for_pair_true. now split. }
    rewrite E. simpl. apply app_nil_r.
  - unfold Database.get_all_user_warnings, Database.delete_all_user_warnings. simpl.
    induction (Database.warnings d) as [|r l IH]; simpl; [reflexivity|].
    destruct (Database.for_pair u g r) eqn:E; simpl; [exact IH|].
    rewrite E. exact IH.
Qed.

Lemma listed_warnings_agree_with_count_witness :
  Database.get_all_user_warnings 10 1
    (Database.add_warning 20 1 10 "x" 0 (db world_warned3))
  = Database.get_all_user_warnings 10 1 (db world_warned3).
Proof.
  apply (proj1 (proj2 (proj2 (listed_warnings_agree_with_count 10 1 (db world_warned3))))).
  intros H. inversion H.
Defined.

Lemma filter_pair_delete_all u g u' g' (l : list Database.WarningRow) :
  (u', g') <> (u, g) ->
  List.filter (Database.for_pair u' g')
    (List.filter (fun r => negb (Database.for_pair u g r)) l)
  = List.filter (Database.for_pair u' g') l.
Proof.
  intros Hne. induction l as [|r l IH]; simpl; [reflexivity|].
  destruct (Database.for_pair u g r) eqn:E; simpl.
  - rewrite (for_pair_other u g u' g' r Hne E). exact IH.
  - now rewrite IH.
Qed.

Lemma clearwarns_store ctx member w :
  db (exec (cmd_clearwarns ctx member) w)
  = Database.delete_all_user_warnings member (ctx_guild ctx) (db w).
Proof.
  unfold cmd_clearwarns. rewrite exec_bind. unfold db_write at 1, modify at 1.
  match goal with |- db (exec ?rest ?w1) = _ =>
    assert (Hk : keeps (same db) rest) by (keeps_struct; reflexivity);
    apply (Hk w1) end.
Qed.

(** X4. The three commands on warnings touch one pair only. For every
    other (user, guild) pair the warnings listed and counted are the
    same after [cmd_warn] and after [cmd_clearwarns], whichever Discord
    calls fail, and after [cmd_delwarn] when the ids are a key. *)
Theorem warning_commands_touch_one_pair
    (ctx : Context) (member : Z) (reason : string) (w : World) (u g : Z) :
  (u, g) <> (member, ctx_guild ctx) ->
  let listed := fun w' => Database.get_all_user_warnings u g (db w') in
  let counted := fun w' => Database.get_warnings_count u g (db w') in
  (listed (exec (cmd_warn ctx member reason) w) = listed w /\
   counted (exec (cmd_warn ctx member reason) w) = counted w) /\
  (listed (exec (cmd_clearwarns ctx member) w) = listed w /\
   counted (exec (cmd_clearwarns ctx member) w) = counted w) /\
  (Database.wf (db w) ->
   listed (exec (cmd_delwarn ctx member) w) = listed w /\
   counted (exec (cmd_delwarn ctx member) w) = counted w).
Proof.
  intros Hne listed counted.
  assert (Hboth : forall w', List.filter (Database.for_pair u g) (warnings_of w')
                             = List.filter (Database.for_pair u g) (warnings_of w) ->
                             listed w' = listed w /\ counted w' = counted w).
  { intros w' H. unfold listed, counted, Database.get_all_user_warnings,
      Database.get_warnings_count. fold (warnings_of w') (warnings_of w).
    now rewrite H. }
  split; [|split].
  - apply Hboth. unfold warnings_of. rewrite warn_store. simpl.
    rewrite List.filter_app. simpl.
    assert (E : Database.for_pair u g
                  {| Database.w_id := Database.warnings_auto_increment (db w);
                     Database.w_user_id := member; Database.w_guild_id := ctx_guild ctx;
                     Database.w_moderator_id := ctx_author ctx; Database.w_reason := reason;
                     Database.w_timestamp := clock w (ticks w);
                     Database.w_ended_at := None |} = false).
    { apply (for_pair_other member (ctx_guild ctx)); [exact Hne|].
      apply for_pair_true. now split. }
    rewrite E. apply app_nil_r.
  - apply Hboth. unfold warnings_of. rewrite clearwarns_store. simpl.
    now apply filter_pair_delete_all.
  - intros [Hnd _]. apply Hboth. unfold warnings_of. rewrite delwarn_store.
    destruct (Database.get_one_user_warning member (ctx_guild ctx) (db w)) as [i|] eqn:Hrow;
      [|reflexivity].
    destruct (latest_row _ _ _ _ Hrow) as [(r & Hin & Hid & Hpair) _].
    destruct (delete_by_id_split _ r Hnd Hin) as (l1 & l2 & Hsplit & Hfilter).
    simpl. rewrite <- Hid, Hfilter, Hsplit, !List.filter_app. simpl.
    now rewrite (for_pair_other member (ctx_guild ctx) u g r Hne Hpair).
Qed.

Lemma warning_commands_touch_one_pair_witness :
  Database.get_warnings_count 20 1 (db (exec (cmd_delwarn ctx1 10) world_warned3))
  = Database.get_warnings_count 20 1 (db world_warned3).
Proof.
  apply (warning_commands_touch_one_pair ctx1 10 "" world_warned3 20 1).
  - intros H. inversion H.
  - split.
    + apply (bool_decide_unpack _). vm_compute. exact I.
    + vm_compute. repeat constructor.
Defined.

(** ** Deleting a punishment *)

Lemma delete_punishment_idem (u g : Z) (a : string) (d : Database.Db) :
  Database.delete_punishment u g a (Database.delete_punishment u g a d)
  = Database.delete_punishment u g a d.
Proof.
  unfold Database.delete_punishment. simpl. f_equal.
  induction (Database.punishments d) as [|r l IH]; simpl; [reflexivity|].
  destruct (Database.for_key u g a r) eqn:E; simpl; [exact IH|].
  rewrite E. simpl. now rewrite IH.
Qed.

(** X5. [delete_punishment] removes every row of the key (user, guild,
    action), with or without expiry, and no row of another key: a row is
    in the table afterwards exactly when it was there and is not of the
    key. Afterwards [get_all_active_punishments] lists nothing for the
    key, a second deletion changes nothing, and the warnings are as they
    were. *)
Theorem delete_punishment_removes_the_key (u g : Z) (a : string) (d : Database.Db) :
  (forall r, r ∈ Database.punishments (Database.delete_punishment u g a d) <->
             r ∈ Database.punishments d /\
             ~ (Database.p_user_id r = u /\ Database.p_guild_id r = g /\
                Database.p_action r = a)) /\
  (forall e, (u, g, a, e) ∉
             Database.get_all_active_punishments (Database.delete_punishment u g a d)) /\
  Database.delete_punishment u g a (Database.delete_punishment u g a d)
  = Database.delete_punishment u g a d /\
  Database.warnings (Database.delete_punishment u g a d) = Database.warnings d.
Proof.
  assert (Hin : forall r, r ∈ Database.punishments (Database.delete_punishment u g a d) <->
             r ∈ Database.punishments d /\
             ~ (Database.p_user_id r = u /\ Database.p_guild_id r = g /\
                Database.p_action r = a)).
  { intros r. simpl. rewrite list_elem_of_In, List.filter_In, <- list_elem_of_In.
    rewrite negb_true_iff, <- not_true_iff_false, for_key_true. reflexivity. }
  split; [exact Hin|]. split; [|split; [|reflexivity]].
  - intros e He. apply active_punishments_spec in He as (r & Hr & Hu & Hg & Ha & _).
    apply Hin in Hr as [_ Hr]. tauto.
  - apply delete_punishment_idem.
Qed.

(** ** The log channel *)

(** X6. [send_log] writes to the configured log channel of the guild
    the command ran in, and to nothing else. With no log channel
    configured, [None] or 0, which is how [setup] builds the cog, or with
    a channel id that is not a channel of that guild, it returns without
    sending and without raising, whatever the world. Otherwise it sends
    the one message to that channel, or raises what the send raised; in
    every case the world is as before but for that message. *)
Theorem send_log_goes_to_the_log_channel_only (guild : Z) (n : Notice) (w : World) :
  (log_channel_id w = None \/ log_channel_id w = Some 0 ->
   send_log guild n w = (Ok tt, w)) /\
  (forall id, log_channel_id w = Some id ->
     (forall ch, ch ∈ channels (discord w) -> ~ (ch_guild ch = guild /\ ch_id ch = id)) ->
     send_log guild n w = (Ok tt, w)) /\
  (forall id ch, log_channel_id w = Some id -> id <> 0 ->
     ch ∈ channels (discord w) -> ch_guild ch = guild -> ch_id ch = id ->
     send_log guild n w =
     match faults w c_send with
     | Some e => (Raise e, w)
     | None => (Ok tt, set_sent (fun l => l ++ [(to_channel id, n)]) w)
     end).
Proof.
  split; [|split].
  - intros [H | H]; unfold send_log, gets; unfold mbind, coro_bind at 1; rewrite H;
      reflexivity.
  - intros id Hid Hno. unfold send_log, gets. unfold mbind, coro_bind at 1. rewrite Hid.
    case_bool_decide; [reflexivity|].
    unfold get_channel, gets. unfold mbind, coro_bind at 1.
    destruct (List.find _ (channels (discord w))) as [ch|] eqn:Hfind; [|reflexivity].
    apply List.find_some in Hfind as [Hin Hch].
    apply andb_true_iff in Hch as [Hg Hi].
    apply bool_decide_eq_true_1 in Hg. apply bool_decide_eq_true_1 in Hi.
    exfalso. apply (Hno ch); [now apply list_elem_of_In | now split].
  - intros id ch Hid Hne Hin Hg Hi. unfold send_log, gets. unfold mbind, coro_bind at 1.
    rewrite Hid. rewrite bool_decide_eq_false_2 by exact Hne.
    unfold get_channel, gets. unfold mbind, coro_bind at 1.
    destruct (List.find _ (channels (discord w))) as [ch'|] eqn:Hfind.
    + apply List.find_some in Hfind as [_ Hch].
      apply andb_true_iff in Hch as [_ Hi'].
      apply bool_decide_eq_true_1 in Hi'.
      unfold channel_send, deliver, api, modify. unfold mbind, coro_bind.
      rewrite Hi'. destruct (faults w c_send); reflexivity.
    + exfalso. apply list_elem_of_In in Hin.
      pose proof (List.find_none _ _ Hfind ch Hin) as Hf. simpl in Hf.
      rewrite Hg, Hi, !bool_decide_eq_true_2 in Hf by reflexivity. discriminate Hf.
Qed.

Lemma send_log_goes_to_the_log_channel_only_witness :
  send_log 1 (n_log_cleared 20 10) world0 = (Ok tt, world0) /\
  send_log 2 (n_log_cleared 20 10) world_logged = (Ok tt, world_logged) /\
  send_log 1 (n_log_cleared 20 10) world_logged
  = (Ok tt, set_sent (fun l => l ++ [(to_channel 100, n_log_cleared 20 10)]) world_logged).
Proof.
  split; [|split].
  - apply (proj1 (send_log_goes_to_the_log_channel_only 1 (n_log_cleared 20 10) world0)).
    left. reflexivity.
  - apply (proj1 (proj2 (send_log_goes_to_the_log_channel_only 2 (n_log_cleared 20 10)
                           world_logged)) 100 eq_refl).
    intros ch Hch [Hg _].
    change (channels (discord world_logged))
      with [ {| ch_id := 100; ch_guild := 1; ch_name := "general"; ch_text := true |} ] in Hch.
    apply list_elem_of_singleton in Hch. subst ch. discriminate Hg.
  - apply (proj2 (proj2 (send_log_goes_to_the_log_channel_only 1 (n_log_cleared 20 10)
                           world_logged)) 100
             {| ch_id := 100; ch_guild := 1; ch_name := "general"; ch_text := true |}
             eq_refl).
    + lia.
    + now left.
    + reflexivity.
    + reflexivity.
Defined.

(** ** A warning whose notification fails *)

Lemma cmd_warn_unfold ctx member reason w :
  cmd_warn ctx member reason w
  = (ctx_send ctx (n_warned member
                     (Database.get_warnings_count member (ctx_guild ctx) (db w) + 1) reason) ;;
     try_except
       (member_send member
          (n_you_were_warned (ctx_guild ctx) reason
             (Database.get_warnings_count member (ctx_guild ctx) (db w) + 1)) ;;
        send_log (ctx_guild ctx) (n_log_warned member (ctx_author ctx) reason))
       Forbidden (mret tt) ;;
     apply_punishment member
       (Database.get_warnings_count member (ctx_guild ctx) (db w) + 1) ctx)
    (set_db (Database.add_warning member (ctx_guild ctx) (ctx_author ctx) reason
               (clock w (ticks w)))
       (set_ticks S w)).
Proof.
  unfold cmd_warn, utcnow, db_write, db_read, modify, gets.
  unfold mbind at 1, coro_bind at 1. unfold mbind at 1, coro_bind at 1.
  unfold mbind at 1, coro_bind at 1. simpl db. rewrite count_app.
  set (total := Database.get_warnings_count member (ctx_guild ctx) (db w) + 1).
  set (w1 := set_db _ _).
  unfold mbind, coro_bind.
  destruct (ctx_send ctx (n_warned member total reason) w1) as [[[]|e] w2]; [|reflexivity].
  destruct (try_except _ Forbidden (mret tt) w2) as [[[]|e] w3]; [|reflexivity].
  destruct (PUNISHMENTS !! total) as [p|] eqn:Hp; [reflexivity|].
  unfold apply_punishment. now rewrite Hp.
Qed.

(** X7. What a failing direct message does to [cmd_warn], the channel
    being writable. If the member's DMs are closed ([Forbidden]) the
    command swallows it, and with it the log entry, which is sent in the
    same [try]: after the announcement in the channel it goes straight
    on to the punishment for the new count. If the DM fails in any other
    way the command ends with that exception after the warning is
    stored and announced, and before any punishment: nothing is muted,
    banned or scheduled, whatever the new count. *)
Theorem warn_when_the_dm_fails (ctx : Context) (member : Z) (reason : string) (w : World)
    (e : Exn) :
  faults w c_send = None -> faults w c_dm = Some e ->
  let total := Database.get_warnings_count member (ctx_guild ctx) (db w) + 1 in
  (e = Forbidden ->
   cmd_warn ctx member reason w
   = apply_punishment member total ctx (warned ctx member reason w)) /\
  (e <> Forbidden ->
   cmd_warn ctx member reason w = (Raise e, warned ctx member reason w) /\
   discord (exec (cmd_warn ctx member reason) w) = discord w /\
   tasks (exec (cmd_warn ctx member reason) w) = tasks w).
Proof.
  intros Hsend Hdm total.
  assert (Hpre : forall k : Coro unit,
            (ctx_send ctx (n_warned member total reason) ;;
             try_except
               (member_send member (n_you_were_warned (ctx_guild ctx) reason total) ;;
                send_log (ctx_guild ctx) (n_log_warned member (ctx_author ctx) reason))
               Forbidden (mret tt) ;; k)
              (set_db (Database.add_warning member (ctx_guild ctx) (ctx_author ctx) reason
                         (clock w (ticks w))) (set_ticks S w))
            = if bool_decide (e = Forbidden) then k (warned ctx member reason w)
              else (Raise e, warned ctx member reason w)).
  { intros k. unfold ctx_send, member_send, deliver, api, modify, try_except.
    unfold mbind, coro_bind. simpl. rewrite Hsend. simpl. rewrite Hdm.
    fold total. destruct (bool_decide (e = Forbidden)); reflexivity. }
  split.
  - intros ->. rewrite cmd_warn_unfold. fold total. rewrite Hpre. reflexivity.
  - intros Hne.
    assert (Hrun : cmd_warn ctx member reason w = (Raise e, warned ctx member reason w)).
    { rewrite cmd_warn_unfold. fold total. rewrite Hpre.
      now rewrite bool_decide_eq_false_2 by exact Hne. }
    split; [exact Hrun|]. unfold exec. rewrite Hrun. split; reflexivity.
Qed.

Lemma warn_when_the_dm_fails_witness :
  is_muted (exec (cmd_warn ctx1 10 "c") (world_dm_fails Forbidden)) 1 10 /\
  cmd_warn ctx1 10 "c" (world_dm_fails HTTPException)
  = (Raise HTTPException, warned ctx1 10 "c" (world_dm_fails HTTPException)) /\
  tasks (exec (cmd_warn ctx1 10 "c") (world_dm_fails HTTPException)) = [].
Proof.
  destruct (warn_when_the_dm_fails ctx1 10 "c" (world_dm_fails Forbidden) Forbidden
              eq_refl eq_refl) as [Hclosed _].
  destruct (warn_when_the_dm_fails ctx1 10 "c" (world_dm_fails HTTPException) HTTPException
              eq_refl eq_refl) as [_ Hother].
  split; [|split].
  - unfold exec. rewrite (Hclosed eq_refl). split; vm_compute; reflexivity.
  - apply Hother. discriminate.
  - apply Hother. discriminate.
Defined.

(** ** Warnings off the table *)

(** X8. A warning that brings the count to a number outside the table,
    below 3 or above 8, punishes nobody: whichever calls fail, the guild
    state and the tasks of the loop are after [cmd_warn] what they were
    before. In particular the ninth and every later warning of a pair,
    for instance of a user who was unbanned after the eighth, has no
    effect but the row and the messages. *)
Theorem warn_off_the_table_punishes_nobody
    (ctx : Context) (member : Z) (reason : string) (w : World) :
  let total := Database.get_warnings_count member (ctx_guild ctx) (db w) + 1 in
  total < 3 \/ 8 < total ->
  discord (exec (cmd_warn ctx member reason) w) = discord w /\
  tasks (exec (cmd_warn ctx member reason) w) = tasks w.
Proof.
  intros total Hoff.
  assert (Hnone : PUNISHMENTS !! total = None).
  { unfold PUNISHMENTS. rewrite !lookup_insert_ne by lia. apply lookup_empty. }
  unfold exec. rewrite cmd_warn_unfold. fold total.
  set (w1 := set_db _ _).
  change (discord w) with (discord w1). change (tasks w) with (tasks w1).
  unfold apply_punishment. rewrite Hnone.
  match goal with |- discord (snd (?m w1)) = _ /\ _ =>
    assert (Hd : keeps (same discord) m) by (keeps_struct; reflexivity);
    assert (Ht : keeps (same tasks) m) by (keeps_struct; reflexivity)
  end.
  split; [apply (Hd w1) | apply (Ht w1)].
Qed.

Lemma warn_off_the_table_punishes_nobody_witness :
  discord (exec (cmd_warn ctx1 10 "a") world0) = discord world0 /\
  tasks (exec (cmd_warn ctx1 10 "a") world0) = tasks world0.
Proof.
  apply (warn_off_the_table_punishes_nobody ctx1 10 "a" world0).
  left. vm_compute. reflexivity.
Defined.

(** ** Taking back a warning inside the table *)

(** X9. Taking back a warning can mute again. When the ids are a key,
    the calls succeed and the count left after [cmd_delwarn] is between
    3 and 7, the command applies the punishment of that count anew: the
    member holds the Muted role afterwards and one more reversal, with
    the duration the table gives for the new count, is added to the
    tasks of the loop, next to the ones already pending. *)
Theorem delwarn_into_the_table_mutes_again (ctx : Context) (member : Z) (w : World) :
  NoDup (List.map Database.w_id (warnings_of w)) ->
  api_ok w ->
  let n := Database.get_warnings_count member (ctx_guild ctx) (db w) - 1 in
  3 <= n <= 7 ->
  let w' := exec (cmd_delwarn ctx member) w in
  exists d, PUNISHMENTS !! n = Some ("mute", Some d) /\
    result (cmd_delwarn ctx member) w = Ok tt /\
    Database.get_warnings_count member (ctx_guild ctx) (db w') = n /\
    is_muted w' (ctx_guild ctx) member /\
    tasks w' = tasks w ++ [unmute_later member ctx d].
Proof.
  intros Hnd Hok n Hn w'.
  destruct (Database.get_one_user_warning member (ctx_guild ctx) (db w)) as [i|] eqn:Hrow;
    [|apply no_warning_iff in Hrow; lia].
  destruct (delwarn_some ctx member w i Hrow Hok)
    as (w_mid & Hdb & Hd & Ht & Hok_mid & Hres & Hr & Hw').
  fold w' in Hw'.
  assert (Hcount : Database.get_warnings_count member (ctx_guild ctx) (db w_mid) = n).
  { destruct (latest_row _ _ _ _ Hrow) as [(r & Hin & Hid & Hpair) _].
    destruct (delete_by_id_split _ r Hnd Hin) as (l1 & l2 & Hsplit & Hfilter).
    unfold n, Database.get_warnings_count. rewrite Hdb. simpl.
    fold (warnings_of w). rewrite <- Hid, Hfilter, Hsplit. now apply count_split. }
  simpl in Hres, Hr, Hw'. rewrite Hcount in Hres, Hr, Hw'.
  destruct (policy_mute n Hn) as (d & Hd0 & Hp).
  destruct (mute_branch member n ctx w_mid d Hp Hd0 Hok_mid)
    as (_ & Hdb1 & Hmuted & _ & _ & Ht1).
  pose proof (adjust_at_or_above_3 member n ctx
                (exec (apply_punishment member n ctx) w_mid) (proj1 Hn)) as Hadj.
  assert (E1 : result (adjust_punishment_after_change member n ctx)
                 (exec (apply_punishment member n ctx) w_mid) = Ok tt)
    by (unfold result; now rewrite Hadj).
  assert (E2 : exec (adjust_punishment_after_change member n ctx)
                 (exec (apply_punishment member n ctx) w_mid)
               = exec (apply_punishment member n ctx) w_mid)
    by (unfold exec at 1; now rewrite Hadj).
  rewrite E1 in Hr. rewrite E2 in Hw'. rewrite <- Hw' in Hdb1, Hmuted, Ht1.
  exists d. split; [exact Hp|]. split; [exact Hr|]. split.
  - rewrite Hdb1. exact Hcount.
  - split; [exact Hmuted|]. now rewrite Ht1, Ht.
Qed.

Lemma delwarn_into_the_table_mutes_again_witness :
  exists d, PUNISHMENTS !! 3 = Some ("mute", Some d) /\
    result (cmd_delwarn ctx1 10) (exec (cmd_warn ctx1 10 "d") world_warned3) = Ok tt /\
    Database.get_warnings_count 10 1
      (db (exec (cmd_delwarn ctx1 10) (exec (cmd_warn ctx1 10 "d") world_warned3))) = 3 /\
    is_muted (exec (cmd_delwarn ctx1 10) (exec (cmd_warn ctx1 10 "d") world_warned3)) 1 10 /\
    tasks (exec (cmd_delwarn ctx1 10) (exec (cmd_warn ctx1 10 "d") world_warned3))
    = tasks (exec (cmd_warn ctx1 10 "d") world_warned3) ++ [unmute_later 10 ctx1 d].
Proof.
  apply (delwarn_into_the_table_mutes_again ctx1 10
           (exec (cmd_warn ctx1 10 "d") world_warned3)).
  - apply (bool_decide_unpack _). vm_compute. exact I.
  - intros c. reflexivity.
  - vm_compute. split; discriminate.
Defined.

Lemma run_eq {A} (m : Coro A) (w w' : World) (r : Res A) :
  wp m (fun r0 w0 => r0 = r /\ w0 = w') w -> m w = (r, w').
Proof.
  unfold wp, result, exec. destruct (m w) as [r0 w0]. simpl. now intros [-> ->].
Qed.

(** ** A reversal closure fires *)

(** X10. The closure [unmute_later] fires once and without looking.
    When the loop resumes it, the task is gone from the loop and the
    store is untouched, whatever happens. If the role can be removed,
    the member is without the Muted role afterwards, whatever their
    count of warnings and however many later reversals are still
    pending: the timer of an earlier, shorter mute ends a later, longer
    one. If the removal fails, the guild state and the messages are as
    before and nothing will try again. *)
Theorem unmute_later_fires_once_and_blindly
    (w : World) (i : nat) (member : Z) (ctx : Context) (d : Z) :
  tasks w !! i = Some (unmute_later member ctx d) ->
  let w' := step (op_resume i) w in
  tasks w' = delete i (tasks w) /\
  db w' = db w /\
  (faults w c_remove_roles = None ->
   muted (discord w') = muted (discord w) ∖ {[(ctx_guild ctx, member)]} /\
   ~ is_muted w' (ctx_guild ctx) member) /\
  (forall e, faults w c_remove_roles = Some e ->
   discord w' = discord w /\ sent w' = sent w).
Proof.
  intros Hi w'.
  assert (Hrun : w' = exec (run_unmute_later member ctx) (set_tasks (delete i) w)).
  { unfold w', step, exec, resume. now rewrite Hi. }
  assert (Ht : keeps (same tasks) (run_unmute_later member ctx))
    by (keeps_struct; reflexivity).
  assert (Hd : keeps (same db) (run_unmute_later member ctx))
    by (keeps_struct; reflexivity).
  split; [rewrite Hrun; apply (Ht (set_tasks (delete i) w))|].
  split; [rewrite Hrun; apply (Hd (set_tasks (delete i) w))|].
  split.
  - intros Hf.
    assert (Hm : muted (discord w') = muted (discord w) ∖ {[(ctx_guild ctx, member)]}).
    { rewrite Hrun. unfold exec, run_unmute_later, remove_roles, ctx_send, deliver, api, modify.
      unfold mbind, coro_bind. simpl. rewrite Hf. simpl.
      destruct (faults w c_send); reflexivity. }
    split; [exact Hm|]. intros [_ Hin]. rewrite Hm in Hin.
    apply elem_of_difference in Hin as [_ Hin]. apply Hin. now apply elem_of_singleton.
  - intros e Hf. rewrite Hrun.
    unfold exec, run_unmute_later, remove_roles, api. unfold mbind, coro_bind. simpl.
    rewrite Hf. simpl. split; reflexivity.
Qed.

Lemma unmute_later_fires_once_and_blindly_witness :
  Database.get_warnings_count 10 1 (db (step (op_resume 0) world_warned4)) = 4 /\
  tasks (step (op_resume 0) world_warned4) = [unmute_later 10 ctx1 (timedelta_hours 12)] /\
  is_muted world_warned4 1 10 /\
  ~ is_muted (step (op_resume 0) world_warned4) 1 10.
Proof.
  destruct (unmute_later_fires_once_and_blindly world_warned4 0 10 ctx1 (timedelta_hours 1)
              eq_refl) as (Ht & Hdb & Hok & _).
  split; [rewrite Hdb; reflexivity|].
  split; [rewrite Ht; reflexivity|].
  split; [split; vm_compute; reflexivity|].
  apply Hok. reflexivity.
Defined.

(** ** The commands on timeouts *)

Lemma is_muted_same (w w' : World) :
  muted_roles (discord w') = muted_roles (discord w) ->
  muted (discord w') = muted (discord w) ->
  forall g m, is_muted w' g m <-> is_muted w g m.
Proof. intros Hr Hm g m. unfold is_muted. now rewrite Hr, Hm. Qed.

(** X11. [cmd_mute] and [cmd_unmute] act on the timeout of the member
    and on nothing else: whichever calls fail and whatever the duration,
    the holders of the Muted role, the bans, the membership, the store
    and the tasks are after either command what they were before, so
    [cmd_unmute] never lifts the mute of a warning threshold. A duration
    whose minutes no [timedelta] can hold makes [cmd_mute] raise
    [OverflowError] before anything is asked of Discord or said, and so
    does one that leads out of the range of [datetime]. For a duration
    that both types can hold: when Discord forbids the timeout and the channel
    is writable, [cmd_mute] only answers that it cannot and returns
    normally; when the calls succeed it returns normally, and the member
    is timed out afterwards if the duration is positive and is not if it
    is not. [cmd_unmute] answers that it cannot when Discord forbids, and
    leaves the member without timeout when the calls succeed. *)
Theorem timeout_commands_touch_the_timeout_only
    (ctx : Context) (member duration : Z) (w : World) :
  let timedelta_exists := - timedelta_max_days <= duration / 1440 <= timedelta_max_days in
  let datetime_exists :=
    datetime_min <= clock w (ticks w) + duration * 60 * 1000000 <= datetime_max in
  (forall cmd, cmd = cmd_mute ctx member duration \/ cmd = cmd_unmute ctx member ->
     let w' := exec cmd w in
     (forall g m, is_muted w' g m <-> is_muted w g m) /\
     bans (discord w') = bans (discord w) /\
     members (discord w') = members (discord w) /\
     db w' = db w /\ tasks w' = tasks w) /\
  (~ timedelta_exists -> cmd_mute ctx member duration w = (Raise OverflowError, w)) /\
  (timedelta_exists -> ~ datetime_exists ->
     cmd_mute ctx member duration w = (Raise OverflowError, set_ticks S w)) /\
  (faults w c_timeout = Some Forbidden -> faults w c_send = None ->
     (timedelta_exists -> datetime_exists ->
      cmd_mute ctx member duration w
      = (Ok tt, set_sent (fun l => l ++ [(to_channel (ctx_channel ctx), n_cannot_mute)])
                  (set_ticks S w))) /\
     cmd_unmute ctx member w
     = (Ok tt, set_sent (fun l => l ++ [(to_channel (ctx_channel ctx),
                                         n_cannot_unmute_him)]) w)) /\
  (api_ok w ->
     (timedelta_exists -> datetime_exists ->
      let w' := exec (cmd_mute ctx member duration) w in
      result (cmd_mute ctx member duration) w = Ok tt /\
      (0 < duration -> (ctx_guild ctx, member) ∈ timeouts (discord w')) /\
      (duration <= 0 -> (ctx_guild ctx, member) ∉ timeouts (discord w'))) /\
     result (cmd_unmute ctx member) w = Ok tt /\
     (ctx_guild ctx, member) ∉ timeouts (discord (exec (cmd_unmute ctx member) w))).
Proof.
  intros timedelta_exists datetime_exists. subst timedelta_exists datetime_exists.
  split; [|split; [|split; [|split]]].
  - intros cmd Hcmd w'.
    assert (H : keeps (same (fun w => (muted_roles (discord w), muted (discord w),
                                       bans (discord w), members (discord w),
                                       db w, tasks w))) cmd).
    { destruct Hcmd as [-> | ->]; keeps_struct; reflexivity. }
    specialize (H w). fold w' in H. unfold same in H.
    injection H as Hr Hm Hb Hmem Hdb Ht.
    split; [now apply is_muted_same|]. auto.
  - intros Hno. unfold cmd_mute, try_except, timedelta_minutes.
    unfold mbind, coro_bind. now rewrite bool_decide_eq_false_2.
  - intros Htd Hno. unfold cmd_mute, try_except, timedelta_minutes, timeout, utcnow.
    unfold mbind, coro_bind. rewrite bool_decide_eq_true_2 by exact Htd. simpl.
    now rewrite bool_decide_eq_false_2.
  - intros Hto Hsend. split.
    + intros Htd Hdt. unfold cmd_mute, try_except, timedelta_minutes, timeout, utcnow.
      unfold mbind, coro_bind. rewrite bool_decide_eq_true_2 by exact Htd. simpl.
      rewrite bool_decide_eq_true_2 by exact Hdt. simpl.
      unfold api at 1. simpl. rewrite Hto. simpl.
      unfold ctx_send, api. unfold mbind, coro_bind. simpl. now rewrite Hsend.
    + apply run_eq. wp_run; try congruence; split; reflexivity.
  - intros Hok. split.
    + intros Htd Hdt w'.
      assert (Hmute : wp (cmd_mute ctx member duration) (fun r w1 =>
                r = Ok tt /\
                timeouts (discord w1)
                = if bool_decide (0 < duration * 60 * 1000000)
                  then timeouts (discord w) ∪ {[(ctx_guild ctx, member)]}
                  else timeouts (discord w) ∖ {[(ctx_guild ctx, member)]}) w).
      { wp_run; try tauto; split; reflexivity. }
      destruct Hmute as [Hres Hto]. fold w' in Hto.
      split; [exact Hres|]. rewrite Hto. split.
      * intros Hpos. rewrite bool_decide_eq_true_2 by lia.
        apply elem_of_union; right; now apply elem_of_singleton.
      * intros Hneg. rewrite bool_decide_eq_false_2 by lia.
        rewrite elem_of_difference, elem_of_singleton; tauto.
    + assert (Hunmute : wp (cmd_unmute ctx member) (fun r w' =>
                r = Ok tt /\ (ctx_guild ctx, member) ∉ timeouts (discord w')) w).
      { wp_run; (split; [reflexivity|]);
          rewrite elem_of_difference, elem_of_singleton; tauto. }
      exact Hunmute.
Qed.

Lemma timeout_commands_touch_the_timeout_only_witness :
  is_muted (exec (cmd_unmute ctx1 10) world_warned3) 1 10 /\
  cmd_mute ctx1 10 (10 ^ 13) world_warned3 = (Raise OverflowError, world_warned3) /\
  cmd_mute ctx1 10 (5 * 10 ^ 9) world_warned3
  = (Raise OverflowError, set_ticks S world_warned3) /\
  cmd_mute ctx1 10 5 world_no_permission
  = (Ok tt, set_sent (fun l => l ++ [(to_channel 100, n_cannot_mute)])
              (set_ticks S world_no_permission)) /\
  ((1, 10) ∈ timeouts (discord (exec (cmd_mute ctx1 10 5) world_warned3))) /\
  ((1, 10) ∉ timeouts (discord (exec (cmd_mute ctx1 10 (-5)) world_warned3))).
Proof.
  destruct (timeout_commands_touch_the_timeout_only ctx1 10 5 world_warned3)
    as (Hframe & _ & _ & _ & Hok).
  destruct (timeout_commands_touch_the_timeout_only ctx1 10 (10 ^ 13) world_warned3)
    as (_ & Htd & _).
  destruct (timeout_commands_touch_the_timeout_only ctx1 10 (5 * 10 ^ 9) world_warned3)
    as (_ & _ & Hdt & _).
  destruct (timeout_commands_touch_the_timeout_only ctx1 10 5 world_no_permission)
    as (_ & _ & _ & Hforbidden & _).
  destruct (timeout_commands_touch_the_timeout_only ctx1 10 (-5) world_warned3)
    as (_ & _ & _ & _ & Hneg).
  split; [|split; [|split; [|split; [|split]]]].
  - apply (Hframe (cmd_unmute ctx1 10)); [now right|]. split; vm_compute; reflexivity.
  - apply Htd. vm_compute. intros [_ H]. apply H. reflexivity.
  - apply Hdt.
    + vm_compute. split; discriminate.
    + vm_compute. intros [_ H]. apply H. reflexivity.
  - apply Hforbidden; try reflexivity; vm_compute; split; discriminate.
  - apply (proj1 (Hok (fun c => eq_refl))).
    + vm_compute. split; discriminate.
    + vm_compute. split; discriminate.
    + lia.
  - apply (proj1 (Hneg (fun c => eq_refl))).
    + vm_compute. split; discriminate.
    + vm_compute. split; discriminate.
    + lia.
Defined.

(** ** Kicking and banning by hand *)

(** X12. [cmd_kick] and [cmd_ban] never touch the store or the loop:
    whichever calls fail, the warnings of the member stay in the ledger
    and the reversals pending for them stay scheduled. When Discord
    forbids the kick or the ban and the channel is writable, the command
    answers that it cannot, returns normally and leaves the guild as it
    was. When the calls succeed the member is no member any more and,
    after [cmd_ban], is banned; [cmd_ban] does not ask whether the user
    is banned already. *)
Theorem kick_and_ban_leave_ledger_and_timers
    (ctx : Context) (member : Z) (reason : string) (w : World) :
  (forall cmd, cmd = cmd_kick ctx member reason \/ cmd = cmd_ban ctx member reason ->
     db (exec cmd w) = db w /\ tasks (exec cmd w) = tasks w) /\
  (faults w c_kick = Some Forbidden -> faults w c_send = None ->
     cmd_kick ctx member reason w
     = (Ok tt, set_sent (fun l => l ++ [(to_channel (ctx_channel ctx), n_cannot_kick)]) w)) /\
  (faults w c_ban = Some Forbidden -> faults w c_send = None ->
     cmd_ban ctx member reason w
     = (Ok tt, set_sent (fun l => l ++ [(to_channel (ctx_channel ctx), n_cannot_ban)]) w)) /\
  (api_ok w ->
     result (cmd_kick ctx member reason) w = Ok tt /\
     ((ctx_guild ctx, member) ∉ members (discord (exec (cmd_kick ctx member reason) w))) /\
     bans (discord (exec (cmd_kick ctx member reason) w)) = bans (discord w) /\
     result (cmd_ban ctx member reason) w = Ok tt /\
     ((ctx_guild ctx, member) ∉ members (discord (exec (cmd_ban ctx member reason) w))) /\
     (ctx_guild ctx, member) ∈ bans (discord (exec (cmd_ban ctx member reason) w))).
Proof.
  split; [|split; [|split]].
  - intros cmd Hcmd.
    assert (H : keeps (same (fun w => (db w, tasks w))) cmd).
    { destruct Hcmd as [-> | ->]; keeps_struct; reflexivity. }
    specialize (H w). unfold same in H. injection H as Hdb Ht. auto.
  - intros Hk Hsend. apply run_eq. wp_run; try congruence; split; reflexivity.
  - intros Hb Hsend. apply run_eq. wp_run; try congruence; split; reflexivity.
  - intros Hok.
    assert (Hkick : wp (cmd_kick ctx member reason) (fun r w' =>
              r = Ok tt /\ ((ctx_guild ctx, member) ∉ members (discord w')) /\
              bans (discord w') = bans (discord w)) w).
    { wp_run; (split; [reflexivity|]); (split; [|reflexivity]);
        rewrite elem_of_difference, elem_of_singleton; tauto. }
    assert (Hban : wp (cmd_ban ctx member reason) (fun r w' =>
              r = Ok tt /\ ((ctx_guild ctx, member) ∉ members (discord w')) /\
              (ctx_guild ctx, member) ∈ bans (discord w')) w).
    { wp_run; (split; [reflexivity|]);
        (split;
         [ rewrite elem_of_difference, elem_of_singleton; tauto
         | apply elem_of_union; right; now apply elem_of_singleton ]). }
    destruct Hkick as (? & ? & ?). destruct Hban as (? & ? & ?). auto 7.
Qed.

Lemma kick_and_ban_leave_ledger_and_timers_witness :
  cmd_kick ctx1 10 "x" world_no_kick
  = (Ok tt, set_sent (fun l => l ++ [(to_channel 100, n_cannot_kick)]) world_no_kick) /\
  cmd_ban ctx1 10 "x" world_no_kick
  = (Ok tt, set_sent (fun l => l ++ [(to_channel 100, n_cannot_ban)]) world_no_kick) /\
  (1, 10) ∈ bans (discord (exec (cmd_ban ctx1 10 "x") world_warned3)) /\
  tasks (exec (cmd_ban ctx1 10 "x") world_warned3) = tasks world_warned3.
Proof.
  destruct (kick_and_ban_leave_ledger_and_timers ctx1 10 "x" world_no_kick)
    as (_ & Hkick & Hban & _).
  destruct (kick_and_ban_leave_ledger_and_timers ctx1 10 "x" world_warned3)
    as (Hframe & _ & _ & Hok).
  split; [apply Hkick; reflexivity|].
  split; [apply Hban; reflexivity|].
  split.
  - apply Hok. intros c. reflexivity.
  - apply (Hframe (cmd_ban ctx1 10 "x")). now right.
Defined.

(** ** Clearing the warnings without the permissions *)

(** X13. [cmd_clearwarns] gets through a bot without the permission to
    manage roles or timeouts. When lifting the timeout and removing the
    role are both forbidden, while the channel is writable and unbanning
    works, the command returns normally; the warnings are gone and any
    ban of the member is lifted, but the holders of the Muted role are
    what they were, and if the member held it the channel is told that
    the mute could not be removed. *)
Theorem clearwarns_without_role_permission (ctx : Context) (member : Z) (w : World) :
  faults w c_timeout = Some Forbidden -> faults w c_remove_roles = Some Forbidden ->
  faults w c_send = None -> faults w c_unban = None ->
  let w' := exec (cmd_clearwarns ctx member) w in
  result (cmd_clearwarns ctx member) w = Ok tt /\
  Database.get_warnings_count member (ctx_guild ctx) (db w') = 0 /\
  ((ctx_guild ctx, member) ∉ bans (discord w')) /\
  muted (discord w') = muted (discord w) /\
  timeouts (discord w') = timeouts (discord w) /\
  (is_muted w (ctx_guild ctx) member ->
   (to_channel (ctx_channel ctx), n_cannot_unmute member) ∈ sent w').
Proof.
  intros Hto Hrr Hsend Hunban w'.
  assert (Hcount : Database.get_warnings_count member (ctx_guild ctx) (db w') = 0).
  { unfold w'. rewrite clearwarns_store. apply count_after_delete_all. }
  assert (Hrun : wp (cmd_clearwarns ctx member) (fun r w' =>
            r = Ok tt /\
            ((ctx_guild ctx, member) ∉ bans (discord w')) /\
            muted (discord w') = muted (discord w) /\
            timeouts (discord w') = timeouts (discord w) /\
            (is_muted w (ctx_guild ctx) member ->
             (to_channel (ctx_channel ctx), n_cannot_unmute member) ∈ sent w')) w).
  { wp_run; try congruence; try discriminate;
      repeat split;
      first [ reflexivity | assumption
            | rewrite elem_of_difference, elem_of_singleton; tauto
            | intros [Hr Hm];
              first [ apply elem_of_app; right; now apply list_elem_of_singleton
                    | tauto ] ]. }
  destruct Hrun as (Hr & Hb & Hm & Ht & Hn). fold w' in Hb, Hm, Ht, Hn. auto 7.
Qed.

Lemma clearwarns_without_role_permission_witness :
  result (cmd_clearwarns ctx1 10) world_no_permission = Ok tt /\
  Database.get_warnings_count 10 1 (db (exec (cmd_clearwarns ctx1 10) world_no_permission)) = 0 /\
  is_muted (exec (cmd_clearwarns ctx1 10) world_no_permission) 1 10 /\
  (to_channel 100, n_cannot_unmute 10) ∈ sent (exec (cmd_clearwarns ctx1 10) world_no_permission).
Proof.
  destruct (clearwarns_without_role_permission ctx1 10 world_no_permission
              eq_refl eq_refl eq_refl eq_refl) as (Hr & Hc & _ & Hm & _ & Hn).
  assert (Hmuted : is_muted world_no_permission 1 10) by (split; vm_compute; reflexivity).
  split; [exact Hr|]. split; [exact Hc|]. split.
  - split; [vm_compute; reflexivity|]. rewrite Hm. apply Hmuted.
  - apply Hn, Hmuted.
Defined.

(** ** Temporary bans *)

#[global] Instance no_new_unban_preorder : PreOrder no_new_unban.
Proof.
  split.
  - intros w. exact id.
  - intros w1 w2 w3 H12 H23 H. apply H23, H12, H.
Qed.

Lemma apply_punishment_keeps_unban member c ctx :
  keeps (same unban_tasks_of) (apply_punishment member c ctx).
Proof.
  unfold apply_punishment.
  destruct (PUNISHMENTS !! c) as [[action duration]|] eqn:Hp;
    [|apply keeps_ret; typeclasses eauto].
  destruct (policy_cases _ _ _ Hp) as
    [(_ & Ha & d & Hdur & _ & _) | (_ & Ha & Hdur)]; subst action duration; simpl.
  - keeps_struct;
      first [ reflexivity
            | unfold same, unban_tasks_of; simpl;
              rewrite List.filter_app; simpl; apply app_nil_r ].
  - keeps_struct; reflexivity.
Qed.

Lemma same_unban_no_new (w w' : World) : same unban_tasks_of w w' -> no_new_unban w w'.
Proof. intros H Hnone. unfold same in H. now rewrite H. Qed.

(** The head of an application. *)
Ltac head_of t :=
  lazymatch t with
  | ?f _ => head_of f
  | _ => t
  end.

(** As [keeps_step], with [apply_punishment] taken as a whole. *)
Ltac keeps_unban_step :=
  lazymatch goal with
  | |- keeps _ (apply_punishment _ _ _) => apply apply_punishment_keeps_unban
  | |- keeps _ (mret _) => apply keeps_ret; typeclasses eauto
  | |- keeps _ (raise _) => apply keeps_raise; typeclasses eauto
  | |- keeps _ (gets _) => apply keeps_gets; typeclasses eauto
  | |- keeps _ (api _) => apply keeps_api; typeclasses eauto
  | |- keeps _ connect => apply keeps_connect; typeclasses eauto
  | |- keeps _ (modify _) => apply keeps_modify; intros ?
  | |- keeps _ utcnow => apply keeps_utcnow; intros ?
  | |- keeps _ (_ ≫= _) => apply keeps_bind; [typeclasses eauto | | intros ?]
  | |- keeps _ (try_except _ _ _) => apply keeps_try_except; [typeclasses eauto | | ]
  | |- keeps _ (for_each _ _) => apply keeps_for_each; [typeclasses eauto | intros ?]
  | |- keeps _ (let _ := _ in _) => cbv zeta
  | |- keeps _ (if ?b then _ else _) => destruct b
  | |- keeps _ (match ?x with _ => _ end) => destruct x
  | |- keeps _ ?m => let h := head_of m in unfold h
  end.

Ltac keeps_unban :=
  repeat keeps_unban_step;
  first [ reflexivity
        | unfold same, unban_tasks_of; simpl;
          rewrite List.filter_app; simpl; apply app_nil_r ].

Lemma filter_delete_nil {A} (f : A -> bool) (l : list A) (i : nat) :
  List.filter f l = [] -> List.filter f (delete i l) = [].
Proof.
  revert i. induction l as [|x l IH]; intros i H; [destruct i; exact H|].
  simpl in H. destruct (f x) eqn:Hx; [discriminate|].
  destruct i as [|i]; simpl; [exact H|]. rewrite Hx. now apply IH.
Qed.

Lemma command_no_new_unban (cmd : Coro unit) (w : World) :
  keeps (same unban_tasks_of) cmd -> no_new_unban w (exec cmd w).
Proof. intros Hk. apply same_unban_no_new, Hk. Qed.

Lemma step_no_new_unban (o : Op) (w : World) : no_new_unban w (step o w).
Proof.
  destruct o; simpl.
  - apply command_no_new_unban. keeps_unban.
  - intros Hnone. unfold exec, resume.
    destruct (tasks w !! i) as [t|] eqn:Hi; simpl; [|exact Hnone].
    assert (Ht : is_unban_later t = false).
    { destruct (is_unban_later t) eqn:E; [|reflexivity].
      apply list_elem_of_lookup_2 in Hi. apply list_elem_of_In in Hi.
      assert (Hin : In t (List.filter is_unban_later (tasks w)))
        by (apply List.filter_In; now split).
      unfold unban_tasks_of in Hnone. rewrite Hnone in Hin. destruct Hin. }
    assert (Hk : keeps (same unban_tasks_of) (run_task t)).
    { destruct t; [| |discriminate Ht]; keeps_unban. }
    specialize (Hk (set_tasks (delete i) w)). unfold same, exec in Hk. rewrite Hk.
    unfold unban_tasks_of. simpl. now apply filter_delete_nil.
  - apply command_no_new_unban. keeps_unban.
  - apply command_no_new_unban. keeps_unban.
  - apply command_no_new_unban. keeps_unban.
  - apply command_no_new_unban. keeps_unban.
  - apply command_no_new_unban. keeps_unban.
  - apply command_no_new_unban. keeps_unban.
  - apply command_no_new_unban. keeps_unban.
  - intros H. exact H.
Qed.

(** X14. No ban is ever lifted by a timer. The only ban of the table is
    permanent, so the branch of [apply_punishment] that schedules
    [unban_later] is never taken: if no such task is pending, then after
    any sequence of commands, tasks of the loop, startup recovery and
    changes outside none is pending; and no call of [apply_punishment],
    at any count and whatever fails, adds one. *)
Theorem no_ban_reversal_is_ever_scheduled :
  (forall member c ctx w,
     unban_tasks_of (exec (apply_punishment member c ctx) w) = unban_tasks_of w) /\
  (forall (ops : list Op) (w : World),
     unban_tasks_of w = [] ->
     unban_tasks_of (steps ops w) = [] /\
     forall t, t ∈ tasks (steps ops w) ->
       (exists u g a d, t = delayed_unpunish u g a d) \/
       (exists m ctx d, t = unmute_later m ctx d)).
Proof.
  split; [intros member c ctx w; apply apply_punishment_keeps_unban|].
  intros ops w Hnone.
  assert (H : no_new_unban w (steps ops w)).
  { clear Hnone. revert w. induction ops as [|o ops IH]; intros w; simpl; [reflexivity|].
    etransitivity; [apply step_no_new_unban | apply IH]. }
  specialize (H Hnone). split; [exact H|].
  intros t Ht. destruct t as [u g a d | m ctx d | m ctx d]; [left; eauto | right; eauto |].
  exfalso. apply list_elem_of_In in Ht.
  assert (Hin : In (unban_later m ctx d) (List.filter is_unban_later (tasks (steps ops w))))
    by (apply List.filter_In; now split).
  unfold unban_tasks_of in H. rewrite H in Hin. destruct Hin.
Qed.

Lemma no_ban_reversal_is_ever_scheduled_witness :
  unban_tasks_of
    (steps [op_warn ctx1 10 "e"; op_warn ctx1 10 "f"; op_warn ctx1 10 "g";
            op_warn ctx1 10 "h"] world_warned4) = [].
Proof.
  apply (proj2 no_ban_reversal_is_ever_scheduled
           [op_warn ctx1 10 "e"; op_warn ctx1 10 "f"; op_warn ctx1 10 "g";
            op_warn ctx1 10 "h"] world_warned4).
  reflexivity.
Defined.

(** ** The pages of the ban list *)

Lemma lookup_List_map {A B} (f : A -> B) (l : list A) (i : nat) :
  List.map f l !! i = f <$> (l !! i).
Proof. exact (list_lookup_fmap f l i). Qed.

Lemma concat_chunks {A} (l : list A) (m : nat) :
  concat (List.map (fun i => take 5 (drop i l)) (List.map (fun k => (5 * k)%nat) (seq 0 m)))
  = take (5 * m) l.
Proof.
  induction m as [|m IH]; [reflexivity|].
  rewrite seq_S, !List.map_app, concat_app, IH. simpl.
  rewrite app_nil_r, take_take_drop. f_equal. lia.
Qed.

Lemma pages_of_length (bans : list BanEntry) :
  length (pages_of bans) = ((length bans + 4) / 5)%nat.
Proof. unfold pages_of, range_by_5. now rewrite !length_map, length_seq. Qed.

Lemma pages_of_lookup (bans : list BanEntry) (k : nat) :
  (k < length (pages_of bans))%nat ->
  pages_of bans !! k = Some (take 5 (drop (5 * k) bans)).
Proof.
  intros Hk. rewrite pages_of_length in Hk.
  unfold pages_of, range_by_5. rewrite !lookup_List_map.
  rewrite lookup_seq_lt by exact Hk. reflexivity.
Qed.

Lemma div_up_bounds (n : nat) :
  (n <= 5 * ((n + 4) / 5) /\ 5 * ((n + 4) / 5) < n + 5)%nat.
Proof.
  pose proof (Nat.div_mod_eq (n + 4) 5) as H.
  pose proof (Nat.mod_upper_bound (n + 4) 5) as Hm. lia.
Qed.

(** X15. The pagination of the ban list loses and invents nothing: the
    pages, one after the other, are the bans in the order Discord gave
    them. There are as many pages as ceil(n / 5), every page has between
    one and five entries, all but the last have five, and there is no
    page exactly when there is no ban. *)
Theorem ban_pages_partition_the_bans (bans : list BanEntry) :
  concat (pages_of bans) = bans /\
  length (pages_of bans) = ((length bans + 4) / 5)%nat /\
  (forall (k : nat) page, pages_of bans !! k = Some page ->
     page = take 5 (drop (5 * k) bans) /\
     (1 <= length page <= 5)%nat /\
     ((S k < length (pages_of bans))%nat -> length page = 5%nat)) /\
  (pages_of bans = [] <-> bans = []).
Proof.
  pose proof (div_up_bounds (length bans)) as [Hlo Hhi].
  split; [|split; [apply pages_of_length|split]].
  - unfold pages_of, range_by_5. rewrite concat_chunks. now apply take_ge.
  - intros k page Hk.
    assert (Hlt : (k < length (pages_of bans))%nat) by (eapply lookup_lt_Some; exact Hk).
    rewrite (pages_of_lookup bans k Hlt) in Hk. injection Hk as <-.
    rewrite pages_of_length in *.
    split; [reflexivity|]. rewrite length_take, length_drop. split; lia.
  - split.
    + intros H. apply (f_equal (@length _)) in H. rewrite pages_of_length in H. simpl in H.
      destruct bans; [reflexivity|]. simpl in *. lia.
    + intros ->. reflexivity.
Qed.

Lemma ban_pages_partition_the_bans_witness :
  take 5 (drop 5 seven_bans) = drop 5 seven_bans /\
  length (drop 5 seven_bans) = 2%nat.
Proof.
  destruct (ban_pages_partition_the_bans seven_bans) as (_ & _ & Hpage & _).
  destruct (Hpage 1%nat (drop 5 seven_bans) eq_refl) as (Heq & _ & _).
  split; [symmetry; exact Heq | reflexivity].
Defined.

(** ** The numbers on the pages *)

Lemma enumerate_lookup {A} (xs : list A) (start : Z) (j : nat) :
  enumerate xs start !! j = (fun x => (start + Z.of_nat j, x)) <$> (xs !! j).
Proof.
  revert start j. induction xs as [|x xs IH]; intros start j; [now destruct j|].
  destruct j as [|j]; simpl.
  - do 2 f_equal. lia.
  - rewrite IH. destruct (xs !! j); simpl; [|reflexivity]. do 2 f_equal. lia.
Qed.

Lemma getitem_in_range {A} (l : list A) (i : Z) :
  0 <= i -> getitem l i = l !! Z.to_nat i.
Proof. intros Hi. unfold getitem. now rewrite bool_decide_eq_true_2 by exact Hi. Qed.

Lemma getitem_none {A} (l : list A) (i : Z) :
  getitem l i = None <-> i < - Z.of_nat (length l) \/ Z.of_nat (length l) <= i.
Proof.
  unfold getitem. case_bool_decide as H0.
  - rewrite lookup_ge_None. lia.
  - case_bool_decide as H1.
    + rewrite lookup_ge_None. lia.
    + split; [lia | reflexivity].
Qed.

Lemma page_entry (bans : list BanEntry) (k j : nat) (page : list BanEntry) entry :
  pages_of bans !! k = Some page -> page !! j = Some entry ->
  (j < 5)%nat /\ bans !! (5 * k + j)%nat = Some entry.
Proof.
  intros Hk Hj.
  assert (Hlt : (k < length (pages_of bans))%nat) by (eapply lookup_lt_Some; exact Hk).
  rewrite (pages_of_lookup bans k Hlt) in Hk. injection Hk as <-.
  apply lookup_take_Some in Hj as [Hj Hj5]. rewrite lookup_drop in Hj. auto.
Qed.

Lemma page_length (bans : list BanEntry) (k : nat) page :
  pages_of bans !! k = Some page -> (1 <= length page <= 5)%nat /\ page = take 5 (drop (5 * k) bans).
Proof.
  intros Hk.
  pose proof (div_up_bounds (length bans)) as [Hlo Hhi].
  assert (Hlt : (k < length (pages_of bans))%nat) by (eapply lookup_lt_Some; exact Hk).
  rewrite (pages_of_lookup bans k Hlt) in Hk. injection Hk as <-.
  rewrite pages_of_length in Hlt. rewrite length_take, length_drop. split; [lia | reflexivity].
Qed.

(** X16. The numbers on the pages of the ban list follow the bans. An
    index outside the pages, on either side, is an IndexError; at an
    index from 0 on that has a page, the embed is headed "page index + 1
    of the number of pages" and its j-th field carries the number
    5 * index + j + 1 and shows the ban at that place of the list, with
    "No reason provided" for a missing or empty reason. Conversely the
    k-th ban is shown, with number k, on page k / 5 at place k mod 5 and
    so exactly once. *)
Theorem ban_list_numbers_follow_the_bans (bans : list BanEntry) :
  (forall index,
     build_banlist_embed (pages_of bans) index = None <->
     index < - Z.of_nat (length (pages_of bans)) \/
     Z.of_nat (length (pages_of bans)) <= index) /\
  (forall index e,
     0 <= index -> build_banlist_embed (pages_of bans) index = Some e ->
     e_page e = index + 1 /\ e_of e = Z.of_nat (length (pages_of bans)) /\
     1 <= e_page e <= e_of e /\
     e_fields e <> [] /\
     forall (j : nat) f, e_fields e !! j = Some f ->
       f_number f = 5 * index + Z.of_nat j + 1 /\
       exists entry, bans !! Z.to_nat (f_number f - 1) = Some entry /\
         f_user_id f = be_user_id entry /\ f_user_name f = be_user_name entry /\
         f_reason f = reason_or_default (be_reason entry)) /\
  (forall (k : nat) entry, bans !! k = Some entry ->
     exists e, build_banlist_embed (pages_of bans) (Z.of_nat (k / 5)) = Some e /\
       e_fields e !! (k mod 5)%nat
       = Some {| f_number := Z.of_nat k + 1;
                 f_user_name := be_user_name entry;
                 f_user_id := be_user_id entry;
                 f_reason := reason_or_default (be_reason entry) |}).
Proof.
  split; [|split].
  - intros index. unfold build_banlist_embed. rewrite <- getitem_none.
    destruct (getitem (pages_of bans) index); split; intros H; congruence.
  - intros index e Hindex Hbuild. unfold build_banlist_embed in Hbuild.
    rewrite getitem_in_range in Hbuild by exact Hindex.
    destruct (pages_of bans !! Z.to_nat index) as [page|] eqn:Hpage; [|discriminate].
    injection Hbuild as <-. simpl.
    assert (Hlt : (Z.to_nat index < length (pages_of bans))%nat)
      by (eapply lookup_lt_Some; exact Hpage).
    destruct (page_length bans _ _ Hpage) as [Hlen _].
    split; [reflexivity|]. split; [reflexivity|]. split; [lia|]. split.
    + destruct page; [simpl in Hlen; lia | discriminate].
    + intros j f Hf. rewrite lookup_List_map, enumerate_lookup in Hf.
      destruct (page !! j) as [entry|] eqn:Hj; [|discriminate].
      injection Hf as <-. simpl.
      destruct (page_entry bans _ _ _ _ Hpage Hj) as [Hj5 Hentry].
      split; [lia|]. exists entry. split; [|auto].
      rewrite <- Hentry. f_equal. lia.
  - intros k entry Hk.
    assert (Hkn : (k < length bans)%nat) by (eapply lookup_lt_Some; exact Hk).
    pose proof (div_up_bounds (length bans)) as [Hlo Hhi].
    pose proof (Nat.div_mod_eq k 5) as Hdm.
    pose proof (Nat.mod_upper_bound k 5 ltac:(lia)) as Hm.
    assert (Hq : (k / 5 < length (pages_of bans))%nat) by (rewrite pages_of_length; lia).
    unfold build_banlist_embed. rewrite getitem_in_range by lia.
    rewrite Nat2Z.id, (pages_of_lookup bans _ Hq).
    eexists. split; [reflexivity|]. cbn [e_fields].
    rewrite lookup_List_map, enumerate_lookup.
    rewrite lookup_take_lt by exact Hm. rewrite lookup_drop.
    replace (5 * (k / 5) + k mod 5)%nat with k by lia. rewrite Hk. cbn [fmap option_fmap option_map].
    do 2 f_equal. lia.
Qed.

Lemma ban_list_numbers_follow_the_bans_witness :
  (exists e, build_banlist_embed (pages_of seven_bans) 1 = Some e /\
     e_fields e !! 1%nat
     = Some {| f_number := 7; f_user_name := "g"; f_user_id := 7; f_reason := "raid" |}) /\
  (exists e, build_banlist_embed (pages_of seven_bans) 0 = Some e /\
     e_fields e !! 3%nat
     = Some {| f_number := 4; f_user_name := "d"; f_user_id := 4;
               f_reason := "No reason provided" |}).
Proof.
  destruct (ban_list_numbers_follow_the_bans seven_bans) as (_ & _ & Hshown).
  split.
  - exact (Hshown 6%nat _ eq_refl).
  - exact (Hshown 3%nat _ eq_refl).
Defined.

(** ** Turning the pages *)

Lemma build_in_range (bans : list BanEntry) (index : Z) :
  0 <= index < Z.of_nat (length (pages_of bans)) ->
  exists e, build_banlist_embed (pages_of bans) index = Some e /\
            e_page e = index + 1 /\ e_of e = Z.of_nat (length (pages_of bans)).
Proof.
  intros Hi. unfold build_banlist_embed. rewrite getitem_in_range by lia.
  destruct (pages_of bans !! Z.to_nat index) as [page|] eqn:Hpage.
  - eexists. split; [reflexivity|]. split; reflexivity.
  - apply lookup_ge_None in Hpage. lia.
Qed.

Lemma last_of_cons {A} (x : A) (l : list A) (d d' : A) :
  List.last (x :: l) d = List.last (x :: l) d'.
Proof.
  revert x. induction l as [|y l IH]; intros x; [reflexivity|].
  change (List.last (y :: l) d = List.last (y :: l) d'). apply IH.
Qed.

Lemma banlist_loop_stays_in_range (bans : list BanEntry) (reactions : list Emoji) (index : Z) :
  0 <= index < Z.of_nat (length (pages_of bans)) ->
  exists edits last,
    banlist_loop (pages_of bans) index reactions = Some (edits, last) /\
    0 <= last < Z.of_nat (length (pages_of bans)) /\
    (length edits <= length reactions)%nat /\
    Forall (fun e => 1 <= e_page e <= e_of e /\
                     e_of e = Z.of_nat (length (pages_of bans))) edits /\
    List.last (List.map e_page edits) (index + 1) = last + 1.
Proof.
  revert index. induction reactions as [|r rest IH]; intros index Hi.
  - exists [], index. simpl. repeat split; try lia. constructor.
  - assert (Hstay : (exists edits last,
              banlist_loop (pages_of bans) index rest = Some (edits, last) /\
              0 <= last < Z.of_nat (length (pages_of bans)) /\
              (length edits <= length (r :: rest))%nat /\
              Forall (fun e => 1 <= e_page e <= e_of e /\
                               e_of e = Z.of_nat (length (pages_of bans))) edits /\
              List.last (List.map e_page edits) (index + 1) = last + 1)).
    { destruct (IH index Hi) as (edits & last & Hrun & Hlast & Hlen & Hall & Hshown).
      exists edits, last. simpl. repeat split; try assumption; lia. }
    assert (Hturn : forall index', 0 <= index' < Z.of_nat (length (pages_of bans)) ->
              exists edits last,
                match build_banlist_embed (pages_of bans) index' with
                | None => None
                | Some embed =>
                    match banlist_loop (pages_of bans) index' rest with
                    | None => None
                    | Some (edits, last) => Some (embed :: edits, last)
                    end
                end = Some (edits, last) /\
                0 <= last < Z.of_nat (length (pages_of bans)) /\
                (length edits <= length (r :: rest))%nat /\
                Forall (fun e => 1 <= e_page e <= e_of e /\
                                 e_of e = Z.of_nat (length (pages_of bans))) edits /\
                List.last (List.map e_page edits) (index + 1) = last + 1).
    { intros index' Hi'.
      destruct (build_in_range bans index' Hi') as (e & -> & Hpage & Hof).
      destruct (IH index' Hi') as (edits & last & -> & Hlast & Hlen & Hall & Hshown).
      exists (e :: edits), last. split; [reflexivity|]. split; [exact Hlast|].
      split; [simpl; lia|]. split; [constructor; [lia | exact Hall]|].
      destruct edits as [|e' edits]; [simpl in *; lia|].
      rewrite <- Hshown.
      change (List.last (e_page e :: List.map e_page (e' :: edits)) (index + 1))
        with (List.last (List.map e_page (e' :: edits)) (index + 1)).
      exact (last_of_cons (e_page e') (List.map e_page edits) _ _). }
    simpl. destruct r; case_bool_decide; first [apply Hturn; lia | exact Hstay].
Qed.

(** X17. Turning the pages never leaves them. For any bans, at least
    one, and any reactions received before the timeout, [cmd_banlist]
    runs into no IndexError: it shows page 1 first and then at most one
    edit per reaction; every embed shown is a page from 1 to the number
    of pages, the index ends inside the pages, and the page last shown
    is the one the index ends on. A left arrow on the first page and a
    right arrow on the last change nothing. With no ban it only says
    so. *)
Theorem banlist_pages_stay_in_range (bans : list BanEntry) (reactions : list Emoji) :
  cmd_banlist [] reactions = Some no_bans /\
  (bans <> [] ->
   exists first edits last,
     cmd_banlist bans reactions = Some (ban_pages first edits last) /\
     e_page first = 1 /\
     0 <= last < Z.of_nat (length (pages_of bans)) /\
     (length edits <= length reactions)%nat /\
     Forall (fun e => 1 <= e_page e <= e_of e /\
                      e_of e = Z.of_nat (length (pages_of bans))) (first :: edits) /\
     List.last (List.map e_page (first :: edits)) 0 = last + 1) /\
  (forall rest,
     banlist_loop (pages_of bans) 0 (arrow_left :: rest)
     = banlist_loop (pages_of bans) 0 rest /\
     banlist_loop (pages_of bans) (Z.of_nat (length (pages_of bans)) - 1) (arrow_right :: rest)
     = banlist_loop (pages_of bans) (Z.of_nat (length (pages_of bans)) - 1) rest).
Proof.
  split; [reflexivity|]. split.
  - intros Hne.
    assert (Hpages : 0 < Z.of_nat (length (pages_of bans))).
    { rewrite pages_of_length. destruct bans as [|b bans]; [congruence|].
      pose proof (div_up_bounds (length (b :: bans))) as [Hlo _]. simpl in *. lia. }
    destruct (build_in_range bans 0 ltac:(lia)) as (first & Hbuild & Hpage & Hof).
    destruct (banlist_loop_stays_in_range bans reactions 0 ltac:(lia))
      as (edits & last & Hrun & Hlast & Hlen & Hall & Hshown).
    exists first, edits, last.
    split.
    { unfold cmd_banlist. destruct bans; [congruence|]. now rewrite Hbuild, Hrun. }
    split; [exact Hpage|]. split; [exact Hlast|]. split; [exact Hlen|].
    split; [constructor; [lia | exact Hall]|].
    destruct edits as [|e' edits]; [simpl in *; lia|].
    rewrite <- Hshown.
    change (List.last (List.map e_page (first :: e' :: edits)) 0)
      with (List.last (List.map e_page (e' :: edits)) 0).
    exact (last_of_cons (e_page e') (List.map e_page edits) _ _).
  - intros rest. split.
    + reflexivity.
    + cbn [banlist_loop]. rewrite bool_decide_eq_false_2 by lia. reflexivity.
Qed.

Lemma banlist_pages_stay_in_range_witness :
  exists first edits last,
    cmd_banlist seven_bans [arrow_left; arrow_right; arrow_right; arrow_left]
    = Some (ban_pages first edits last) /\
    e_page first = 1 /\
    0 <= last < Z.of_nat (length (pages_of seven_bans)) /\
    (length edits <= 4)%nat /\
    Forall (fun e => 1 <= e_page e <= e_of e /\
                     e_of e = Z.of_nat (length (pages_of seven_bans))) (first :: edits) /\
    List.last (List.map e_page (first :: edits)) 0 = last + 1.
Proof.
  apply (proj1 (proj2 (banlist_pages_stay_in_range seven_bans
                         [arrow_left; arrow_right; arrow_right; arrow_left]))).
  discriminate.
Defined.

(** ** Recovery run again *)

(** X18. Startup recovery is not idempotent. [cog_load] does not look at
    the tasks already pending: with the store reachable, run a second
    time, as when the extension is loaded again, it ends as it did the
    first time and creates a second reversal for every row it gets to,
    so that every key then has two more recovery timers than before for
    each of these rows; when recovery returns normally these are all the
    rows of the key that have an expiry. *)
Theorem cog_load_again_doubles_the_timers (w : World) :
  let rows := Database.get_all_active_punishments (db w) in
  connect_fault w = None ->
  tasks (exec cog_load (exec cog_load w))
  = tasks w ++ recovery_tasks (clock w) (ticks w) rows
            ++ recovery_tasks (clock w) (ticks w + recovery_ticks rows)%nat rows /\
  result cog_load (exec cog_load w) = result cog_load w /\
  (forall u g a,
     recovery_timers_for u g a (exec cog_load (exec cog_load w))
     = (recovery_timers_for u g a w + 2 * readable_for u g a w)%nat) /\
  (result cog_load w = Ok tt ->
   forall u g a,
     recovery_timers_for u g a (exec cog_load (exec cog_load w))
     = (recovery_timers_for u g a w + 2 * rows_for u g a w)%nat).
Proof.
  intros rows Hconn.
  pose proof (cog_load_run w Hconn) as Hrun. fold rows in Hrun.
  assert (Hw : exec cog_load w
               = set_ticks (fun n => (n + recovery_ticks rows)%nat)
                   (set_tasks (fun l => l ++ recovery_tasks (clock w) (ticks w) rows) w)).
  { unfold exec. now rewrite Hrun. }
  pose proof (cog_load_run (exec cog_load w)) as Hrun'.
  rewrite Hw in Hrun'. specialize (Hrun' Hconn). simpl in Hrun'. fold rows in Hrun'.
  rewrite <- Hw in Hrun'.
  assert (Ht : tasks (exec cog_load (exec cog_load w))
               = tasks w ++ recovery_tasks (clock w) (ticks w) rows
                         ++ recovery_tasks (clock w) (ticks w + recovery_ticks rows)%nat rows).
  { unfold exec at 1. rewrite Hrun'. rewrite Hw. simpl. now rewrite <- app_assoc. }
  assert (Hcount : forall u g a,
     recovery_timers_for u g a (exec cog_load (exec cog_load w))
     = (recovery_timers_for u g a w + 2 * readable_for u g a w)%nat).
  { intros u g a. unfold recovery_timers_for, readable_for. rewrite Ht.
    rewrite !List.filter_app, !length_app, !recovery_count_rows. fold rows. lia. }
  split; [exact Ht|].
  split; [unfold result; rewrite Hrun', Hrun; reflexivity|].
  split; [exact Hcount|].
  intros Hok u g a. rewrite Hcount. f_equal. f_equal.
  apply cog_load_ok in Hok as [_ Hall]. unfold readable_for.
  rewrite (readable_naive _ Hall). apply active_count_rows.
Qed.

Lemma cog_load_again_doubles_the_timers_witness :
  tasks (exec cog_load (exec cog_load world_expired))
  = [delayed_unpunish 10 1 "mute" 0; delayed_unpunish 10 1 "mute" 0] /\
  recovery_timers_for 10 1 "mute" (exec cog_load (exec cog_load world_expired)) = 2%nat /\
  recovery_timers_for 10 1 "mute" (exec cog_load (exec cog_load world_offset)) = 0%nat.
Proof.
  destruct (cog_load_again_doubles_the_timers world_expired eq_refl)
    as (Ht & _ & _ & Hall).
  destruct (cog_load_again_doubles_the_timers world_offset eq_refl)
    as (_ & _ & Hread & _).
  split; [exact Ht|]. split.
  - rewrite (Hall eq_refl 10 1 "mute"). reflexivity.
  - rewrite (Hread 10 1 "mute"). reflexivity.
Defined.

(** ** A reversal run twice *)

Lemma delayed_unpunish_first user_id guild_id action delay w :
  guild_id ∈ guilds (discord w) -> (guild_id, user_id) ∈ members (discord w) ->
  api_ok w ->
  wp (_delayed_unpunish user_id guild_id action delay) (fun r w1 =>
    r = Ok tt /\ api_ok w1 /\
    guild_id ∈ guilds (discord w1) /\ (guild_id, user_id) ∈ members (discord w1) /\
    (action = "mute" -> ~ is_muted w1 guild_id user_id) /\
    (action = "ban" -> (guild_id, user_id) ∉ bans (discord w1)) /\
    db w1 = Database.delete_punishment user_id guild_id action (db w)) w.
Proof.
  intros Hg Hm Hf.
  wp_run; try tauto; try discriminate; unfold is_muted; simpl;
    repeat split; try reflexivity; try assumption; try congruence;
    try (intros _; rewrite elem_of_difference, elem_of_singleton; tauto);
    try (intros _ [Hr Hh]; revert Hh; rewrite ?elem_of_difference, ?elem_of_singleton;
         tauto).
  all: intros _ [Hr Hh];
       match goal with
       | Hb : _ && _ = false |- _ =>
           rewrite !bool_decide_eq_true_2 in Hb by assumption; discriminate Hb
       end.
Qed.

Lemma delayed_unpunish_settled user_id guild_id action delay w :
  guild_id ∈ guilds (discord w) -> (guild_id, user_id) ∈ members (discord w) ->
  api_ok w ->
  (action = "mute" -> ~ is_muted w guild_id user_id) ->
  (action = "ban" -> (guild_id, user_id) ∉ bans (discord w)) ->
  _delayed_unpunish user_id guild_id action delay w
  = (Ok tt, set_db (Database.delete_punishment user_id guild_id action) w).
Proof.
  intros Hg Hm Hf Hmute Hban. apply run_eq.
  wp_run; try tauto; try discriminate; try (split; reflexivity).
  all: exfalso; apply (Hmute ltac:(assumption));
       apply andb_true_iff in Heqb as [Hr Hh];
       apply bool_decide_eq_true_1 in Hr; apply bool_decide_eq_true_1 in Hh; now split.
Qed.

Lemma set_db_fixed (f : Database.Db -> Database.Db) (w : World) :
  f (db w) = db w -> set_db f w = w.
Proof. intros H. destruct w. unfold set_db. simpl in *. now rewrite H. Qed.

(** X19. A reversal that runs twice does nothing the second time. When
    the guild and the member resolve and the calls succeed,
    [_delayed_unpunish] run again on the world it left, as the second of
    two timers of one key will, returns normally and leaves that world
    exactly as it found it: no role is touched, no ban lifted, no
    message sent and no row deleted that the first run had left. *)
Theorem delayed_unpunish_twice_is_once (user_id guild_id : Z) (action : string)
    (delay delay' : Z) (w : World) :
  guild_id ∈ guilds (discord w) -> (guild_id, user_id) ∈ members (discord w) ->
  api_ok w ->
  let w1 := exec (_delayed_unpunish user_id guild_id action delay) w in
  _delayed_unpunish user_id guild_id action delay' w1 = (Ok tt, w1).
Proof.
  intros Hg Hm Hf w1.
  destruct (delayed_unpunish_first user_id guild_id action delay w Hg Hm Hf)
    as (_ & Hf1 & Hg1 & Hm1 & Hmute & Hban & Hdb).
  fold w1 in Hf1, Hg1, Hm1, Hmute, Hban, Hdb.
  rewrite (delayed_unpunish_settled user_id guild_id action delay' w1 Hg1 Hm1 Hf1 Hmute Hban).
  f_equal. apply set_db_fixed. rewrite Hdb. apply delete_punishment_idem.
Qed.

Lemma delayed_unpunish_twice_is_once_witness :
  _delayed_unpunish 10 1 "mute" 0 (exec (_delayed_unpunish 10 1 "mute" 0) world_recorded)
  = (Ok tt, exec (_delayed_unpunish 10 1 "mute" 0) world_recorded).
Proof.
  apply (delayed_unpunish_twice_is_once 10 1 "mute" 0 0 world_recorded).
  - vm_compute. reflexivity.
  - vm_compute. reflexivity.
  - intros c. reflexivity.
Defined.


(** ** Below the table *)

Lemma adjust_below_3_timeout member n ctx w :
  n < 3 -> api_ok w ->
  (ctx_guild ctx, member) ∉ timeouts (discord (exec (adjust_punishment_after_change member n ctx) w)).
Proof.
  intros Hn Hf.
  assert (H : wp (adjust_punishment_after_change member n ctx) (fun _ w1 =>
            (ctx_guild ctx, member) ∉ timeouts (discord w1)) w).
  { unfold adjust_punishment_after_change. rewrite bool_decide_eq_true_2 by lia.
    wp_run; rewrite elem_of_difference, elem_of_singleton; tauto. }
  exact H.
Qed.

(** X20. Taking back a warning below the table unmutes at once and
    cancels nothing. When the ids are a key, the calls succeed and fewer
    than 3 warnings are left after [cmd_delwarn], the member is
    afterwards without the Muted role and without timeout, while the
    tasks of the loop are exactly those pending before: the reversal of
    the mute just lifted stays scheduled. *)
Theorem delwarn_below_the_table_cancels_nothing (ctx : Context) (member : Z) (w : World) :
  NoDup (List.map Database.w_id (warnings_of w)) ->
  api_ok w ->
  let n := Database.get_warnings_count member (ctx_guild ctx) (db w) - 1 in
  0 <= n < 3 ->
  let w' := exec (cmd_delwarn ctx member) w in
  result (cmd_delwarn ctx member) w = Ok tt /\
  Database.get_warnings_count member (ctx_guild ctx) (db w') = n /\
  ~ is_muted w' (ctx_guild ctx) member /\
  ((ctx_guild ctx, member) ∉ timeouts (discord w')) /\
  bans (discord w') = bans (discord w) /\
  tasks w' = tasks w.
Proof.
  intros Hnd Hok n Hn w'.
  destruct (Database.get_one_user_warning member (ctx_guild ctx) (db w)) as [i|] eqn:Hrow;
    [|apply no_warning_iff in Hrow; lia].
  destruct (delwarn_some ctx member w i Hrow Hok)
    as (w_mid & Hdb & Hd & Ht & Hok_mid & Hres & Hr & Hw').
  fold w' in Hw'.
  assert (Hcount : Database.get_warnings_count member (ctx_guild ctx) (db w_mid) = n).
  { destruct (latest_row _ _ _ _ Hrow) as [(r & Hin & Hid & Hpair) _].
    destruct (delete_by_id_split _ r Hnd Hin) as (l1 & l2 & Hsplit & Hfilter).
    unfold n, Database.get_warnings_count. rewrite Hdb. simpl.
    fold (warnings_of w). rewrite <- Hid, Hfilter, Hsplit. now apply count_split. }
  simpl in Hres, Hr, Hw'. rewrite Hcount in Hres, Hr, Hw'.
  assert (Hnone : PUNISHMENTS !! n = None).
  { unfold PUNISHMENTS. rewrite !lookup_insert_ne by lia. apply lookup_empty. }
  assert (Happly : apply_punishment member n ctx w_mid = (Ok tt, w_mid)).
  { unfold apply_punishment. now rewrite Hnone. }
  assert (E : exec (apply_punishment member n ctx) w_mid = w_mid)
    by (unfold exec; now rewrite Happly).
  rewrite E in Hr, Hw'.
  destruct (adjust_below_3 member n ctx w_mid (proj2 Hn) Hok_mid)
    as (Hradj & Hdb1 & Ht1 & Hnm & Hb & _ & _).
  pose proof (adjust_below_3_timeout member n ctx w_mid (proj2 Hn) Hok_mid) as Hto.
  rewrite <- Hw' in Hdb1, Ht1, Hnm, Hb, Hto.
  split; [now rewrite Hr|]. split; [now rewrite Hdb1|].
  split; [exact Hnm|]. split; [exact Hto|].
  split; [now rewrite Hb, Hd | now rewrite Ht1, Ht].
Qed.

Lemma delwarn_below_the_table_cancels_nothing_witness :
  ~ is_muted (exec (cmd_delwarn ctx1 10) world_warned3) 1 10 /\
  tasks (exec (cmd_delwarn ctx1 10) world_warned3)
  = [unmute_later 10 ctx1 (timedelta_hours 1)].
Proof.
  destruct (delwarn_below_the_table_cancels_nothing ctx1 10 world_warned3)
    as (_ & _ & Hnm & _ & _ & Ht).
  - apply (bool_decide_unpack _). vm_compute. exact I.
  - intros c. reflexivity.
  - change (0 <= 2 < 3). lia.
  - split; [exact Hnm | rewrite Ht; reflexivity].
Defined.

(** ** A mute on top of a timeout *)

(** X21. A mute of the table lifts a timeout only from a member who is
    muted already. When the calls succeed and the count is from 3 to 7,
    [apply_punishment] removes the timeout of the member if they held
    the Muted role before the call, as at an escalation from one
    threshold to the next, and leaves all timeouts as they were if they
    did not: a first mute comes on top of a timeout set by [cmd_mute]. *)
Theorem mute_lifts_the_timeout_of_the_muted_only
    (member c : Z) (ctx : Context) (w : World) :
  3 <= c <= 7 -> api_ok w ->
  let w' := exec (apply_punishment member c ctx) w in
  (is_muted w (ctx_guild ctx) member ->
   timeouts (discord w') = timeouts (discord w) ∖ {[(ctx_guild ctx, member)]}) /\
  (~ is_muted w (ctx_guild ctx) member ->
   timeouts (discord w') = timeouts (discord w)).
Proof.
  intros Hc Hf w'.
  destruct (policy_mute c Hc) as (d & Hd & Hp).
  assert (H : wp (apply_punishment member c ctx) (fun _ w1 =>
            (is_muted w (ctx_guild ctx) member ->
             timeouts (discord w1) = timeouts (discord w) ∖ {[(ctx_guild ctx, member)]}) /\
            (~ is_muted w (ctx_guild ctx) member ->
             timeouts (discord w1) = timeouts (discord w))) w).
  { unfold apply_punishment. rewrite Hp. simpl.
    wp_run; unfold is_muted; simpl; split; intros Hmuted;
      first [ reflexivity | tauto
            | exfalso;
              match goal with
              | Hin : _ ∈ filter _ _ |- _ =>
                  apply elem_of_filter in Hin as [Hne _]; now apply Hne
              end ]. }
  exact H.
Qed.

Lemma mute_lifts_the_timeout_of_the_muted_only_witness :
  (1, 10) ∈ timeouts (discord (exec (apply_punishment 10 3 ctx1)
                                 (exec (cmd_mute ctx1 10 5) world_warned2))) /\
  (1, 10) ∉ timeouts (discord (exec (apply_punishment 10 4 ctx1)
                                 (exec (cmd_mute ctx1 10 5) world_warned3))).
Proof.
  destruct (mute_lifts_the_timeout_of_the_muted_only 10 3 ctx1
              (exec (cmd_mute ctx1 10 5) world_warned2)) as [_ Hfirst];
    [lia | intros c; reflexivity |].
  destruct (mute_lifts_the_timeout_of_the_muted_only 10 4 ctx1
              (exec (cmd_mute ctx1 10 5) world_warned3)) as [Hagain _];
    [lia | intros c; reflexivity |].
  split.
  - rewrite Hfirst; [vm_compute; reflexivity|].
    intros [Hr _]. vm_compute in Hr. discriminate Hr.
  - rewrite Hagain; [|split; vm_compute; reflexivity].
    rewrite elem_of_difference, elem_of_singleton. tauto.
Defined.

(** ** Purging *)

(** X22. [cmd_purge] deletes the invoking message and at most [amount]
    messages before it. An amount that is not from 1 to 100 is refused
    and nothing is deleted, 0 included. Otherwise the deleted messages
    are the newest [amount + 1] of the channel, or all of them if there
    are fewer, never more than 101, and the rest stays in order; the
    number reported is min(amount, n - 1) for a channel of n messages,
    which is the number of messages deleted beside the command itself
    and is -1 if the channel turned out empty. *)
Theorem purge_counts_beside_the_command (amount : Z) (history : list Z) :
  (amount <= 0 \/ 100 < amount -> cmd_purge amount history = purge_refused) /\
  (1 <= amount <= 100 ->
   exists deleted remaining reported,
     cmd_purge amount history = purge_done deleted remaining reported /\
     deleted ++ remaining = history /\
     (length deleted <= 101)%nat /\
     reported = Z.min amount (Z.of_nat (length history) - 1) /\
     Z.of_nat (length deleted) = reported + 1 /\
     (forall command rest, history = command :: rest ->
        0 <= reported <= amount /\
        deleted = command :: take (Z.to_nat amount) rest /\
        remaining = drop (Z.to_nat amount) rest)).
Proof.
  split.
  - intros H. unfold cmd_purge.
    destruct H; [rewrite (bool_decide_eq_true_2 (amount <= 0)) by lia; reflexivity|].
    rewrite (bool_decide_eq_true_2 (amount > 100)) by lia. now rewrite orb_true_r.
  - intros H. unfold cmd_purge, channel_purge.
    rewrite (bool_decide_eq_false_2 (amount <= 0)) by lia.
    rewrite (bool_decide_eq_false_2 (amount > 100)) by lia. simpl.
    eexists _, _, _. split; [reflexivity|].
    assert (Hlen : length (take (Z.to_nat (amount + 1)) history)
                   = Nat.min (Z.to_nat (amount + 1)) (length history)) by apply length_take.
    split; [apply take_drop|]. split; [lia|]. split; [lia|]. split; [lia|].
    intros command rest ->. simpl in Hlen.
    replace (Z.to_nat (amount + 1)) with (S (Z.to_nat amount)) in * by lia.
    simpl. split; [simpl in Hlen; lia|]. split; reflexivity.
Qed.

Lemma purge_counts_beside_the_command_witness :
  cmd_purge 0 [5; 4; 3; 2; 1] = purge_refused /\
  exists deleted remaining reported,
    cmd_purge 2 [5; 4; 3; 2; 1] = purge_done deleted remaining reported /\
    deleted ++ remaining = [5; 4; 3; 2; 1] /\
    (length deleted <= 101)%nat /\
    reported = Z.min 2 (Z.of_nat (length [5; 4; 3; 2; 1]) - 1) /\
    Z.of_nat (length deleted) = reported + 1 /\
    (forall command rest, [5; 4; 3; 2; 1] = command :: rest ->
       0 <= reported <= 2 /\
       deleted = command :: take (Z.to_nat 2) rest /\
       remaining = drop (Z.to_nat 2) rest).
Proof.
  destruct (purge_counts_beside_the_command 0 [5; 4; 3; 2; 1]) as [Hrefused _].
  destruct (purge_counts_beside_the_command 2 [5; 4; 3; 2; 1]) as [_ Hdone].
  split; [apply Hrefused; lia | apply Hdone; lia].
Defined.
